(** * PrintStack: a shallow embedding of the inventory script

    The development follows [deploy/script.js] (the deployed single-page
    application) and the print form of the React rewrite
    ([src/components/prints/PrintForm.jsx]).  JavaScript values are embedded
    as a small universe [JSVal]; the three global collections, the browser
    storage and the forms the handlers read are explicit state; exceptions
    are an error monad.  *)

From Stdlib Require Import ZArith QArith Qround Ascii String Lia.
From stdpp Require Import base option list gmap strings.

Close Scope Q_scope.
Local Open Scope Z_scope.
Local Open Scope nat_scope.

(** ** JavaScript values *)

Module JS.

(** Numbers.  Finite doubles are idealised as rationals (no rounding, no
    negative zero); the three special values are kept. *)
Inductive JSNum : Type :=
| NaN
| PosInf
| NegInf
| Fin (q : Q).

#[warnings="-register-all"]
Inductive JSVal : Type :=
| VUndef
| VNull
| VBool (b : bool)
| VNum (n : JSNum)
| VStr (s : string)
| VObj (fields : list (string * JSVal)).

Inductive JSType : Type :=
| TUndefined | TObject | TBoolean | TNumber | TString.

Inductive JSError : Type :=
| TypeError (what : string).

Inductive result (A : Type) : Type :=
| Ok (a : A)
| Throw (e : JSError).
Arguments Ok {A} a.
Arguments Throw {A} e.

#[global] Instance result_ret : MRet result := fun _ a => Ok a.
#[global] Instance result_bind : MBind result := fun _ _ f m =>
  match m with
  | Ok a => f a
  | Throw e => Throw e
  end.

(** The parts of the host that are not modelled by computation: the
    ECMAScript number printer and the locale-aware collation. *)
Class Host : Type := {
  NumberToString : JSNum -> string;
  localeCompare : string -> string -> JSNum
}.

(** *** Numbers *)

Definition Qltb (a b : Q) : bool := negb (Qle_bool b a).

Definition num_eqb (a b : JSNum) : bool :=
  match a, b with
  | PosInf, PosInf | NegInf, NegInf => true
  | Fin x, Fin y => Qeq_bool x y
  | _, _ => false
  end.

Definition num_ltb (a b : JSNum) : bool :=
  match a, b with
  | NaN, _ | _, NaN => false
  | _, NegInf | PosInf, _ => false
  | NegInf, _ | _, PosInf => true
  | Fin x, Fin y => Qltb x y
  end.

Definition num_gtb (a b : JSNum) : bool := num_ltb b a.

Definition num_leb (a b : JSNum) : bool :=
  match a, b with
  | NaN, _ | _, NaN => false
  | _, _ => negb (num_ltb b a)
  end.

Definition num_geb (a b : JSNum) : bool := num_leb b a.

(** [a + b] on numbers.  The sum of two finite numbers is the exact sum;
    the script's is that sum rounded to a double. *)
Definition num_add (a b : JSNum) : JSNum :=
  match a, b with
  | NaN, _ | _, NaN => NaN
  | PosInf, NegInf | NegInf, PosInf => NaN
  | PosInf, _ | _, PosInf => PosInf
  | NegInf, _ | _, NegInf => NegInf
  | Fin x, Fin y => Fin (x + y)%Q
  end.

Definition num_neg (a : JSNum) : JSNum :=
  match a with
  | NaN => NaN
  | PosInf => NegInf
  | NegInf => PosInf
  | Fin x => Fin (- x)%Q
  end.

Definition num_sub (a b : JSNum) : JSNum := num_add a (num_neg b).

Definition isNaN (a : JSNum) : bool :=
  match a with NaN => true | _ => false end.

Definition num_of_Z (z : Z) : JSNum := Fin (inject_Z z).
Definition num_of_nat (n : nat) : JSNum := num_of_Z (Z.of_nat n).

(** *** Strings (the model covers ASCII text) *)

Definition lower_ascii (c : ascii) : ascii :=
  let n := nat_of_ascii c in
  if (65 <=? n) && (n <=? 90) then ascii_of_nat (n + 32) else c.

Fixpoint toLowerCase (s : string) : string :=
  match s with
  | EmptyString => EmptyString
  | String c r => String (lower_ascii c) (toLowerCase r)
  end.

Fixpoint trimStart (s : string) : string :=
  match s with
  | String c r => if Ascii.is_space c then trimStart r else s
  | EmptyString => EmptyString
  end.

Definition trimEnd (s : string) : string :=
  String.rev (trimStart (String.rev s)).

Definition trim (s : string) : string := trimEnd (trimStart s).

Fixpoint startsWith (s p : string) {struct p} : bool :=
  match p, s with
  | EmptyString, _ => true
  | String a p', String b s' => if Ascii.eqb a b then startsWith s' p' else false
  | String _ _, EmptyString => false
  end.

(** [String.prototype.includes]. *)
Fixpoint includes (s q : string) : bool :=
  startsWith s q ||
  match s with
  | EmptyString => false
  | String _ r => includes r q
  end.

Definition str_length (s : string) : nat := String.length s.

(** Decimal rendering of an array length or a counter. *)
Fixpoint digits_of (fuel n : nat) (acc : string) : string :=
  match fuel with
  | O => acc
  | S fuel' =>
      let acc' := String (ascii_of_nat (48 + n mod 10)) acc in
      if n / 10 =? 0 then acc' else digits_of fuel' (n / 10) acc'
  end.

Definition nat_to_string (n : nat) : string := digits_of (S n) n EmptyString.

(** *** Conversions and operators *)

Section Conversions.
Context `{Host}.

(** [ToBoolean]. *)
Definition truthy (v : JSVal) : bool :=
  match v with
  | VUndef | VNull => false
  | VBool b => b
  | VNum NaN => false
  | VNum (Fin q) => negb (Qeq_bool q 0)
  | VNum _ => true
  | VStr s => negb (String.eqb s EmptyString)
  | VObj _ => true
  end.

Definition typeof (v : JSVal) : JSType :=
  match v with
  | VUndef => TUndefined
  | VNull | VObj _ => TObject
  | VBool _ => TBoolean
  | VNum _ => TNumber
  | VStr _ => TString
  end.

(** [typeof v === 'object'] *)
Definition is_object (v : JSVal) : bool :=
  match typeof v with TObject => true | _ => false end.

(** [ToString], as used by template literals and [String(v)].  Plain data
    objects print as the fixed tag. *)
Definition ToString (v : JSVal) : string :=
  match v with
  | VUndef => "undefined"
  | VNull => "null"
  | VBool true => "true"
  | VBool false => "false"
  | VNum n => NumberToString n
  | VStr s => s
  | VObj _ => "[object Object]"
  end.

(** [a === b].  Objects are compared by reference in JavaScript; the model
    keeps no references, and two object values are never identified. *)
Definition strict_eq (a b : JSVal) : bool :=
  match a, b with
  | VUndef, VUndef | VNull, VNull => true
  | VBool x, VBool y => Bool.eqb x y
  | VNum x, VNum y => num_eqb x y
  | VStr x, VStr y => String.eqb x y
  | _, _ => false
  end.

(** [SameValueZero], the comparison of [Array.prototype.includes]. *)
Definition same_value_zero (a b : JSVal) : bool :=
  match a, b with
  | VNum NaN, VNum NaN => true
  | _, _ => strict_eq a b
  end.

Definition array_includes (l : list JSVal) (v : JSVal) : bool :=
  existsb (fun x => same_value_zero x v) l.

(** [a || b] on values. *)
Definition js_or (a b : JSVal) : JSVal := if truthy a then a else b.

Fixpoint assoc (fs : list (string * JSVal)) (k : string) : JSVal :=
  match fs with
  | [] => VUndef
  | (k', v) :: r => if String.eqb k' k then v else assoc r k
  end.

(** Property read [v.k] (or [v[k]]).  Reading from [undefined] or [null]
    throws; of the properties of primitive values only [length] of a
    string is modelled, every other one reads as [undefined]. *)
Definition js_get (v : JSVal) (k : string) : result JSVal :=
  match v with
  | VUndef => Throw (TypeError "Cannot read properties of undefined")
  | VNull => Throw (TypeError "Cannot read properties of null")
  | VObj fs => Ok (assoc fs k)
  | VStr s => if String.eqb k "length" then Ok (VNum (num_of_nat (str_length s))) else Ok VUndef
  | _ => Ok VUndef
  end.

(** A property of a value that is known to be truthy (the read cannot
    throw there). *)
Definition field_of (v : JSVal) (k : string) : JSVal :=
  match js_get v k with
  | Ok x => x
  | Throw _ => VUndef
  end.

(** A string method called on a value: [v.toLowerCase()], [v.trim()]. *)
Definition call_string_method (f : string -> string) (name : string) (v : JSVal)
  : result string :=
  match v with
  | VStr s => Ok (f s)
  | VUndef => Throw (TypeError "Cannot read properties of undefined")
  | VNull => Throw (TypeError "Cannot read properties of null")
  | _ => Throw (TypeError (name +:+ " is not a function"))
  end.

(** *** Numeric literals *)

Definition digit_val (radix : N) (c : ascii) : option N :=
  let n := N_of_ascii c in
  let d := if (48 <=? n)%N && (n <=? 57)%N then Some (n - 48)%N
           else if (97 <=? n)%N && (n <=? 122)%N then Some (n - 87)%N
           else if (65 <=? n)%N && (n <=? 90)%N then Some (n - 55)%N
           else None in
  match d with
  | Some k => if (k <? radix)%N then Some k else None
  | None => None
  end.

(** Longest prefix of digits: the digits read, and the rest. *)
Fixpoint read_digits (radix : N) (s : string) : list N * string :=
  match s with
  | EmptyString => ([], EmptyString)
  | String c r =>
      match digit_val radix c with
      | Some d => let '(ds, rest) := read_digits radix r in (d :: ds, rest)
      | None => ([], s)
      end
  end.

Definition digits_value (radix : N) (ds : list N) : Z :=
  fold_left (fun acc d => (acc * Z.of_N radix + Z.of_N d)%Z) ds 0%Z.

Definition read_sign (s : string) : bool * string :=
  match s with
  | String "-" r => (true, r)
  | String "+" r => (false, r)
  | _ => (false, s)
  end.

(** Optional exponent part: consumed only when a digit follows. *)
Definition read_exponent (s : string) : Z * string :=
  match s with
  | String c r =>
      if Ascii.eqb c "e" || Ascii.eqb c "E" then
        let '(neg, r') := read_sign r in
        match read_digits 10 r' with
        | ([], _) => (0%Z, s)
        | (ds, rest) =>
            let e := digits_value 10 ds in
            ((if neg then - e else e)%Z, rest)
        end
      else (0%Z, s)
  | EmptyString => (0%Z, s)
  end.

Definition scale10 (m e : Z) : Q :=
  if (0 <=? e)%Z then inject_Z (m * 10 ^ e)
  else Qmake m (Z.to_pos (10 ^ (- e))).

(** A decimal literal at the head of [s]: its value and the rest, or
    [None] when [s] does not start with one. *)
Definition read_decimal (s : string) : option (JSNum * string) :=
  let '(neg, s0) := read_sign s in
  if startsWith s0 "Infinity" then
    Some (if neg then NegInf else PosInf, String.substring 8 (str_length s0 - 8) s0)
  else
    let '(ip, s1) := read_digits 10 s0 in
    let '(fp, s2) :=
      match s1 with
      | String "." r => read_digits 10 r
      | _ => ([], s1)
      end in
    match ip, fp with
    | [], [] => None
    | _, _ =>
        let '(e, s3) := read_exponent s2 in
        let m := digits_value 10 (ip ++ fp) in
        let q := scale10 m (e - Z.of_nat (length fp)) in
        Some (Fin (if neg then (- q)%Q else q), s3)
    end.

Definition parseFloat_str (s : string) : JSNum :=
  match read_decimal (trimStart s) with
  | Some (n, _) => n
  | None => NaN
  end.

(** [parseInt(s, radix)]; [radix = None] is the one-argument call, which
    accepts a hexadecimal prefix. *)
Definition parseInt_str (radix : option N) (s : string) : JSNum :=
  let '(neg, s0) := read_sign (trimStart s) in
  let hex := startsWith s0 "0x" || startsWith s0 "0X" in
  let '(r, s1) :=
    match radix with
    | Some r => (r, if (r =? 16)%N && hex then String.substring 2 (str_length s0 - 2) s0 else s0)
    | None => if hex then (16%N, String.substring 2 (str_length s0 - 2) s0) else (10%N, s0)
    end in
  match read_digits r s1 with
  | ([], _) => NaN
  | (ds, _) => let v := digits_value r ds in num_of_Z (if neg then - v else v)%Z
  end.

Definition parseFloat (v : JSVal) : JSNum := parseFloat_str (ToString v).
Definition parseInt (radix : option N) (v : JSVal) : JSNum :=
  parseInt_str radix (ToString v).

(** [ToNumber] of a string: the whole trimmed text must be a literal. *)
Definition radix_literal (r : N) (s : string) : JSNum :=
  match read_digits r s with
  | ([], _) => NaN
  | (ds, EmptyString) => num_of_Z (digits_value r ds)
  | (_, String _ _) => NaN
  end.

Definition StringToNumber (s : string) : JSNum :=
  let t := trim s in
  let body := String.substring 2 (str_length t - 2) t in
  if String.eqb t EmptyString then Fin 0
  else if startsWith t "0x" || startsWith t "0X" then radix_literal 16 body
  else if startsWith t "0o" || startsWith t "0O" then radix_literal 8 body
  else if startsWith t "0b" || startsWith t "0B" then radix_literal 2 body
  else match read_decimal t with
       | Some (n, EmptyString) => n
       | _ => NaN
       end.

Definition ToNumber (v : JSVal) : JSNum :=
  match v with
  | VUndef => NaN
  | VNull => Fin 0
  | VBool true => Fin 1
  | VBool false => Fin 0
  | VNum n => n
  | VStr s => StringToNumber s
  | VObj _ => NaN
  end.

(** [a + b]: text concatenation when an operand is a string or an object,
    numeric addition otherwise. *)
Definition js_plus (a b : JSVal) : JSVal :=
  match a, b with
  | VStr _, _ | _, VStr _ | VObj _, _ | _, VObj _ => VStr (ToString a +:+ ToString b)
  | _, _ => VNum (num_add (ToNumber a) (ToNumber b))
  end.

(** [a - b] *)
Definition js_minus (a b : JSVal) : JSNum := num_sub (ToNumber a) (ToNumber b).

(** The relational operators: two strings compare by code units, anything
    else numerically. *)
Definition js_lt (a b : JSVal) : bool :=
  match a, b with
  | VStr x, VStr y => String.ltb x y
  | _, _ => num_ltb (ToNumber a) (ToNumber b)
  end.

Definition js_gt (a b : JSVal) : bool := js_lt b a.

Definition js_le (a b : JSVal) : bool :=
  match a, b with
  | VStr x, VStr y => String.leb x y
  | _, _ => num_leb (ToNumber a) (ToNumber b)
  end.

Definition js_ge (a b : JSVal) : bool := js_le b a.

End Conversions.

End JS.

Export JS.

(** ** The entity store *)

(** A filament record, with the properties the script reads or writes.  A
    property that is absent from the object reads as [VUndef]. *)
Record Filament : Type := mkFilament {
  f_id : JSVal;
  brand : JSVal;
  materialType : JSVal;
  material : JSVal;
  color : JSVal;
  colorName : JSVal;
  colorHex : JSVal;
  diameter : JSVal;
  weight : JSVal;
  location : JSVal;
  purchasePrice : JSVal;
  notes : JSVal;
  inStock : JSVal;
  temperature : JSVal;
  purchaseDate : JSVal;
  deletionBlocked : JSVal
}.

(** An entry of [model.requirements]. *)
Record Requirement : Type := mkRequirement {
  r_filamentId : JSVal;
  r_color : JSVal;
  r_material : JSVal;
  r_materialType : JSVal;
  r_weight : JSVal
}.

(** A model; [requirements = None] is a model object without the array. *)
Record Model : Type := mkModel {
  m_id : JSVal;
  m_name : JSVal;
  m_link : JSVal;
  requirements : option (list Requirement)
}.

(** An entry of [print.filaments]. *)
Record PrintFilament : Type := mkPrintFilament {
  pf_filamentId : JSVal;
  pf_color : JSVal;
  pf_material : JSVal;
  pf_weight : JSVal;
  pf_colorHex : JSVal
}.

(** A print record: the multi-filament shape written by [addPrint], and
    the properties of older records that [deleteFilament] still reads. *)
Record PrintRecord : Type := mkPrint {
  p_id : JSVal;
  p_modelName : JSVal;
  p_weight : JSVal;
  p_date : JSVal;
  p_filaments : option (list PrintFilament);
  p_color : JSVal;
  p_filamentId : JSVal;
  p_material : JSVal
}.

(** What [localStorage] holds under a key.  [JSON.stringify] is taken as
    an injective encoding, so the stored text is kept as the value it
    encodes. *)
Inductive Stored : Type :=
| SEnvelope (fs : list Filament) (ms : list Model) (ps : list PrintRecord)
            (version lastSaved : string)
| SFilaments (fs : list Filament)
| SModels (ms : list Model)
| SPrints (ps : list PrintRecord).

(** The globals of the script and the browser storage. *)
Record Store : Type := mkStore {
  filaments : list Filament;
  models : list Model;
  prints : list PrintRecord;
  editingModelId : JSVal;
  materialTypes : list string;
  localStorage : gmap string Stored
}.

(** How a call of [updateAllTables()] ends.  Its six renderers write to
    the page, which is not part of the state, and they read properties
    that no handler checks: [updatePrintTable] sorts the prints with
    [b.date.localeCompare] and renders [p.weight.toFixed(1)], so a print
    without a text date or a numeric weight makes it throw.
    [updatePrintSelects], the fourth renderer, rebuilds the options of the
    [printModel] select, which leaves its placeholder selected. *)
Inductive TablesOutcome : Type :=
| TablesUpdated                   (* the six renderers returned *)
| TablesThrewEarly (e : JSError)  (* thrown before the [printModel] select was rebuilt *)
| TablesThrewLate (e : JSError).  (* thrown after the [printModel] select was rebuilt *)

(** The answers of the external collaborators during one handler run. *)
Record Env : Type := mkEnv {
  now_ms : JSNum;            (* Date.now() *)
  now_iso : string;          (* new Date().toISOString() *)
  random : JSNum;            (* Math.random() *)
  confirm : bool;            (* the answer to the confirm() dialog *)
  quota : nat;               (* setItem calls that succeed before one throws *)
  tables : TablesOutcome     (* how updateAllTables() ends *)
}.

Definition set_filaments (fs : list Filament) (st : Store) : Store :=
  mkStore fs (models st) (prints st) (editingModelId st) (materialTypes st) (localStorage st).
Definition set_models (ms : list Model) (st : Store) : Store :=
  mkStore (filaments st) ms (prints st) (editingModelId st) (materialTypes st) (localStorage st).
Definition set_prints (ps : list PrintRecord) (st : Store) : Store :=
  mkStore (filaments st) (models st) ps (editingModelId st) (materialTypes st) (localStorage st).
Definition set_editingModelId (v : JSVal) (st : Store) : Store :=
  mkStore (filaments st) (models st) (prints st) v (materialTypes st) (localStorage st).
Definition set_localStorage (ls : gmap string Stored) (st : Store) : Store :=
  mkStore (filaments st) (models st) (prints st) (editingModelId st) (materialTypes st) ls.

(** [Array.prototype.find], with the position of the element found: the
    handlers mutate the object in place, which is an update at that
    position. *)
Fixpoint find_from {A} (p : A -> bool) (i : nat) (l : list A) : option (nat * A) :=
  match l with
  | [] => None
  | x :: r => if p x then Some (i, x) else find_from p (S i) r
  end.
Definition js_find {A} (p : A -> bool) (l : list A) : option (nat * A) :=
  find_from p 0 l.

(** [find] with a predicate that may throw. *)
Fixpoint find_from_r {A} (p : A -> result bool) (i : nat) (l : list A)
  : result (option (nat * A)) :=
  match l with
  | [] => Ok None
  | x :: r =>
      b ← p x;
      if b : bool then Ok (Some (i, x)) else find_from_r p (S i) r
  end.

(** [Array.prototype.every] with a predicate that may throw. *)
Fixpoint every_r {A} (p : A -> result bool) (l : list A) : result bool :=
  match l with
  | [] => Ok true
  | x :: r =>
      b ← p x;
      if b : bool then every_r p r else Ok false
  end.

Section EntityStore.
Context `{Host}.

(** *** save: [validateFilamentData] and [saveData] *)

Definition is_hex_digit (c : ascii) : bool :=
  match digit_val 16 c with Some _ => true | None => false end.

(** [/^#[0-9A-Fa-f]{6}$/.test(s)] *)
Definition hex_color_re (s : string) : bool :=
  match s with
  | String "#" r =>
      (str_length r =? 6) && forallb is_hex_digit (list_ascii_of_string r)
  | _ => false
  end.

(** [!v || typeof v !== 'string' || v.trim() === ''] *)
Definition missing_text (v : JSVal) : bool :=
  negb (truthy v) ||
  match v with
  | VStr s => String.eqb (trim s) ""
  | _ => true
  end.

(** [!v || typeof v !== 'string' || !/^#[0-9A-Fa-f]{6}$/.test(v)] *)
Definition bad_colorHex (v : JSVal) : bool :=
  negb (truthy v) ||
  match v with
  | VStr s => negb (hex_color_re s)
  | _ => true
  end.

(** [!v || typeof v !== 'number' || v <= 0] *)
Definition bad_weight (v : JSVal) : bool :=
  negb (truthy v) ||
  match v with
  | VNum n => num_leb n (Fin 0)
  | _ => true
  end.

Definition allowed_diameters : list JSVal :=
  [VNum (Fin (175 # 100)); VNum (Fin (285 # 100))].

(** [!v || ![1.75, 2.85].includes(v)] *)
Definition bad_diameter (v : JSVal) : bool :=
  negb (truthy v) || negb (array_includes allowed_diameters v).

(** [v && (typeof v !== 'number' || v < 0)] *)
Definition bad_purchasePrice (v : JSVal) : bool :=
  truthy v &&
  match v with
  | VNum n => num_ltb n (Fin 0)
  | _ => true
  end.

(** [t && (typeof t !== 'number' || t < 150 || t > 350)] *)
Definition bad_degree (t : JSVal) : bool :=
  truthy t &&
  match t with
  | VNum n => num_ltb n (Fin 150) || num_gtb n (Fin 350)
  | _ => true
  end.

(** The callback of [filaments.every] in [validateFilamentData]. *)
Definition filamentValid (f : Filament) : result bool :=
  if missing_text (brand f) then Ok false
  else if missing_text (materialType f) then Ok false
  else if missing_text (color f) then Ok false
  else if bad_colorHex (colorHex f) then Ok false
  else if bad_weight (weight f) then Ok false
  else if bad_diameter (diameter f) then Ok false
  else if bad_purchasePrice (purchasePrice f) then Ok false
  else if truthy (temperature f) then
    let temp := temperature f in
    tmin ← js_get temp "min";
    if bad_degree tmin then Ok false
    else
      tmax ← js_get temp "max";
      if bad_degree tmax then Ok false
      else if truthy tmin && truthy tmax && js_ge tmin tmax
      then Ok false
      else Ok true
  else Ok true.

Definition validateFilamentData (st : Store) : result bool :=
  every_r filamentValid (filaments st).

(** The four [setItem] calls of [saveData], in order. *)
Definition save_writes (env : Env) (st : Store) : list (string * Stored) :=
  [ ("printstackData",
     SEnvelope (filaments st) (models st) (prints st) "2.0" (now_iso env));
    ("filaments", SFilaments (filaments st));
    ("models", SModels (models st));
    ("prints", SPrints (prints st)) ].

Definition setItem (ls : gmap string Stored) (w : string * Stored) : gmap string Stored :=
  <[ w.1 := w.2 ]> ls.

(** [saveData()]: the store afterwards and the value returned.  A thrown
    exception (of the validation or of a [setItem] beyond the quota) is
    caught and gives [false]; the writes done before it stay. *)
Definition saveData (env : Env) (st : Store) : Store * bool :=
  match validateFilamentData st with
  | Ok true =>
      let ws := save_writes env st in
      (set_localStorage (foldl setItem (localStorage st) (take (quota env) ws)) st,
       length ws <=? quota env)
  | Ok false => (st, false)
  | Throw _ => (st, false)
  end.

End EntityStore.

(** ** The referential-integrity guard: [deleteFilament] *)

Section Guard.
Context `{Host}.

(** One entry of [modelReferences]. *)
Record ModelReference : Type := mkModelReference {
  ref_modelName : JSVal;
  ref_count : nat
}.

(** The [models.forEach] loop of [deleteFilament]. *)
Definition modelReferences (id : JSVal) (ms : list Model) : list ModelReference :=
  flat_map (fun m =>
    match requirements m with
    | Some reqs =>
        let refs := List.filter (fun r => strict_eq (r_filamentId r) id) reqs in
        if 0 <? length refs then [mkModelReference (m_name m) (length refs)] else []
    | None => []
    end) ms.

(** The predicate of [prints.filter] in [deleteFilament]:
    [p.filamentId === id ||
     (p.color === filament.color && (!p.material || p.material === filament.materialType))] *)
Definition printReferencing (id : JSVal) (filament : Filament) (p : PrintRecord) : bool :=
  strict_eq (p_filamentId p) id ||
  (strict_eq (p_color p) (color filament) &&
   (negb (truthy (p_material p)) || strict_eq (p_material p) (materialType filament))).

Definition printReferences (id : JSVal) (filament : Filament) (ps : list PrintRecord)
  : list PrintRecord :=
  List.filter (printReferencing id filament) ps.

(** [filament.inStock = false; filament.deletionBlocked = true] *)
Definition retire (f : Filament) : Filament :=
  mkFilament (f_id f) (brand f) (materialType f) (material f) (color f) (colorName f)
             (colorHex f) (diameter f) (weight f) (location f) (purchasePrice f)
             (notes f) (VBool false) (temperature f) (purchaseDate f) (VBool true).

Definition deleteFilament (env : Env) (id : JSVal) (st : Store) : Store :=
  match js_find (fun f => strict_eq (f_id f) id) (filaments st) with
  | None => st
  | Some (i, filament) =>
      let mrefs := modelReferences id (models st) in
      let prefs := printReferences id filament (prints st) in
      let canDelete := negb ((0 <? length mrefs) || (0 <? length prefs)) in
      if negb canDelete then
        if confirm env then
          (saveData env (set_filaments (<[ i := retire filament ]> (filaments st)) st)).1
        else st
      else
        if confirm env then
          (saveData env
             (set_filaments
                (List.filter (fun f => negb (strict_eq (f_id f) id)) (filaments st)) st)).1
        else st
  end.

End Guard.

(** ** The validator *)

(** [rule.allowed]: an array, or a function returning one. *)
Inductive Allowed : Type :=
| AllowedList (l : list JSVal)
| AllowedFn (f : unit -> list JSVal).

(** A field rule of [ValidationRules]; an absent key is [None] (or [false]
    for the flags).  A regular expression is kept as its [test]. *)
Record Rule : Type := mkRule {
  required : bool;
  optional : bool;
  type : option string;
  min : option JSNum;
  max : option JSNum;
  minLength : option nat;
  maxLength : option nat;
  pattern : option (string -> bool);
  allowed : option Allowed;
  customAllowed : bool;
  validate : option (JSVal -> bool);
  message : option string
}.

Definition no_rule : Rule :=
  mkRule false false None None None None None None None false None None.

Section Validator.
Context `{Host}.

Definition valid_result : JSVal := VObj [("valid", VBool true)].
Definition invalid_result (msg : JSVal) : JSVal :=
  VObj [("valid", VBool false); ("message", msg)].

(** [rule.message || fallback] *)
Definition message_or (rule : Rule) (fallback : string) : JSVal :=
  match message rule with
  | Some m => if String.eqb m "" then VStr fallback else VStr m
  | None => VStr fallback
  end.

(** [/^[a-zA-Z0-9\s\-&.,]+$/.test(s)] *)
Definition brand_char (c : ascii) : bool :=
  let n := nat_of_ascii c in
  ((97 <=? n) && (n <=? 122)) || ((65 <=? n) && (n <=? 90)) ||
  ((48 <=? n) && (n <=? 57)) || Ascii.is_space c ||
  Ascii.eqb c "-" || Ascii.eqb c "&" || Ascii.eqb c "." || Ascii.eqb c ",".

Definition brand_re (s : string) : bool :=
  negb (String.eqb s "") && forallb brand_char (list_ascii_of_string s).

(** The [validate] function of the temperature rule. *)
Definition temperature_validate (tempObj : JSVal) : bool :=
  if negb (truthy tempObj) then true
  else
    let tmin := parseInt None (field_of tempObj "min") in
    let tmax := parseInt None (field_of tempObj "max") in
    num_geb tmin (Fin 150) && num_leb tmax (Fin 350) && num_gtb tmax tmin.

(** The table [ValidationRules]; the material types are the global the
    [allowed] function of the [materialType] rule reads when called. *)
Definition ValidationRules (types : list string) (fieldName : string) : option Rule :=
  if String.eqb fieldName "brand" then
    Some (mkRule true false None None None (Some 2) (Some 100) (Some brand_re) None false None
            (Some "Brand must be 2-100 characters (letters, numbers, spaces, -, &, ., ,)"))
  else if String.eqb fieldName "materialType" then
    Some (mkRule true false None None None None None None
            (Some (AllowedFn (fun _ => map VStr types))) true None
            (Some "Material type is required"))
  else if String.eqb fieldName "colorName" then
    Some (mkRule true false None None None (Some 2) (Some 50) None None false None
            (Some "Color name must be 2-50 characters"))
  else if String.eqb fieldName "colorHex" then
    Some (mkRule true false None None None None None (Some hex_color_re) None false None
            (Some "Color code must be valid HEX format (#RRGGBB)"))
  else if String.eqb fieldName "weight" then
    Some (mkRule true false (Some "number") (Some (Fin (1 # 10))) (Some (Fin 10000))
            None None None None false None
            (Some "Weight must be between 0.1g and 10,000g"))
  else if String.eqb fieldName "diameter" then
    Some (mkRule true false (Some "number") None None None None None
            (Some (AllowedList allowed_diameters)) false None
            (Some "Diameter must be 1.75mm or 2.85mm"))
  else if String.eqb fieldName "purchasePrice" then
    Some (mkRule false true (Some "number") (Some (Fin 0)) (Some (Fin 1000))
            None None None None false None
            (Some "Price must be between $0 and $1000 per kg"))
  else if String.eqb fieldName "location" then
    Some (mkRule false true None None None None (Some 200) None None false None
            (Some "Location must be 200 characters or less"))
  else if String.eqb fieldName "temperature" then
    Some (mkRule false true None None None None None None None false
            (Some temperature_validate)
            (Some "Temperature range must be 150-350°C with max > min"))
  else None.

(** [!value || value === ''] *)
Definition is_empty_value (value : JSVal) : bool :=
  negb (truthy value) || strict_eq value (VStr "").

Definition type_is_number (rule : Rule) : bool :=
  match type rule with
  | Some t => String.eqb t "number"
  | None => false
  end.

(** Returns the failure object, the number read, or the value itself. *)
Definition validateFieldType (value : JSVal) (rule : Rule) (fieldName : string) : JSVal :=
  if type_is_number rule && negb (strict_eq value (VStr "")) then
    let num := parseFloat value in
    if isNaN num then invalid_result (VStr (fieldName +:+ " must be a number"))
    else VNum num
  else value.

Definition validateFieldRange (value : JSVal) (rule : Rule) (fieldName : string) : JSVal :=
  let maxCheck :=
    match max rule with
    | Some hi =>
        if js_gt value (VNum hi) then
          invalid_result
            (message_or rule (fieldName +:+ " must be at most " +:+ NumberToString hi))
        else valid_result
    | None => valid_result
    end in
  match min rule with
  | Some lo =>
      if js_lt value (VNum lo) then
        invalid_result
          (message_or rule (fieldName +:+ " must be at least " +:+ NumberToString lo))
      else maxCheck
  | None => maxCheck
  end.

(** [rule.minLength && length < rule.minLength]: a bound of 0 is falsy. *)
Definition below_min (bound : option nat) (len : nat) : bool :=
  match bound with
  | Some k => negb (k =? 0) && (len <? k)
  | None => false
  end.
Definition above_max (bound : option nat) (len : nat) : bool :=
  match bound with
  | Some k => negb (k =? 0) && (k <? len)
  | None => false
  end.

Definition validateFieldLength (value : JSVal) (rule : Rule) (fieldName : string) : JSVal :=
  let len :=
    match value with
    | VStr s => str_length s
    | _ => str_length (ToString value)
    end in
  if below_min (minLength rule) len then
    invalid_result
      (message_or rule
         (fieldName +:+ " must be at least " +:+
          nat_to_string (default 0 (minLength rule)) +:+ " characters"))
  else if above_max (maxLength rule) len then
    invalid_result
      (message_or rule
         (fieldName +:+ " must be at most " +:+
          nat_to_string (default 0 (maxLength rule)) +:+ " characters"))
  else valid_result.

Definition validateFieldPattern (value : JSVal) (rule : Rule) (fieldName : string) : JSVal :=
  match pattern rule with
  | Some test =>
      if negb (test (ToString value)) then
        invalid_result (message_or rule (fieldName +:+ " format is invalid"))
      else valid_result
  | None => valid_result
  end.

(** [Array.prototype.join]: [undefined] and [null] print as nothing. *)
Definition join_item (v : JSVal) : string :=
  match v with
  | VUndef | VNull => ""
  | _ => ToString v
  end.
Fixpoint js_join (sep : string) (l : list JSVal) : string :=
  match l with
  | [] => ""
  | [v] => join_item v
  | v :: r => join_item v +:+ sep +:+ js_join sep r
  end.

Definition validateFieldAllowed (value : JSVal) (rule : Rule) (fieldName : string) : JSVal :=
  match allowed rule with
  | Some a =>
      let allowedValues :=
        match a with
        | AllowedFn f => f tt
        | AllowedList l => l
        end in
      if negb (array_includes allowedValues value) then
        if customAllowed rule && strict_eq value (VStr "Other") then valid_result
        else
          invalid_result
            (message_or rule
               (fieldName +:+ " must be one of: " +:+ js_join ", " allowedValues))
      else valid_result
  | None => valid_result
  end.

(** [!r.valid] for a stage result, which is always an object. *)
Definition failed (r : JSVal) : bool := negb (truthy (field_of r "valid")).

Definition validateField (types : list string) (fieldName : string) (value : JSVal)
  : result JSVal :=
  match ValidationRules types fieldName with
  | None => Ok valid_result
  | Some rule =>
      if optional rule && is_empty_value value then Ok valid_result
      else if required rule && is_empty_value value then
        Ok (invalid_result (VStr (fieldName +:+ " is required")))
      else
        let value := validateFieldType value rule fieldName in
        (* typeof value === 'object' && !value.valid *)
        isFailure ←
          (if is_object value
           then v ← js_get value "valid"; Ok (negb (truthy v))
           else Ok false);
        if isFailure : bool then Ok value
        else
          let rangeResult := validateFieldRange value rule fieldName in
          if failed rangeResult then Ok rangeResult
          else
            let lengthResult := validateFieldLength value rule fieldName in
            if failed lengthResult then Ok lengthResult
            else
              let patternResult := validateFieldPattern value rule fieldName in
              if failed patternResult then Ok patternResult
              else
                let allowedResult := validateFieldAllowed value rule fieldName in
                if failed allowedResult then Ok allowedResult
                else
                  match validate rule with
                  | Some check =>
                      if negb (check value)
                      then Ok (invalid_result
                                 (match message rule with
                                  | Some m => VStr m
                                  | None => VUndef
                                  end))
                      else Ok valid_result
                  | None => Ok valid_result
                  end
  end.

End Validator.

(** ** Adding a filament: form validation, duplicates, merge *)

(** An [input], [select] or [textarea] of a form. *)
Record FormInput : Type := mkFormInput {
  in_name : string;
  in_id : string;
  in_type : string;
  in_value : string;
  in_checked : bool
}.

(** The form [validateForm] walks, with the values of the elements it
    looks up by id for this form ([None]: no such element). *)
Record Form : Type := mkForm {
  form_inputs : list FormInput;
  customMaterialInput : option string;
  tempMinInput : option string;
  tempMaxInput : option string
}.

(** The elements [collectFilamentFormData] reads, by id. *)
Record FilamentFormData : Type := mkFilamentFormData {
  filamentMaterialType : string;
  filamentMaterialTypeCustom : string;
  filamentBrand : string;
  filamentColor : string;
  filamentColorHex : string;
  filamentDiameter : string;
  filamentWeight : string;
  filamentLocation : string;
  filamentPurchasePrice : string;
  filamentNotes : string;
  filamentInStock : bool;
  filamentTempMin : string;
  filamentTempMax : string
}.

(** The value [validateForm] returns. *)
Record FormValidation : Type := mkFormValidation {
  fv_valid : bool;
  fv_errors : gmap string JSVal
}.

Fixpoint foldM_r {A B} (f : B -> A -> result B) (acc : B) (l : list A) : result B :=
  match l with
  | [] => Ok acc
  | x :: r => acc' ← f acc x; foldM_r f acc' r
  end.

Section AddFilament.
Context `{Host}.

(** The body of [inputs.forEach] in [validateForm]. *)
Definition validateInput (types : list string) (form : Form)
    (errors : gmap string JSVal) (input : FormInput) : result (gmap string JSVal) :=
  let fieldName := if String.eqb (in_name input) "" then in_id input else in_name input in
  if String.eqb (in_type input) "checkbox" || negb (String.eqb (in_type input) "radio") then
    let value :=
      if String.eqb (in_type input) "checkbox" then VBool (in_checked input)
      else VStr (in_value input) in
    let value :=
      if String.eqb fieldName "materialType" && strict_eq value (VStr "Other") then
        match customMaterialInput form with
        | Some c => VStr (trim c)
        | None => value
        end
      else value in
    let value :=
      if String.eqb fieldName "tempRange" || includes fieldName "temp" then
        VObj [("min", VStr (default "" (tempMinInput form)));
              ("max", VStr (default "" (tempMaxInput form)))]
      else value in
    validation ← validateField types fieldName value;
    ok ← js_get validation "valid";
    if negb (truthy ok) then
      msg ← js_get validation "message";
      Ok (<[ fieldName := msg ]> errors)
    else Ok errors
  else Ok errors.

Definition validateForm (types : list string) (form : Form) : result FormValidation :=
  errors ← foldM_r (validateInput types form) ∅ (form_inputs form);
  Ok (mkFormValidation (bool_decide (errors = ∅)) errors).

Definition collectFilamentFormData (env : Env) (d : FilamentFormData) : Filament :=
  let materialType :=
    if String.eqb (filamentMaterialType d) "Other"
    then trim (filamentMaterialTypeCustom d)
    else filamentMaterialType d in
  let tempMin := filamentTempMin d in
  let tempMax := filamentTempMax d in
  mkFilament
    (VNum (num_add (now_ms env) (random env)))
    (VStr (trim (filamentBrand d)))
    (VStr materialType)
    VUndef
    (VStr (trim (filamentColor d)))
    VUndef
    (VStr (filamentColorHex d))
    (VNum (parseFloat_str (filamentDiameter d)))
    (js_or (VNum (parseFloat_str (filamentWeight d))) (VNum (Fin 0)))
    (js_or (VStr (trim (filamentLocation d))) (VStr ""))
    (if truthy (VStr (filamentPurchasePrice d))
     then VNum (parseFloat_str (filamentPurchasePrice d)) else VNull)
    (js_or (VStr (trim (filamentNotes d))) (VStr ""))
    (VBool (filamentInStock d))
    (if truthy (VStr tempMin) || truthy (VStr tempMax) then
       VObj [("min", if truthy (VStr tempMin) then VNum (parseInt_str None tempMin) else VNull);
             ("max", if truthy (VStr tempMax) then VNum (parseInt_str None tempMax) else VNull)]
     else VUndef)
    (VStr (now_iso env))
    VUndef.

(** [a.toLowerCase() === b.toLowerCase()] *)
Definition same_lowercase (a b : JSVal) : result bool :=
  x ← call_string_method toLowerCase "toLowerCase" a;
  y ← call_string_method toLowerCase "toLowerCase" b;
  Ok (String.eqb x y).

(** The predicate of [filaments.find] in [checkForFilamentDuplicate]; the
    conjunction stops at the first part that is false. *)
Definition duplicateOf (filamentData f : Filament) : result bool :=
  b1 ← same_lowercase (brand f) (brand filamentData);
  if b1 : bool then
    b2 ← same_lowercase (materialType f) (materialType filamentData);
    if b2 : bool then same_lowercase (colorHex f) (colorHex filamentData)
    else Ok false
  else Ok false.

Definition checkForFilamentDuplicate (filamentData : Filament) (st : Store)
  : result (option (nat * Filament)) :=
  find_from_r (duplicateOf filamentData) 0 (filaments st).

(** [duplicate.weight += filamentData.weight] and the notes. *)
Definition mergeInto (duplicate filamentData : Filament) : Filament :=
  mkFilament (f_id duplicate) (brand duplicate) (materialType duplicate)
    (material duplicate) (color duplicate) (colorName duplicate) (colorHex duplicate)
    (diameter duplicate)
    (js_plus (weight duplicate) (weight filamentData))
    (location duplicate) (purchasePrice duplicate)
    (if truthy (notes duplicate)
     then VStr (ToString (notes duplicate) +:+ "; " +:+ ToString (notes filamentData))
     else notes filamentData)
    (inStock duplicate) (temperature duplicate) (purchaseDate duplicate)
    (deletionBlocked duplicate).

Definition handleDuplicateFilament (env : Env) (i : nat) (duplicate filamentData : Filament)
    (st : Store) : Store :=
  if confirm env then
    set_filaments (<[ i := mergeInto duplicate filamentData ]> (filaments st)) st
  else set_filaments (filaments st ++ [filamentData]) st.

Definition addNewFilament (filamentData : Filament) (st : Store) : Store :=
  set_filaments (filaments st ++ [filamentData]) st.

(** [addFilament()]: the store afterwards, and the value returned or the
    exception that leaves the handler.  What is thrown inside the [try]
    is caught there.  The table refresh is not part of the state. *)
Definition addFilament (env : Env) (form : Form) (d : FilamentFormData) (st : Store)
  : Store * result bool :=
  match validateForm (materialTypes st) form with
  | Throw e => (st, Throw e)
  | Ok validation =>
      if negb (fv_valid validation) then (st, Ok false)
      else
        let filamentData := collectFilamentFormData env d in
        match checkForFilamentDuplicate filamentData st with
        | Throw _ => (st, Ok true)
        | Ok (Some (i, duplicate)) =>
            ((saveData env (handleDuplicateFilament env i duplicate filamentData st)).1,
             Ok true)
        | Ok None =>
            ((saveData env (addNewFilament filamentData st)).1, Ok true)
        end
  end.

End AddFilament.

(** ** Models *)

(** The model forms: the name and link fields, and the [data-selected-id]
    of each [.req-search] input of the requirements container, in
    document order. *)
Record ModelForm : Type := mkModelForm {
  modelNameInput : string;
  modelLinkInput : string;
  reqSearchInputs : list string
}.

Section Models.
Context `{Host}.

(** [removeFilamentRequirement(btn)] on the rows of the container: the
    rows afterwards and the alert shown, if any. *)
Definition removeFilamentRequirement (i : nat) (rows : list string)
  : list string * option string :=
  if length rows <=? 1 then (rows, Some "Model must have at least one filament")
  else (delete i rows, None).

(** The requirements read off the container: the [forEach] loop shared by
    [addModel] and [saveEditModel], which differ in the entry they push. *)
Definition collectRequirements (entry : JSNum -> Filament -> Requirement)
    (fs : list Filament) (inputs : list string) : list Requirement :=
  flat_map (fun selectedId =>
    let id := parseInt_str (Some 10%N) selectedId in
    if negb (isNaN id) && num_gtb id (Fin 0) then
      match js_find (fun x => strict_eq (f_id x) (VNum id)) fs with
      | Some (_, f) => [entry id f]
      | None => []
      end
    else []) inputs.

(** [{ filamentId: id, color: f.color, material: f.material }] *)
Definition addModel_entry (id : JSNum) (f : Filament) : Requirement :=
  mkRequirement (VNum id) (color f) (material f) VUndef VUndef.

(** [{ filamentId: id, color: f.colorName || f.color,
       material: f.materialType || f.material }] *)
Definition saveEditModel_entry (id : JSNum) (f : Filament) : Requirement :=
  mkRequirement (VNum id) (js_or (colorName f) (color f))
                (js_or (materialType f) (material f)) VUndef VUndef.

(** [addModel()]: the store afterwards and the alert shown, if any. *)
Definition addModel (env : Env) (form : ModelForm) (st : Store) : Store * option string :=
  let name := trim (modelNameInput form) in
  let link := trim (modelLinkInput form) in
  if negb (truthy (VStr name)) then (st, Some "Model name required")
  else
    let reqs := collectRequirements addModel_entry (filaments st) (reqSearchInputs form) in
    if length reqs =? 0 then
      (st, Some "Please select at least one filament from the dropdown")
    else
      let m := mkModel (VNum (now_ms env)) (VStr name) (VStr link) (Some reqs) in
      ((saveData env (set_models (models st ++ [m]) st)).1, None).

(** [saveEditModel()]: the store afterwards and the alert shown, if any.
    The model object found is updated in place before the requirements
    are counted.  [closeEditModelModal()], which sets [editingModelId] to
    [null], runs after [updateAllTables()]: an exception of the refresh
    leaves the handler before it. *)
Definition saveEditModel (env : Env) (form : ModelForm) (st : Store) : Store * option string :=
  match js_find (fun x => strict_eq (m_id x) (editingModelId st)) (models st) with
  | None => (st, None)
  | Some (i, m) =>
      let reqs :=
        collectRequirements saveEditModel_entry (filaments st) (reqSearchInputs form) in
      let m' :=
        mkModel (m_id m) (VStr (trim (modelNameInput form)))
                (VStr (trim (modelLinkInput form))) (Some reqs) in
      let st1 := set_models (<[ i := m' ]> (models st)) st in
      if length reqs =? 0 then (st1, Some "At least one filament required")
      else
        let st2 := (saveData env st1).1 in
        match tables env with
        | TablesUpdated => (set_editingModelId VNull st2, None)
        | TablesThrewEarly _ | TablesThrewLate _ => (st2, None)
        end
  end.

End Models.

(** ** Prints *)

(** One [.print-filament-item]: the values of its select and weight input. *)
Record PrintFilamentItem : Type := mkPrintFilamentItem {
  select_value : string;
  weight_value : string
}.

(** The print-recording form of the script. *)
Record PrintFormDOM : Type := mkPrintFormDOM {
  printModel : string;
  printWeight : string;
  printDate : string;
  printFilamentsContainer : list PrintFilamentItem
}.

Section Prints.
Context `{Host}.

(** The body of the [forEach] over the filament items in [addPrint]. *)
Definition collectPrintFilament (fs : list Filament) (item : PrintFilamentItem)
  : list PrintFilament :=
  let filamentId := parseInt_str None (select_value item) in
  let weight := js_or (VNum (parseFloat_str (weight_value item))) (VNum (Fin 0)) in
  if negb (isNaN filamentId) && num_gtb filamentId (Fin 0) && js_gt weight (VNum (Fin 0)) then
    match js_find (fun f => strict_eq (f_id f) (VNum filamentId)) fs with
    | Some (_, filament) =>
        [mkPrintFilament (VNum filamentId)
           (js_or (colorName filament) (color filament))
           (js_or (materialType filament) (material filament))
           weight (colorHex filament)]
    | None => []
    end
  else [].

(** The one empty item [createPrintFilamentSearchBox()] gives: the
    placeholder option is selected and the weight is empty. *)
Definition emptyPrintFilamentItem : PrintFilamentItem := mkPrintFilamentItem "" "".

(** [addPrint()]: the store and the form afterwards, and the alert shown,
    if any.  The handler empties the weight and the filament items itself;
    the [printModel] select is reset by [updatePrintSelects()] when
    [updateAllTables()] gets that far. *)
Definition addPrint (env : Env) (form : PrintFormDOM) (st : Store)
  : Store * PrintFormDOM * option string :=
  let modelName := printModel form in
  let totalWeight := parseFloat_str (printWeight form) in
  let date := printDate form in
  if negb (truthy (VStr modelName)) || negb (truthy (VNum totalWeight))
     || negb (truthy (VStr date))
  then (st, form, Some "Fill model, weight, and date fields")
  else
    let printFilaments :=
      flat_map (collectPrintFilament (filaments st)) (printFilamentsContainer form) in
    match printFilaments with
    | [] => (st, form, Some "Please select at least one filament and specify weights")
    | first :: _ =>
        let print :=
          mkPrint (VNum (now_ms env)) (VStr modelName) (VNum totalWeight) (VStr date)
            (Some printFilaments)
            (if length printFilaments =? 1 then pf_color first
             else VStr (nat_to_string (length printFilaments) +:+ "-color print"))
            VUndef VUndef in
        ((saveData env (set_prints (prints st ++ [print]) st)).1,
         mkPrintFormDOM
           (match tables env with TablesThrewEarly _ => modelName | _ => "" end)
           "" date [emptyPrintFilamentItem],
         None)
    end.

(** The value a select takes when it is assigned [v]: the option with that
    value if there is one, no option otherwise.  The options of the select
    built by [createPrintFilamentSearchBox] are the placeholder and one per
    filament with a truthy id. *)
Definition select_options (fs : list Filament) : list string :=
  "" :: map (fun fil => ToString (f_id fil))
            (List.filter (fun fil => truthy (f_id fil)) fs).

Definition assign_select (options : list string) (v : JSVal) : string :=
  if existsb (String.eqb (ToString v)) options then ToString v else "".

(** The body of [model.requirements.forEach] in
    [populatePrintFilamentsFromModel]: the item appended for a requirement.
    (How the browser cleans the text assigned to a number input is not
    modelled.) *)
Definition populateItem (fs : list Filament) (requirement : Requirement) : PrintFilamentItem :=
  let weightText := ToString (js_or (r_weight requirement) (VStr "")) in
  let selected :=
    if truthy (r_filamentId requirement) then
      match js_find (fun f => strict_eq (f_id f) (r_filamentId requirement)) fs with
      | Some (_, matchingFilament) => assign_select (select_options fs) (f_id matchingFilament)
      | None => ""
      end
    else "" in
  mkPrintFilamentItem selected weightText.

(** [clearPrintFilaments()]: one empty item, and the total reset. *)
Definition clearPrintFilaments (form : PrintFormDOM) : PrintFormDOM :=
  mkPrintFormDOM (printModel form) "0.0" (printDate form) [emptyPrintFilamentItem].

Definition populatePrintFilamentsFromModel (modelName : string) (st : Store)
    (form : PrintFormDOM) : PrintFormDOM :=
  match js_find (fun m => strict_eq (m_name m) (VStr modelName)) (models st) with
  | Some (_, model) =>
      match requirements model with
      | Some ((_ :: _) as reqs) =>
          mkPrintFormDOM (printModel form) (printWeight form) (printDate form)
            (map (populateItem (filaments st)) reqs)
      | _ => clearPrintFilaments form
      end
  | None => clearPrintFilaments form
  end.

(** [resolveFilamentId(color, material)], the lookup by colour and material
    among the filaments in stock (used by the import only). *)
Definition resolveFilamentId (color_ material_ : JSVal) (st : Store) : result JSVal :=
  if negb (truthy color_) || negb (truthy material_) then Ok VNull
  else
    c ← call_string_method (fun s => trim (toLowerCase s)) "toLowerCase" color_;
    m ← call_string_method (fun s => trim (toLowerCase s)) "toLowerCase" material_;
    found ← find_from_r (fun f =>
      fc ← call_string_method (fun s => trim (toLowerCase s)) "toLowerCase" (color f);
      if String.eqb fc c then
        fm ← call_string_method (fun s => trim (toLowerCase s)) "toLowerCase" (material f);
        if String.eqb fm m then Ok (truthy (inStock f)) else Ok false
      else Ok false) 0 (filaments st);
    match found with
    | Some (_, f) => Ok (f_id f)
    | None => Ok VNull
    end.

End Prints.

(** ** The print form of the React rewrite ([PrintForm.jsx]) *)

Module PrintForm.

(** An entry of [formData.filamentUsages]. *)
Record Usage : Type := mkUsage {
  u_id : string;
  u_filamentId : JSVal;
  u_materialType : JSVal;
  u_actualWeight : JSVal
}.

(** The component state: the scalar fields of [formData] by name, the
    usage list, the selected model and the errors shown. *)
Record State : Type := mkState {
  fields : gmap string string;
  filamentUsages : list Usage;
  selectedModel : option Model;
  errors : list string
}.

(** An entry of [availableFilaments]. *)
Record Available : Type := mkAvailable {
  a_requirement : Requirement;
  a_filament : option Filament;
  a_available : JSVal
}.

Section Component.
Context `{Host}.

(** [handleInputChange(e)] for [e.target = {name, value}]; [fresh k] is
    the id generated for the k-th usage entry. *)
Definition handleInputChange (fresh : nat -> string) (ms : list Model)
    (name value : string) (s : State) : State :=
  let s' :=
    if String.eqb name "modelId" then
      let model := js_find (fun m => strict_eq (m_id m) (VStr value)) ms in
      match model with
      | Some (_, mkModel _ _ _ (Some reqs)) =>
          mkState (<[ name := value ]> (fields s))
            (imap (fun k req =>
               mkUsage (fresh k) (r_filamentId req) (r_materialType req) (VStr "")) reqs)
            (snd <$> model) (errors s)
      | _ =>
          mkState (<[ name := value ]> (fields s)) [] (snd <$> model) (errors s)
      end
    else
      mkState (<[ name := value ]> (fields s)) (filamentUsages s) (selectedModel s) (errors s)
  in
  if 0 <? length (errors s)
  then mkState (fields s') (filamentUsages s') (selectedModel s') []
  else s'.

(** [availableFilaments]: each requirement of the selected model with the
    filament of that id, if any, and [filament?.inStock || false]. *)
Definition availableFilaments (fs : list Filament) (s : State) : list Available :=
  match selectedModel s with
  | Some (mkModel _ _ _ (Some reqs)) =>
      map (fun req =>
        let filament := snd <$> js_find (fun f => strict_eq (f_id f) (r_filamentId req)) fs in
        mkAvailable req filament
          (js_or (from_option inStock VUndef filament) (VBool false))) reqs
  | _ => []
  end.

End Component.

End PrintForm.

(** ** The data grid *)

(** A row of a grid, seen as the object the grid reads properties of. *)
Class GridRow (Row : Type) : Type := {
  as_object : Row -> JSVal
}.

#[global] Instance Filament_row : GridRow Filament := {
  as_object f :=
    VObj [("id", f_id f); ("brand", brand f); ("materialType", materialType f);
          ("material", material f); ("color", color f); ("colorName", colorName f);
          ("colorHex", colorHex f); ("diameter", diameter f); ("weight", weight f);
          ("location", location f); ("purchasePrice", purchasePrice f);
          ("notes", notes f); ("inStock", inStock f); ("temperature", temperature f);
          ("purchaseDate", purchaseDate f); ("deletionBlocked", deletionBlocked f)]
}.

Record Column : Type := mkColumn {
  key : string;
  label : string;
  sortType : string
}.

(** [currentSort]; the column is [null] until a header is clicked. *)
Record SortSpec : Type := mkSortSpec {
  sort_column : JSVal;
  ascending : bool
}.

Record Grid (Row : Type) : Type := mkGrid {
  originalData : list Row;
  columns : list Column;
  currentPage : nat;
  itemsPerPage : nat;
  currentSort : SortSpec;
  visibleData : list Row
}.
Arguments mkGrid {Row}.
Arguments originalData {Row}.
Arguments columns {Row}.
Arguments currentPage {Row}.
Arguments itemsPerPage {Row}.
Arguments currentSort {Row}.
Arguments visibleData {Row}.

(** [s.split('.')] *)
Fixpoint split_dot_go (cur : string) (s : string) : list string :=
  match s with
  | EmptyString => [String.rev cur]
  | String c r =>
      if Ascii.eqb c "." then String.rev cur :: split_dot_go EmptyString r
      else split_dot_go (String c cur) r
  end.
Definition split_dot (s : string) : list string := split_dot_go EmptyString s.

(** [Array.prototype.sort(compare)] for a comparison that may throw: a
    stable insertion from the right.  No comparison is made on fewer than
    two elements. *)
Fixpoint insert_r {A} (compare : A -> A -> result JSNum) (x : A) (l : list A)
  : result (list A) :=
  match l with
  | [] => Ok [x]
  | y :: r =>
      c ← compare x y;
      if num_gtb c (Fin 0) then r' ← insert_r compare x r; Ok (y :: r')
      else Ok (x :: l)
  end.

Fixpoint sort_r {A} (compare : A -> A -> result JSNum) (l : list A) : result (list A) :=
  match l with
  | [] => Ok []
  | x :: r => r' ← sort_r compare r; insert_r compare x r'
  end.

Module EnhancedDataGrid.
Section Grid.
Context `{Host} {Row : Type} `{GridRow Row}.

(** [key.split('.').reduce((current, prop) => current && current[prop], obj)] *)
Definition getNestedValue (obj : JSVal) (key : JSVal) : result JSVal :=
  match key with
  | VStr k =>
      Ok (fold_left (fun current prop =>
                       if truthy current then field_of current prop else current)
                    (split_dot k) obj)
  | VUndef => Throw (TypeError "Cannot read properties of undefined (reading 'split')")
  | VNull => Throw (TypeError "Cannot read properties of null (reading 'split')")
  | _ => Throw (TypeError "key.split is not a function")
  end.

(** The two comparison functions of [sort]; [column] is the string read
    from [header.dataset.sortable], and [column.key] is evaluated as
    written. *)
Definition numberCompare (column : string) (asc : bool) (a b : Row) : result JSNum :=
  ka ← js_get (VStr column) "key";
  va ← getNestedValue (as_object a) ka;
  let aVal := js_or va (VNum (Fin 0)) in
  kb ← js_get (VStr column) "key";
  vb ← getNestedValue (as_object b) kb;
  let bVal := js_or vb (VNum (Fin 0)) in
  Ok (if asc then js_minus aVal bVal else js_minus bVal aVal).

Definition textCompare (column : string) (asc : bool) (a b : Row) : result JSNum :=
  ka ← js_get (VStr column) "key";
  va ← getNestedValue (as_object a) ka;
  let aVal := toLowerCase (ToString (js_or va (VStr ""))) in
  kb ← js_get (VStr column) "key";
  vb ← getNestedValue (as_object b) kb;
  let bVal := toLowerCase (ToString (js_or vb (VStr ""))) in
  let comparison := localeCompare aVal bVal in
  Ok (if asc then comparison else num_neg comparison).

(** [sort(header)], for [header.dataset.sortable = column]: the grid
    afterwards, and whether the handler returned or threw. *)
Definition sort (column : string) (g : Grid Row) : Grid Row * result unit :=
  let asc :=
    if strict_eq (sort_column (currentSort g)) (VStr column)
    then negb (ascending (currentSort g)) else true in
  let g1 := mkGrid (originalData g) (columns g) (currentPage g) (itemsPerPage g)
                   (mkSortSpec (VStr column) asc) (visibleData g) in
  match List.find (fun col => String.eqb (key col) column) (columns g) with
  | None => (g1, Throw (TypeError "Cannot read properties of undefined (reading 'sortType')"))
  | Some columnConfig =>
      let compare :=
        if String.eqb (sortType columnConfig) "number"
        then numberCompare column asc else textCompare column asc in
      match sort_r compare (visibleData g1) with
      | Ok rows =>
          (mkGrid (originalData g1) (columns g1) 1 (itemsPerPage g1) (currentSort g1) rows,
           Ok tt)
      | Throw e => (g1, Throw e)
      end
  end.

(** [filterRows(query)] of the base class. *)
Definition filterRows (query : string) (g : Grid Row) : result (Grid Row) :=
  rows ←
    (if str_length query <? 2 then Ok (originalData g)
     else
       foldM_r (fun acc item =>
         b ← getNestedValue (as_object item) (VStr "brand");
         m ← getNestedValue (as_object item) (VStr "materialType");
         cn ← getNestedValue (as_object item) (VStr "colorName");
         c ← getNestedValue (as_object item) (VStr "color");
         let searchableText :=
           toLowerCase (ToString b +:+ " " +:+ ToString m +:+ " " +:+
                        ToString cn +:+ " " +:+ ToString c) in
         Ok (if includes searchableText query then acc ++ [item] else acc))
         [] (originalData g));
  Ok (mkGrid (originalData g) (columns g) 1 (itemsPerPage g) (currentSort g) rows).

End Grid.
End EnhancedDataGrid.

Module FilamentTable.
Section Table.
Context `{Host}.

(** The text a filament row is searched in. *)
Definition searchableText (item : Filament) : string :=
  toLowerCase
    (ToString (brand item) +:+ " " +:+ ToString (materialType item) +:+ " " +:+
     ToString (material item) +:+ " " +:+ ToString (colorName item) +:+ " " +:+
     ToString (color item) +:+ " " +:+ ToString (location item)).

(** [filterRows(query)], the override of the filament table. *)
Definition filterRows (query : string) (g : Grid Filament) : Grid Filament :=
  let rows :=
    if str_length query <? 2 then originalData g
    else List.filter (fun item => includes (searchableText item) query) (originalData g) in
  mkGrid (originalData g) (columns g) 1 (itemsPerPage g) (currentSort g) rows.

(** The [input] handler of the search box (after its delay). *)
Definition onSearchInput (value : string) (g : Grid Filament) : Grid Filament :=
  filterRows (toLowerCase value) g.

Definition filamentColumns : list Column :=
  [ mkColumn "brand" "Brand" "text";
    mkColumn "materialType" "Material" "text";
    mkColumn "color" "Color" "text";
    mkColumn "weight" "Weight (g)" "number";
    mkColumn "location" "Location" "text";
    mkColumn "inStock" "Status" "text" ].

(** [updateData()]: the grid over the current filaments. *)
Definition updateData (st : Store) (g : Grid Filament) : Grid Filament :=
  mkGrid (filaments st) (columns g) 1 (itemsPerPage g) (currentSort g) (filaments st).

End Table.
End FilamentTable.

(** * Vocabulary of the statements *)

(** [q] occurs in [s]. *)
Definition occurs_in (q s : string) : Prop :=
  exists pre post, s = pre +:+ q +:+ post.

(** A non-blank string. *)
Definition nonblank (v : JSVal) : Prop :=
  exists s, v = VStr s /\ trim s <> "".

Definition hex_chars : list ascii :=
  list_ascii_of_string "0123456789abcdefABCDEF".

(** The text [#RRGGBB]. *)
Definition is_RRGGBB (s : string) : Prop :=
  exists r, s = String "#" r /\ String.length r = 6 /\
            Forall (fun c => c ∈ hex_chars) (list_ascii_of_string r).

(** A degree bound as [validateFilamentData] checks it: falsy (absent,
    [null], zero, [NaN], the empty text), or a number within 150..350. *)
Definition degree_ok (d : JSVal) : Prop :=
  truthy d = false \/
  exists n, d = VNum n /\ num_leb (Fin 150) n = true /\ num_leb n (Fin 350) = true.

(** A temperature as [validateFilamentData] checks it: falsy, or a value
    whose [min] and [max] pass the check of a degree bound, with
    [min < max] when both are truthy. *)
Definition temperature_ok (t : JSVal) : Prop :=
  truthy t = false \/
  (degree_ok (field_of t "min") /\ degree_ok (field_of t "max") /\
   (truthy (field_of t "min") = true -> truthy (field_of t "max") = true ->
    js_lt (field_of t "min") (field_of t "max") = true)).

(** What [validateFilamentData] asks of a filament record.  The optional
    properties are checked only where they are truthy. *)
Record WellFormedFilament (f : Filament) : Prop := {
  wf_brand : nonblank (brand f);
  wf_materialType : nonblank (materialType f);
  wf_color : nonblank (color f);
  wf_colorHex : exists s, colorHex f = VStr s /\ is_RRGGBB s;
  wf_weight : exists n, weight f = VNum n /\ num_ltb (Fin 0) n = true;
  wf_diameter :
    exists n, diameter f = VNum n /\
      (num_eqb n (Fin (175 # 100)) = true \/ num_eqb n (Fin (285 # 100)) = true);
  wf_purchasePrice :
    truthy (purchasePrice f) = false \/
    exists n, purchasePrice f = VNum n /\ num_leb (Fin 0) n = true;
  wf_temperature : temperature_ok (temperature f)
}.

(** * Vocabulary of the guard *)

(** Some requirement of some model names the id. *)
Definition referenced_by_model (id : JSVal) (ms : list Model) : Prop :=
  exists m reqs r,
    m ∈ ms /\ requirements m = Some reqs /\ r ∈ reqs /\
    strict_eq (r_filamentId r) id = true.

(** Some print record is in the reference set of the guard. *)
Definition referenced_by_print (id : JSVal) (filament : Filament)
    (ps : list PrintRecord) : Prop :=
  exists p, p ∈ ps /\ printReferencing id filament p = true.

(** Two filament objects that differ at most in [inStock] and
    [deletionBlocked]. *)
Definition same_but_stock (f g : Filament) : Prop :=
  f_id g = f_id f /\ brand g = brand f /\ materialType g = materialType f /\
  material g = material f /\ color g = color f /\ colorName g = colorName f /\
  colorHex g = colorHex f /\ diameter g = diameter f /\ weight g = weight f /\
  location g = location f /\ purchasePrice g = purchasePrice f /\
  notes g = notes f /\ temperature g = temperature f /\
  purchaseDate g = purchaseDate f.

(** Two filament objects that differ at most in [weight] and [notes]. *)
Definition same_but_weight_notes (f g : Filament) : Prop :=
  f_id g = f_id f /\ brand g = brand f /\ materialType g = materialType f /\
  material g = material f /\ color g = color f /\ colorName g = colorName f /\
  colorHex g = colorHex f /\ diameter g = diameter f /\
  location g = location f /\ purchasePrice g = purchasePrice f /\
  inStock g = inStock f /\ temperature g = temperature f /\
  purchaseDate g = purchaseDate f /\ deletionBlocked g = deletionBlocked f.

(** * Vocabulary of the print date *)



(** * Vocabulary of the print form *)



(** * Vocabulary of the auto-populate engine *)

(** Equality of two texts up to letter case. *)
Definition same_text_ci (a b : JSVal) : bool :=
  match a, b with
  | VStr x, VStr y => String.eqb (toLowerCase x) (toLowerCase y)
  | _, _ => false
  end.

(** The resolution the specification describes: the filament with the
    stored id; failing that, a filament in stock with the material type
    and colour of the requirement, up to letter case. *)
Definition spec_resolve (fs : list Filament) (req : Requirement) : option Filament :=
  match js_find (fun f => strict_eq (f_id f) (r_filamentId req)) fs with
  | Some (_, f) => Some f
  | None =>
      snd <$> js_find (fun f =>
        truthy (inStock f) &&
        same_text_ci (materialType f) (r_materialType req) &&
        same_text_ci (color f) (r_color req)) fs
  end.

(** The resolution the script makes: by the stored id only. *)
Definition resolve_by_id (fs : list Filament) (req : Requirement) : option Filament :=
  if truthy (r_filamentId req)
  then snd <$> js_find (fun f => strict_eq (f_id f) (r_filamentId req)) fs
  else None.

(** * Vocabulary of the duplicate check *)

(** [f] duplicates the record [data] read off the form: its brand,
    material type and colour code are texts equal to those of [data] up
    to letter case. *)
Definition duplicates (data f : Filament) : Prop :=
  same_text_ci (brand f) (brand data) = true /\
  same_text_ci (materialType f) (materialType data) = true /\
  same_text_ci (colorHex f) (colorHex data) = true.

(** [f] can be told apart from [data]: its brand is a text, and differs
    from that of [data] up to letter case; or, the brands being equal,
    its material type is a text and differs; or, these being equal too,
    its colour code is a text and differs. *)
Definition told_apart (data f : Filament) : Prop :=
  exists b, brand f = VStr b /\
    (same_text_ci (brand f) (brand data) = false \/
     exists m, materialType f = VStr m /\
       (same_text_ci (materialType f) (materialType data) = false \/
        exists h, colorHex f = VStr h /\
                  same_text_ci (colorHex f) (colorHex data) = false)).

(** * Vocabulary of the filter *)



(** * Vocabulary of the sort *)

(** What [undefined.split('.')] throws. *)
Definition split_of_undefined : JSError :=
  TypeError "Cannot read properties of undefined (reading 'split')".

(** * Vocabulary of the validator *)

(** The seventh stage of [validateField], the custom predicate. *)
Definition custom_stage (rule : Rule) (value : JSVal) : JSVal :=
  match validate rule with
  | Some check =>
      if negb (check value)
      then invalid_result (match message rule with Some m => VStr m | None => VUndef end)
      else valid_result
  | None => valid_result
  end.

(** The first failure of a sequence of stage results. *)
Fixpoint first_failure (stages : list JSVal) : JSVal :=
  match stages with
  | [] => valid_result
  | r :: rest => if failed r then r else first_failure rest
  end.

(** The validator as the specification words it: presence, then the
    coercion to a number, then range, length, pattern, allowed values and
    the custom predicate, stopping at the first stage that fails. *)
Definition spec_validate `{Host} (types : list string) (fieldName : string)
    (value : JSVal) : JSVal :=
  match ValidationRules types fieldName with
  | None => valid_result
  | Some rule =>
      if optional rule && is_empty_value value then valid_result
      else if required rule && is_empty_value value then
        invalid_result (VStr (fieldName +:+ " is required"))
      else
        let coerce := type_is_number rule && negb (strict_eq value (VStr "")) in
        if coerce && isNaN (parseFloat value) then
          invalid_result (VStr (fieldName +:+ " must be a number"))
        else
          let coerced := if coerce then VNum (parseFloat value) else value in
          first_failure
            [ validateFieldRange coerced rule fieldName;
              validateFieldLength coerced rule fieldName;
              validateFieldPattern coerced rule fieldName;
              validateFieldAllowed coerced rule fieldName;
              custom_stage rule coerced ]
  end.

(** * Sample data *)

Module Sample.

(** A host for the examples: whole numbers print in decimal (the examples
    print no others) and texts compare by code units. *)
Definition host : Host := {|
  NumberToString := fun n =>
    match n with
    | NaN => "NaN"
    | PosInf => "Infinity"
    | NegInf => "-Infinity"
    | Fin q => (if (Qnum q <? 0)%Z then "-" else "") +:+
               nat_to_string (Z.to_nat (Z.abs (Qnum q) / Z.pos (Qden q)))
    end;
  localeCompare := fun a b =>
    if String.eqb a b then Fin 0 else if String.ltb a b then Fin (-1) else Fin 1
|}.

Definition env (ok : bool) : Env :=
  mkEnv (Fin 1700000000000) "2024-11-24T10:00:00.000Z" (Fin (1 # 2)) ok 4 TablesUpdated.

Definition num (z : Z) : JSVal := VNum (num_of_Z z).

(** The filament of the scenario: Acme PLA Blue. *)
Definition acme : Filament :=
  mkFilament (num 1) (VStr "Acme") (VStr "PLA") VUndef (VStr "Blue") VUndef
    (VStr "#0000FF") (VNum (Fin (175 # 100))) (num 1000) (VStr "Shelf") VNull
    (VStr "first spool") (VBool true) VUndef (VStr "2024-11-01T00:00:00.000Z") VUndef.

(** A second spool, red PETG. *)
Definition bolt : Filament :=
  mkFilament (num 2) (VStr "Bolt") (VStr "PETG") VUndef (VStr "Red") VUndef
    (VStr "#FF0000") (VNum (Fin (285 # 100))) (num 750) (VStr "") VNull
    (VStr "") (VBool true) VUndef (VStr "2024-11-02T00:00:00.000Z") VUndef.

(** A record whose colour code is not [#RRGGBB]. *)
Definition broken : Filament :=
  mkFilament (num 3) (VStr "Cheap") (VStr "PLA") VUndef (VStr "Green") VUndef
    (VStr "green") (VNum (Fin (175 # 100))) (num 500) (VStr "") VNull
    (VStr "") (VBool true) VUndef VUndef VUndef.

Definition store (fs : list Filament) (ms : list Model) (ps : list PrintRecord) : Store :=
  mkStore fs ms ps VNull ["PLA"; "PETG"; "ABS"; "TPU"] ∅.

(** A model that requires the Acme spool. *)
Definition benchy : Model :=
  mkModel (num 10) (VStr "Benchy") (VStr "")
    (Some [mkRequirement (num 1) (VStr "Blue") VUndef VUndef VUndef]).

(** A print record that carries the id of another filament and the colour
    of the Acme spool. *)
Definition bluePrint : PrintRecord :=
  mkPrint (num 20) (VStr "Benchy") (num 12) (VStr "2024-11-20")
    (Some [mkPrintFilament (num 2) (VStr "Blue") (VStr "PETG") (num 12) (VStr "#0000AA")])
    (VStr "Blue") (num 2) VUndef.

(** The print form filled for a print of two filaments, the Acme and the
    Bolt spool. *)
Definition twoColorForm : PrintFormDOM :=
  mkPrintFormDOM "Benchy" "15" "2024-11-20"
    [mkPrintFilamentItem "1" "10"; mkPrintFilamentItem "2" "5"].

(** The add-filament form filled with a second Acme PLA spool of the same
    colour code, in other letter case. *)
Definition secondSpoolForm : Form :=
  mkForm
    [ mkFormInput "brand" "filamentBrand" "text" "ACME" false;
      mkFormInput "materialType" "filamentMaterialType" "select-one" "PLA" false;
      mkFormInput "colorHex" "filamentColorHex" "color" "#0000ff" false;
      mkFormInput "weight" "filamentWeight" "number" "250" false;
      mkFormInput "diameter" "filamentDiameter" "select-one" "1.75" false;
      mkFormInput "inStock" "filamentInStock" "checkbox" "on" true ]
    (Some "") (Some "") (Some "").

Definition secondSpool : FilamentFormData :=
  mkFilamentFormData "PLA" "" "ACME" "Navy" "#0000ff" "1.75" "250" "" ""
    "second spool" true "" "".

(** The edit form of the Benchy model after its only requirement input
    was cleared. *)
Definition clearedEditForm : ModelForm := mkModelForm " Benchy v2 " "" [""].

Definition editingBenchy : Store :=
  mkStore [acme] [benchy] [] (num 10) ["PLA"; "PETG"; "ABS"; "TPU"] ∅.


(** A model whose requirement names a filament that was deleted since;
    a spool of that material and colour is in stock. *)
Definition staleRequirement : Requirement :=
  mkRequirement (num 99) (VStr "blue") (VStr "pla") (VStr "pla") VUndef.

Definition dragon : Model :=
  mkModel (VStr "m1") (VStr "Dragon") (VStr "") (Some [staleRequirement]).

Definition emptyPrintForm : PrintFormDOM :=
  mkPrintFormDOM "Dragon" "" "2024-11-24" [emptyPrintFilamentItem].

Definition emptyFormState : PrintForm.State :=
  PrintForm.mkState ∅ [] None [].

Definition fresh (k : nat) : string := "u" +:+ nat_to_string k.

(** A record migrated from an older version: it has the legacy [material]
    and a display name of the colour. *)
Definition azure : Filament :=
  mkFilament (num 4) (VStr "Prusa") (VStr "PETG") (VStr "PETG") (VStr "Blue")
    (VStr "Azure") (VStr "#3070C0") (VNum (Fin (175 # 100))) (num 1000) (VStr "Box")
    VNull (VStr "") (VBool true) VUndef VUndef VUndef.

Definition grid (rows : list Filament) : Grid Filament :=
  mkGrid rows FilamentTable.filamentColumns 1 25 (mkSortSpec VNull true) rows.

(** Two values for the temperature rule: a range within bounds, and one
    that is out of bounds and reversed. *)
Definition goodRange : JSVal := VObj [("min", VStr "200"); ("max", VStr "250")].
Definition badRange : JSVal := VObj [("min", VStr "100"); ("max", VStr "50")].

Definition types : list string := ["PLA"; "PETG"; "ABS"; "TPU"].

(** A filament grid of three rows shown two to a page. *)
Definition threeRows : Grid Filament :=
  mkGrid [acme; bolt; azure] FilamentTable.filamentColumns 1 2 (mkSortSpec VNull true)
         [acme; bolt; azure].

End Sample.

(** * Printable models *)

(** The value [canPrintModel] returns. *)
Record PrintCheck : Type := mkPrintCheck {
  canPrint : bool;
  missingRequirements : list string
}.

Section Printable.
Context `{Host}.

(** [filaments.some(f => f.id === r.filamentId && f.inStock)] *)
Definition requirementMet (fs : list Filament) (r : Requirement) : bool :=
  existsb (fun f => strict_eq (f_id f) (r_filamentId r) && truthy (inStock f)) fs.

Definition canPrintModel (m : Model) (st : Store) : PrintCheck :=
  match requirements m with
  | None | Some [] => mkPrintCheck false ["None defined"]
  | Some reqs =>
      let missing :=
        map (fun r => ToString (r_color r) +:+ " (" +:+ ToString (r_material r) +:+ ")")
            (List.filter (fun r => negb (requirementMet (filaments st) r)) reqs) in
      mkPrintCheck (length missing =? 0) missing
  end.

(** The models [updatePrintableModels] lists. *)
Definition printableModels (st : Store) : list Model :=
  List.filter (fun m => canPrint (canPrintModel m st)) (models st).

End Printable.

(** * Pages of a grid *)

(** [Array.prototype.slice(start, end)] for integer arguments: a negative
    index counts from the end, and both are clamped to the array. *)
Definition js_slice {A} (start end_ : Z) (l : list A) : list A :=
  let len := Z.of_nat (length l) in
  let k := if (start <? 0)%Z then Z.max (len + start) 0 else Z.min start len in
  let final := if (end_ <? 0)%Z then Z.max (len + end_) 0 else Z.min end_ len in
  take (Z.to_nat (final - k)) (drop (Z.to_nat k) l).

(** What [renderTable] puts in the table body: the empty-state row, or
    the rows of the current page. *)
Inductive Rendered (Row : Type) : Type :=
| EmptyState
| PageRows (rows : list Row).
Arguments EmptyState {Row}.
Arguments PageRows {Row} rows.

Module Paging.
Section Paging.
Context {Row : Type}.

(** [(this.currentPage - 1) * this.itemsPerPage] *)
Definition startIndex (page : Z) (g : Grid Row) : Z :=
  ((page - 1) * Z.of_nat (itemsPerPage g))%Z.

(** [Math.min(startIndex + this.itemsPerPage, this.visibleData.length)] *)
Definition endIndex (page : Z) (g : Grid Row) : Z :=
  Z.min (startIndex page g + Z.of_nat (itemsPerPage g)) (Z.of_nat (length (visibleData g))).

(** The rows [renderTable] takes when the current page is [page]. *)
Definition pageData (page : Z) (g : Grid Row) : list Row :=
  js_slice (startIndex page g) (endIndex page g) (visibleData g).

Definition renderTable (g : Grid Row) : Rendered Row :=
  if length (visibleData g) =? 0 then EmptyState
  else PageRows (pageData (Z.of_nat (currentPage g)) g).

(** [Math.ceil(this.visibleData.length / this.itemsPerPage)]; a page size
    of zero gives [Infinity], or [NaN] for an empty grid. *)
Definition totalPages (g : Grid Row) : JSNum :=
  let len := length (visibleData g) in
  match itemsPerPage g with
  | O => if len =? 0 then NaN else PosInf
  | S _ => num_of_nat ((len + itemsPerPage g - 1) / itemsPerPage g)
  end.

(** The [disabled] state [setupPagination] gives the two buttons. *)
Definition prevDisabled (g : Grid Row) : bool := currentPage g =? 1.
Definition nextDisabled (g : Grid Row) : bool :=
  num_geb (num_of_nat (currentPage g)) (totalPages g) || num_eqb (totalPages g) (Fin 0).

(** [goToPage(page)]: the page is taken as given. *)
Definition goToPage (page : nat) (g : Grid Row) : Grid Row :=
  mkGrid (originalData g) (columns g) page (itemsPerPage g) (currentSort g) (visibleData g).

End Paging.
End Paging.

(** * Material types *)

Module MaterialTypes.

(** The globals with the entry of the browser storage under
    [printStack_materialTypes] ([None]: no entry); the stored text is kept
    as the list it encodes. *)
Record State : Type := mkState {
  store : Store;
  saved : option (list string)
}.

Definition set_materialTypes (l : list string) (s : State) : State :=
  mkState (mkStore (filaments (store s)) (models (store s)) (prints (store s))
             (editingModelId (store s)) l (localStorage (store s)))
          (saved s).

(** [saveMaterialTypes()] *)
Definition saveMaterialTypes (s : State) : State :=
  mkState (store s) (Some (materialTypes (store s))).

(** [loadMaterialTypes()] *)
Definition loadMaterialTypes (s : State) : State :=
  match saved s with
  | Some l => set_materialTypes l s
  | None => s
  end.

Section Types.

(** [addMaterialType(type)]: the state afterwards and the value returned. *)
Definition addMaterialType (type_ : JSVal) (s : State) : State * bool :=
  match type_ with
  | VStr t =>
      if negb (truthy type_) then (s, false)
      else
        let trimmedType := trim t in
        if negb (truthy (VStr trimmedType)) then (s, false)
        else if negb (array_includes (map VStr (materialTypes (store s))) (VStr trimmedType))
        then (saveMaterialTypes
                (set_materialTypes (materialTypes (store s) ++ [trimmedType]) s), true)
        else (s, false)
  | _ => (s, false)
  end.

(** [removeMaterialType(type)]; [splice(index, 1)] takes out the entry
    [indexOf] found. *)
Definition removeMaterialType (type_ : JSVal) (s : State) : State * bool :=
  match type_ with
  | VStr t =>
      if negb (truthy type_) then (s, false)
      else
        match js_find (fun x => strict_eq (VStr x) type_) (materialTypes (store s)) with
        | Some (index, _) =>
            let inUse :=
              existsb (fun f => strict_eq (materialType f) type_) (filaments (store s)) in
            if negb inUse
            then (saveMaterialTypes
                    (set_materialTypes (delete index (materialTypes (store s))) s), true)
            else (s, false)
        | None => (s, false)
        end
  | _ => (s, false)
  end.

End Types.
End MaterialTypes.

(** * Loading: [ensureFilamentIds] and [loadData] *)

(** [a * b] *)
Definition num_mul (a b : JSNum) : JSNum :=
  match a, b with
  | NaN, _ | _, NaN => NaN
  | Fin x, Fin y => Fin (x * y)%Q
  | Fin x, PosInf | PosInf, Fin x =>
      if Qeq_bool x 0 then NaN else if Qle_bool 0 x then PosInf else NegInf
  | Fin x, NegInf | NegInf, Fin x =>
      if Qeq_bool x 0 then NaN else if Qle_bool 0 x then NegInf else PosInf
  | PosInf, PosInf | NegInf, NegInf => PosInf
  | PosInf, NegInf | NegInf, PosInf => NegInf
  end.

(** [Math.floor] *)
Definition num_floor (a : JSNum) : JSNum :=
  match a with
  | Fin q => num_of_Z (Qfloor q)
  | _ => a
  end.

(** [Number.isInteger(v)] *)
Definition isInteger (v : JSVal) : bool :=
  match v with
  | VNum (Fin q) => Qeq_bool q (inject_Z (Qfloor q))
  | _ => false
  end.

Definition set_id (id : JSVal) (f : Filament) : Filament :=
  mkFilament id (brand f) (materialType f) (material f) (color f) (colorName f)
    (colorHex f) (diameter f) (weight f) (location f) (purchasePrice f) (notes f)
    (inStock f) (temperature f) (purchaseDate f) (deletionBlocked f).

(** [!f.id || typeof f.id !== 'number' || !Number.isInteger(f.id)] *)
Definition lacks_id (f : Filament) : bool :=
  negb (truthy (f_id f)) ||
  match typeof (f_id f) with TNumber => false | _ => true end ||
  negb (isInteger (f_id f)).

(** [Math.floor(Date.now() + Math.random() * 1000000)], for the two
    readings taken at one record. *)
Definition newId (reading : JSNum * JSNum) : JSVal :=
  VNum (num_floor (num_add reading.1 (num_mul reading.2 (Fin 1000000)))).

Section Loading.

(** [ensureFilamentIds()]; [clock k] is what [Date.now()] and
    [Math.random()] answer at the record in position [k]. *)
Definition ensureFilamentIds (clock : nat -> JSNum * JSNum) (env : Env) (st : Store)
  : Store :=
  let fs :=
    imap (fun k f => if lacks_id f then set_id (newId (clock k)) f else f) (filaments st) in
  if existsb lacks_id (filaments st)
  then (saveData env (set_filaments fs st)).1
  else st.

End Loading.

(** [JSON.parse(JSON.stringify(v))]: a number that is not finite comes
    back as [null], and a property whose value is [undefined] is left
    out. *)
Fixpoint json_value (v : JSVal) : JSVal :=
  match v with
  | VNum (Fin q) => VNum (Fin q)
  | VNum _ => VNull
  | VObj fs =>
      VObj ((fix fields (l : list (string * JSVal)) : list (string * JSVal) :=
               match l with
               | [] => []
               | (k, VUndef) :: r => fields r
               | (k, x) :: r => (k, json_value x) :: fields r
               end) fs)
  | _ => v
  end.

Definition json_filament (f : Filament) : Filament :=
  mkFilament (json_value (f_id f)) (json_value (brand f)) (json_value (materialType f))
    (json_value (material f)) (json_value (color f)) (json_value (colorName f))
    (json_value (colorHex f)) (json_value (diameter f)) (json_value (weight f))
    (json_value (location f)) (json_value (purchasePrice f)) (json_value (notes f))
    (json_value (inStock f)) (json_value (temperature f)) (json_value (purchaseDate f))
    (json_value (deletionBlocked f)).

Definition json_requirement (r : Requirement) : Requirement :=
  mkRequirement (json_value (r_filamentId r)) (json_value (r_color r))
    (json_value (r_material r)) (json_value (r_materialType r)) (json_value (r_weight r)).

Definition json_model (m : Model) : Model :=
  mkModel (json_value (m_id m)) (json_value (m_name m)) (json_value (m_link m))
    (map json_requirement <$> requirements m).

Definition json_printFilament (u : PrintFilament) : PrintFilament :=
  mkPrintFilament (json_value (pf_filamentId u)) (json_value (pf_color u))
    (json_value (pf_material u)) (json_value (pf_weight u)) (json_value (pf_colorHex u)).

Definition json_print (p : PrintRecord) : PrintRecord :=
  mkPrint (json_value (p_id p)) (json_value (p_modelName p)) (json_value (p_weight p))
    (json_value (p_date p)) (map json_printFilament <$> p_filaments p)
    (json_value (p_color p)) (json_value (p_filamentId p)) (json_value (p_material p)).

(** The migration [loadData] applies to each filament it has parsed. *)
Definition migrateFilament (f : Filament) : Filament :=
  let materialType1 :=
    if negb (truthy (materialType f)) && truthy (material f)
    then material f else materialType f in
  let materialType2 :=
    if truthy (material f) && negb (truthy materialType1)
    then material f else materialType1 in
  mkFilament (f_id f)
    (if negb (truthy (brand f)) then VStr "Unknown" else brand f)
    materialType2 (material f) (color f) (colorName f)
    (if negb (truthy (colorHex f)) then VStr "#cccccc" else colorHex f)
    (if negb (truthy (diameter f)) then VNum (Fin (175 # 100)) else diameter f)
    (weight f) (location f) (purchasePrice f) (notes f)
    (if strict_eq (inStock f) VUndef then VBool true else inStock f)
    (temperature f) (purchaseDate f) (deletionBlocked f).

(** ... and to each requirement of each model. *)
Definition migrateRequirement (r : Requirement) : Requirement :=
  if truthy (r_material r) && negb (truthy (r_materialType r))
  then mkRequirement (r_filamentId r) (r_color r) (r_material r) (r_material r) (r_weight r)
  else r.

Definition migrateModel (m : Model) : Model :=
  mkModel (m_id m) (m_name m) (m_link m) (map migrateRequirement <$> requirements m).

Section LoadData.

(** [loadData()].  The three keys are read as [saveData] writes them; a
    key that holds anything else is outside the model ([None]). *)
Definition loadData (clock : nat -> JSNum * JSNum) (env : Env) (st : Store)
  : option Store :=
  st1 ← match localStorage st !! "filaments" with
        | None => Some st
        | Some (SFilaments fs) =>
            Some (set_filaments (map (fun f => migrateFilament (json_filament f)) fs) st)
        | Some _ => None
        end;
  st2 ← match localStorage st !! "models" with
        | None => Some st1
        | Some (SModels ms) =>
            Some (set_models (map (fun m => migrateModel (json_model m)) ms) st1)
        | Some _ => None
        end;
  st3 ← match localStorage st !! "prints" with
        | None => Some st2
        | Some (SPrints ps) => Some (set_prints (map json_print ps) st2)
        | Some _ => None
        end;
  Some (ensureFilamentIds clock env st3).

End LoadData.

(** * The usage list of the React print form *)

Module PrintFormEdit.
Import PrintForm.

(** [{ ...usage, [field]: value }]; the component calls it for the three
    editable properties, and a name that is none of the four properties
    adds one that nothing reads. *)
Definition set_field (field : string) (value : string) (u : Usage) : Usage :=
  if String.eqb field "id" then
    mkUsage value (u_filamentId u) (u_materialType u) (u_actualWeight u)
  else if String.eqb field "filamentId" then
    mkUsage (u_id u) (VStr value) (u_materialType u) (u_actualWeight u)
  else if String.eqb field "materialType" then
    mkUsage (u_id u) (u_filamentId u) (VStr value) (u_actualWeight u)
  else if String.eqb field "actualWeight" then
    mkUsage (u_id u) (u_filamentId u) (u_materialType u) (VStr value)
  else u.

Definition set_usages (l : list Usage) (s : State) : State :=
  mkState (fields s) l (selectedModel s) (errors s).

(** [addFilamentUsage()]; [id] is [Date.now().toString()]. *)
Definition addFilamentUsage (id : string) (s : State) : State :=
  set_usages (filamentUsages s ++ [mkUsage id (VStr "") (VStr "") (VStr "")]) s.

(** [updateFilamentUsage(index, field, value)] *)
Definition updateFilamentUsage (index : nat) (field value : string) (s : State) : State :=
  set_usages
    (imap (fun i usage => if i =? index then set_field field value usage else usage)
       (filamentUsages s)) s.

(** [removeFilamentUsage(index)] *)
Definition removeFilamentUsage (index : nat) (s : State) : State :=
  set_usages
    (omap id (imap (fun i usage => if negb (i =? index) then Some usage else None)
                (filamentUsages s))) s.

Section Total.
Context `{Host}.

(** [parseFloat(usage.actualWeight) || 0] *)
Definition usageWeight (usage : Usage) : JSNum :=
  let weight := parseFloat (u_actualWeight usage) in
  if truthy (VNum weight) then weight else Fin 0.

(** [calculateTotalWeight()] *)
Definition calculateTotalWeight (s : State) : JSNum :=
  fold_left (fun total usage => num_add total (usageWeight usage)) (filamentUsages s) (Fin 0).

End Total.
End PrintFormEdit.

(** * Deleting models and prints, editing a print *)

(** The edit-print dialog. *)
Record EditPrintForm : Type := mkEditPrintForm {
  editPrintModel : string;
  editPrintColor : string;
  editPrintWeight : string;
  editPrintDate : string
}.

Section Deleting.

(** [deleteModel(id)] *)
Definition deleteModel (env : Env) (id : JSVal) (st : Store) : Store :=
  if confirm env then
    (saveData env
       (set_models (List.filter (fun m => negb (strict_eq (m_id m) id)) (models st)) st)).1
  else st.

(** [deletePrint(id)] *)
Definition deletePrint (env : Env) (id : JSVal) (st : Store) : Store :=
  if confirm env then
    (saveData env
       (set_prints (List.filter (fun p => negb (strict_eq (p_id p) id)) (prints st)) st)).1
  else st.

(** The print object after the four assignments of [saveEditPrint]. *)
Definition editedPrint (form : EditPrintForm) (p : PrintRecord) : PrintRecord :=
  mkPrint (p_id p) (VStr (trim (editPrintModel form)))
    (js_or (VNum (parseFloat_str (editPrintWeight form))) (VNum (Fin 0)))
    (VStr (editPrintDate form)) (p_filaments p)
    (VStr (trim (editPrintColor form))) (p_filamentId p) (p_material p).

(** [saveEditPrint()], with the global [editingPrintId]. *)
Definition saveEditPrint (env : Env) (form : EditPrintForm) (editingPrintId : JSVal)
    (st : Store) : Store :=
  match js_find (fun x => strict_eq (p_id x) editingPrintId) (prints st) with
  | None => st
  | Some (i, p) =>
      (saveData env (set_prints (<[ i := editedPrint form p ]> (prints st)) st)).1
  end.

End Deleting.

(** * Importing a file: [handleImport] *)

(** [Array.prototype.some] with a predicate that may throw. *)
Fixpoint some_r {A} (p : A -> result bool) (l : list A) : result bool :=
  match l with
  | [] => Ok false
  | x :: r =>
      b ← p x;
      if b : bool then Ok true else some_r p r
  end.

(** [Array.prototype.map] with the index, for a callback that may throw. *)
Fixpoint imap_r {A B} (f : nat -> A -> result B) (k : nat) (l : list A) : result (list B) :=
  match l with
  | [] => Ok []
  | x :: r =>
      y ← f k x;
      ys ← imap_r f (S k) r;
      Ok (y :: ys)
  end.

(** The three arrays [handleImport] takes from the parsed file, in the
    enhanced or in the legacy format; an array the file does not have is
    empty. *)
Record ImportFile : Type := mkImportFile {
  filamentsToImport : list Filament;
  modelsToImport : list Model;
  printsToImport : list PrintRecord
}.

(** What [Date.now()] and [Math.random()] answer at the record in
    position [k] of each of the three arrays, and during
    [ensureFilamentIds]. *)
Record ImportClocks : Type := mkImportClocks {
  filamentClock : nat -> JSNum * JSNum;
  ensureClock : nat -> JSNum * JSNum;
  modelClock : nat -> JSNum * JSNum;
  printClock : nat -> JSNum * JSNum
}.

(** How the handler ends. *)
Inductive ImportOutcome : Type :=
| NoData                      (* nothing to import was found *)
| Imported                    (* saved: the success message *)
| NotSaved                    (* [saveData] returned [false] *)
| ImportFailed (e : JSError). (* an exception reached the [catch] *)

(** [Date.now() + Math.random()] *)
Definition importId (reading : JSNum * JSNum) : JSVal :=
  VNum (num_add reading.1 reading.2).

(** The callback of [filamentsToImport.map]. *)
Definition importFilament (reading : JSNum * JSNum) (f : Filament) : Filament :=
  let materialType1 :=
    if negb (truthy (materialType f)) && truthy (material f)
    then material f else materialType f in
  mkFilament
    (if strict_eq (f_id f) VUndef then importId reading else f_id f)
    (if negb (truthy (brand f)) then VStr "Unknown" else brand f)
    (if negb (truthy materialType1) then VStr "Unknown" else materialType1)
    (material f) (color f) (colorName f)
    (if negb (truthy (colorHex f)) then VStr "#cccccc" else colorHex f)
    (if negb (truthy (diameter f)) then VNum (Fin (175 # 100)) else diameter f)
    (weight f) (location f) (purchasePrice f) (notes f) (inStock f)
    (temperature f) (purchaseDate f) (deletionBlocked f).

Section Importing.

(** The callback of [m.requirements.forEach]; the lookup is made in the
    filaments as they are at that point. *)
Definition importRequirement (st : Store) (req : Requirement) : result Requirement :=
  filamentId ←
    (if negb (truthy (r_filamentId req)) && truthy (r_color req) && truthy (r_material req)
     then resolveFilamentId (r_color req) (r_material req) st
     else Ok (r_filamentId req));
  Ok (mkRequirement filamentId (r_color req) (r_material req)
        (if truthy (r_material req) && negb (truthy (r_materialType req))
         then r_material req else r_materialType req)
        (r_weight req)).

(** The callback of [modelsToImport.forEach]. *)
Definition importModel (clock : nat -> JSNum * JSNum) (st : Store) (k : nat) (m : Model)
  : result Model :=
  let id := if negb (truthy (m_id m)) then importId (clock k) else m_id m in
  match requirements m with
  | Some reqs =>
      reqs' ← imap_r (fun _ req => importRequirement st req) 0 reqs;
      Ok (mkModel id (m_name m) (m_link m) (Some reqs'))
  | None => Ok (mkModel id (m_name m) (m_link m) None)
  end.

(** [x.name.toLowerCase() === m.name.toLowerCase()] *)
Definition sameName (m x : Model) : result bool :=
  a ← call_string_method toLowerCase "toLowerCase" (m_name x);
  b ← call_string_method toLowerCase "toLowerCase" (m_name m);
  Ok (String.eqb a b).

(** The loop of the add mode: a model is pushed unless one of that name,
    up to letter case, is in the collection already.  The models pushed
    before an exception stay. *)
Fixpoint addImportedModels (ms : list Model) (imported : list Model)
  : list Model * option JSError :=
  match imported with
  | [] => (ms, None)
  | m :: r =>
      match some_r (sameName m) ms with
      | Ok true => addImportedModels ms r
      | Ok false => addImportedModels (ms ++ [m]) r
      | Throw e => (ms, Some e)
      end
  end.

Definition importPrint (clock : nat -> JSNum * JSNum) (k : nat) (p : PrintRecord)
  : PrintRecord :=
  mkPrint (if negb (truthy (p_id p)) then importId (clock k) else p_id p)
    (p_modelName p) (p_weight p) (p_date p) (p_filaments p) (p_color p)
    (p_filamentId p) (p_material p).

(** The [onload] callback of [handleImport], from the parsed file on: the
    store afterwards and how the handler ended.  An exception leaves the
    store as it was when it was thrown; [updateAllTables()] runs inside
    the [try], after a successful save. *)
Definition handleImport (clocks : ImportClocks) (env : Env) (file : ImportFile) (st : Store)
  : Store * ImportOutcome :=
  let hasFilaments := 0 <? length (filamentsToImport file) in
  let hasModels := 0 <? length (modelsToImport file) in
  let hasPrints := 0 <? length (printsToImport file) in
  if negb hasFilaments && negb hasModels && negb hasPrints then (st, NoData)
  else
    let replace := confirm env in
    let st1 :=
      if hasFilaments then
        let processedFilaments :=
          imap (fun k f => importFilament (filamentClock clocks k) f)
               (filamentsToImport file) in
        ensureFilamentIds (ensureClock clocks) env
          (set_filaments
             (if replace then processedFilaments else filaments st ++ processedFilaments) st)
      else st in
    let afterModels : Store * option JSError :=
      if hasModels then
        match imap_r (importModel (modelClock clocks) st1) 0 (modelsToImport file) with
        | Throw e => (st1, Some e)
        | Ok processedModels =>
            if replace then (set_models processedModels st1, None)
            else
              let '(ms, err) := addImportedModels (models st1) processedModels in
              (set_models ms st1, err)
        end
      else (st1, None) in
    match afterModels with
    | (st2, Some e) => (st2, ImportFailed e)
    | (st2, None) =>
        let st3 :=
          if hasPrints then
            let processedPrints :=
              imap (importPrint (printClock clocks)) (printsToImport file) in
            set_prints (if replace then processedPrints else prints st2 ++ processedPrints) st2
          else st2 in
        let '(st4, saved) := saveData env st3 in
        if saved then
          match tables env with
          | TablesUpdated => (st4, Imported)
          | TablesThrewEarly e | TablesThrewLate e => (st4, ImportFailed e)
          end
        else (st4, NotSaved)
    end.

End Importing.

(** * The filament of the data model *)

(** An optional property that is absent. *)
Definition absent (v : JSVal) : Prop := v = VUndef \/ v = VNull.

(** A non-empty string. *)
Definition nonempty_text (v : JSVal) : Prop := exists s, v = VStr s /\ s <> "".

(** [{min, max}], integers with [150 <= min < max <= 350]. *)
Definition temperature_range (t : JSVal) : Prop :=
  exists fields lo hi,
    t = VObj fields /\ field_of t "min" = VNum lo /\ field_of t "max" = VNum hi /\
    isInteger (VNum lo) = true /\ isInteger (VNum hi) = true /\
    num_leb (Fin 150) lo = true /\ num_ltb lo hi = true /\ num_leb hi (Fin 350) = true.

(** A structurally valid filament, as the data model of the specification
    describes it: non-empty brand, material type and colour, a colour
    code [#RRGGBB], a positive weight, a diameter of 1.75 or 2.85, an
    optional non-negative purchase price and an optional temperature
    range. *)
Record DataModelFilament (f : Filament) : Prop := {
  dm_brand : nonempty_text (brand f);
  dm_materialType : nonempty_text (materialType f);
  dm_color : nonempty_text (color f);
  dm_colorHex : exists s, colorHex f = VStr s /\ is_RRGGBB s;
  dm_weight : exists n, weight f = VNum n /\ num_ltb (Fin 0) n = true;
  dm_diameter :
    exists n, diameter f = VNum n /\
      (num_eqb n (Fin (175 # 100)) = true \/ num_eqb n (Fin (285 # 100)) = true);
  dm_purchasePrice :
    absent (purchasePrice f) \/
    exists n, purchasePrice f = VNum n /\ num_leb (Fin 0) n = true;
  dm_temperature : absent (temperature f) \/ temperature_range (temperature f)
}.

(** * Further sample data *)

Module Workshop.

(** The Acme spool with a temperature range that starts at 0 degrees. *)
Definition coldAcme : Filament :=
  mkFilament (Sample.num 1) (VStr "Acme") (VStr "PLA") VUndef (VStr "Blue") VUndef
    (VStr "#0000FF") (VNum (Fin (175 # 100))) (Sample.num 1000) (VStr "Shelf") VNull
    (VStr "first spool") (VBool true)
    (VObj [("min", Sample.num 0); ("max", Sample.num 200)])
    (VStr "2024-11-01T00:00:00.000Z") VUndef.

(** An Acme record of an older storage: it has neither a material type
    nor a legacy material, and the migration of [loadData] gives it none. *)
Definition untypedAcme : Filament :=
  mkFilament (Sample.num 7) (VStr "Acme") VUndef VUndef (VStr "Blue") VUndef
    (VStr "#0000FF") (VNum (Fin (175 # 100))) (Sample.num 1000) (VStr "Shelf") VNull
    (VStr "") (VBool true) VUndef VUndef VUndef.

(** The Acme spool as a file can bring it in: the weight is a text. *)
Definition textWeightAcme : Filament :=
  mkFilament (Sample.num 1) (VStr "Acme") (VStr "PLA") VUndef (VStr "Blue") VUndef
    (VStr "#0000FF") (VNum (Fin (175 # 100))) (VStr "1000") (VStr "Shelf") VNull
    (VStr "first spool") (VBool true) VUndef (VStr "2024-11-01T00:00:00.000Z") VUndef.

(** The default material types, nothing stored yet, one Acme spool. *)
Definition typeState : MaterialTypes.State :=
  MaterialTypes.mkState (Sample.store [Sample.acme] [] []) None.

(** The add-filament form with [Other] selected and a custom material
    typed in. *)
Definition customMaterialForm : Form :=
  mkForm
    [ mkFormInput "brand" "filamentBrand" "text" "Acme" false;
      mkFormInput "materialType" "filamentMaterialType" "select-one" "Other" false;
      mkFormInput "colorHex" "filamentColorHex" "color" "#101010" false;
      mkFormInput "weight" "filamentWeight" "number" "500" false;
      mkFormInput "diameter" "filamentDiameter" "select-one" "1.75" false ]
    (Some " ASA ") (Some "") (Some "").

Definition customMaterialSpool : FilamentFormData :=
  mkFilamentFormData "Other" " ASA " "Acme" "Black" "#101010" "1.75" "500" "" ""
    "" true "" "".

(** The second Acme spool with the colour left blank. *)
Definition blankColorSpool : FilamentFormData :=
  mkFilamentFormData "PLA" "" "ACME" "  " "#0000ff" "1.75" "250" "" ""
    "second spool" true "" "".

(** A clock for the ids given at loading. *)
Definition clock (k : nat) : JSNum * JSNum :=
  (Fin 1700000000123, Fin (1 # Pos.of_nat (2 + k))).

(** A spool as it is after [addFilament]: its id has a fractional part. *)
Definition freshSpool : Filament :=
  collectFilamentFormData (Sample.env true) Sample.secondSpool.

Definition clocks : ImportClocks := mkImportClocks clock clock clock clock.

(** A file with the Acme spool and a model that asks for a blue PLA
    filament by colour and material, without an id. *)
Definition vase : Model :=
  mkModel VUndef (VStr "Vase") (VStr "")
    (Some [mkRequirement VUndef (VStr "Blue") (VStr "PLA") VUndef VUndef]).

Definition importFile : ImportFile := mkImportFile [Sample.acme] [vase] [].

End Workshop.

(** * Theorems *)

(** ** Strings *)

Lemma startsWith_occurs s q : startsWith s q = true -> exists post, s = q +:+ post.
Proof.
  revert s. induction q as [|a q IH]; intros s Hs.
  - exists s. reflexivity.
  - destruct s as [|b s]; simpl in Hs; [discriminate|].
    destruct (Ascii.eqb a b) eqn:E; [|discriminate].
    apply Ascii.eqb_eq in E. subst b.
    destruct (IH _ Hs) as [post ->]. exists post. reflexivity.
Qed.

Lemma startsWith_append q post : startsWith (q +:+ post) q = true.
Proof.
  induction q as [|a q IH]; [reflexivity|].
  change (String a q +:+ post) with (String a (q +:+ post)).
  simpl. rewrite Ascii.eqb_refl. exact IH.
Qed.

Lemma includes_unfold s q :
  includes s q =
  startsWith s q || match s with EmptyString => false | String _ r => includes r q end.
Proof. destruct s; reflexivity. Qed.

(** [includes] decides occurrence as a contiguous substring. *)
Lemma includes_spec s q : includes s q = true <-> occurs_in q s.
Proof.
  split.
  - induction s as [|c s IH]; simpl; intros Hs.
    + rewrite orb_false_r in Hs. apply startsWith_occurs in Hs as [post ->].
      exists "", post. reflexivity.
    + apply orb_true_iff in Hs as [Hs|Hs].
      * apply startsWith_occurs in Hs as [post ->]. exists "", post. reflexivity.
      * destruct (IH Hs) as (pre & post & ->). exists (String c pre), post. reflexivity.
  - intros (pre & post & ->). induction pre as [|c pre IH].
    + change ("" +:+ q +:+ post) with (q +:+ post).
      rewrite includes_unfold, startsWith_append. reflexivity.
    + change (String c pre +:+ q +:+ post) with (String c (pre +:+ q +:+ post)).
      simpl. rewrite IH. apply orb_true_r.
Qed.

Lemma toLowerCase_length s : str_length (toLowerCase s) = str_length s.
Proof. induction s; simpl; [reflexivity|]. unfold str_length in *. simpl. congruence. Qed.

(** ** Numbers *)

Lemma Qeq_bool_sym a b : Qeq_bool a b = Qeq_bool b a.
Proof.
  destruct (Qeq_bool a b) eqn:E1, (Qeq_bool b a) eqn:E2; try reflexivity.
  - apply Qeq_bool_iff in E1. symmetry in E1. apply Qeq_bool_iff in E1. congruence.
  - apply Qeq_bool_iff in E2. symmetry in E2. apply Qeq_bool_iff in E2. congruence.
Qed.

Lemma num_eqb_sym a b : num_eqb a b = num_eqb b a.
Proof. destruct a, b; simpl; try reflexivity. apply Qeq_bool_sym. Qed.

Lemma Qeq_bool_le a b : Qeq_bool a b = true -> Qle_bool a b = true.
Proof.
  intros E. apply Qeq_bool_iff in E. apply Qle_bool_iff. rewrite E. apply Qle_refl.
Qed.

Lemma Qeq_bool_trans_false a b c :
  Qeq_bool a b = true -> Qeq_bool b c = false -> Qeq_bool a c = false.
Proof.
  intros E1 E2. destruct (Qeq_bool a c) eqn:E3; [|reflexivity].
  apply Qeq_bool_iff in E1, E3. rewrite E1 in E3. apply Qeq_bool_iff in E3. congruence.
Qed.

Lemma num_leb_negb_ltb a b :
  a <> NaN -> b <> NaN -> num_leb a b = negb (num_ltb b a).
Proof. destruct a, b; simpl; congruence. Qed.

Lemma truthy_num_not_NaN n : truthy (VNum n) = true -> n <> NaN.
Proof. destruct n; simpl; congruence. Qed.

(** ** C2: [saveData] refuses an invalid collection *)

Lemma js_get_truthy v k : truthy v = true -> js_get v k = Ok (field_of v k).
Proof. unfold field_of. destruct v; simpl; try discriminate; try reflexivity.
  destruct (String.eqb k "length"); reflexivity. Qed.

Lemma trim_empty : trim "" = "".
Proof. reflexivity. Qed.

Lemma missing_text_spec v : missing_text v = false <-> nonblank v.
Proof.
  unfold missing_text, nonblank. split.
  - destruct v; simpl; rewrite ?orb_true_r; try discriminate.
    intros Hm. apply orb_false_iff in Hm as [_ Hm].
    exists s. split; [reflexivity|]. intros E. rewrite E in Hm. discriminate.
  - intros (s & -> & Hs). simpl.
    destruct (String.eqb_spec s ""); [subst; rewrite trim_empty in Hs; congruence|].
    destruct (String.eqb_spec (trim s) ""); [congruence|reflexivity].
Qed.

Lemma is_hex_digit_spec c : is_hex_digit c = true <-> c ∈ hex_chars.
Proof.
  rewrite list_elem_of_In. split.
  - destruct c as [[] [] [] [] [] [] [] []]; vm_compute; intros E; try discriminate E;
      tauto.
  - vm_compute.
    intros Hc. repeat (destruct Hc as [<-|Hc]; [reflexivity|]). destruct Hc.
Qed.

Lemma hex_color_re_spec s : hex_color_re s = true <-> is_RRGGBB s.
Proof.
  unfold hex_color_re, is_RRGGBB. split.
  - destruct s as [|c r]; [discriminate|].
    destruct (Ascii.eqb_spec c "#") as [->|Hc].
    + intros E. apply andb_true_iff in E as [E1 E2].
      exists r. split; [reflexivity|]. split; [apply Nat.eqb_eq, E1|].
      rewrite forallb_forall in E2. apply Forall_forall. intros x Hx.
      apply is_hex_digit_spec, E2. apply list_elem_of_In, Hx.
    + intros E. exfalso. destruct c as [[] [] [] [] [] [] [] []]; try discriminate E.
      apply Hc. reflexivity.
  - intros (r & -> & Hl & Hr). apply andb_true_iff. split; [apply Nat.eqb_eq, Hl|].
    apply forallb_forall. intros x Hx. apply is_hex_digit_spec.
    rewrite Forall_forall in Hr. apply Hr, list_elem_of_In, Hx.
Qed.

Lemma bad_colorHex_spec v :
  bad_colorHex v = false <-> exists s, v = VStr s /\ is_RRGGBB s.
Proof.
  unfold bad_colorHex. split.
  - destruct v; simpl; rewrite ?orb_true_r; try discriminate.
    intros E. apply orb_false_iff in E as [_ E]. apply negb_false_iff in E.
    exists s. split; [reflexivity|]. apply hex_color_re_spec, E.
  - intros (s & -> & Hs). pose proof Hs as Hs'. apply hex_color_re_spec in Hs'.
    destruct Hs as (r & -> & _). simpl in *. unfold str_length in *. rewrite Hs'. reflexivity.
Qed.

Lemma bad_weight_spec v :
  bad_weight v = false <-> exists n, v = VNum n /\ num_ltb (Fin 0) n = true.
Proof.
  unfold bad_weight. split.
  - destruct v as [| | |n| |]; simpl; rewrite ?orb_true_r; try discriminate.
    intros E. apply orb_false_iff in E as [E1 E2]. exists n. split; [reflexivity|].
    destruct n; simpl in *; try discriminate; try reflexivity.
    unfold Qltb in *. rewrite negb_involutive in E2. rewrite E2. reflexivity.
  - intros (n & -> & Hn). destruct n; simpl in *; try discriminate; try reflexivity.
    unfold Qltb in *. rewrite negb_involutive. apply negb_true_iff in Hn. rewrite Hn.
    destruct (Qeq_bool q 0) eqn:E; [|reflexivity].
    apply Qeq_bool_le in E. congruence.
Qed.

Lemma bad_diameter_spec v :
  bad_diameter v = false <->
  exists n, v = VNum n /\
    (num_eqb n (Fin (175 # 100)) = true \/ num_eqb n (Fin (285 # 100)) = true).
Proof.
  unfold bad_diameter, array_includes, allowed_diameters. simpl existsb. split.
  - intros E. apply orb_false_iff in E as [_ E]. apply negb_false_iff in E.
    destruct v as [| | |n| |]; simpl in E; try discriminate.
    exists n. split; [reflexivity|].
    rewrite orb_false_r in E. apply orb_true_iff in E.
    rewrite !(num_eqb_sym n). exact E.
  - intros (n & -> & Hn). rewrite !(num_eqb_sym n) in Hn.
    assert (Hin : strict_eq (VNum (Fin (175 # 100))) (VNum n)
                  || (strict_eq (VNum (Fin (285 # 100))) (VNum n) || false) = true).
    { simpl. rewrite orb_false_r. apply orb_true_iff. exact Hn. }
    simpl same_value_zero. simpl in Hin. simpl. rewrite Hin. rewrite orb_false_r.
    apply negb_false_iff.
    destruct n as [| | |q]; simpl in *; try (destruct Hn; discriminate).
    apply negb_true_iff.
    destruct Hn as [Hn|Hn]; rewrite Qeq_bool_sym in Hn;
      eapply Qeq_bool_trans_false; eauto.
Qed.

Lemma bad_purchasePrice_spec v :
  bad_purchasePrice v = false <->
  (truthy v = false \/ exists n, v = VNum n /\ num_leb (Fin 0) n = true).
Proof.
  unfold bad_purchasePrice. split.
  - intros E. apply andb_false_iff in E as [E|E]; [left; exact E|].
    destruct v as [| | |n| |]; try discriminate.
    destruct (truthy (VNum n)) eqn:Ht; [|left; reflexivity].
    right. exists n. split; [reflexivity|].
    rewrite num_leb_negb_ltb; [rewrite E; reflexivity|discriminate|].
    apply truthy_num_not_NaN, Ht.
  - intros [E|(n & -> & Hn)]; [rewrite E; reflexivity|].
    destruct (truthy (VNum n)) eqn:Ht; [|reflexivity]. simpl.
    rewrite num_leb_negb_ltb in Hn; [|discriminate|apply truthy_num_not_NaN, Ht].
    apply negb_true_iff, Hn.
Qed.

Lemma bad_degree_spec t : bad_degree t = false <-> degree_ok t.
Proof.
  unfold bad_degree, degree_ok. split.
  - intros E. apply andb_false_iff in E as [E|E]; [left; exact E|].
    destruct t as [| | |n| |]; try discriminate.
    destruct (truthy (VNum n)) eqn:Ht; [|left; reflexivity].
    right. exists n. split; [reflexivity|].
    apply orb_false_iff in E as [E1 E2]. apply truthy_num_not_NaN in Ht.
    rewrite !num_leb_negb_ltb by (assumption || discriminate).
    unfold num_gtb in E2. rewrite E1, E2. split; reflexivity.
  - intros [E|(n & -> & H1 & H2)]; [rewrite E; reflexivity|].
    destruct (truthy (VNum n)) eqn:Ht; [|reflexivity].
    apply truthy_num_not_NaN in Ht.
    rewrite !num_leb_negb_ltb in * by (assumption || discriminate).
    apply negb_true_iff in H1, H2. unfold num_gtb.
    rewrite andb_true_l, H1, H2. reflexivity.
Qed.

Lemma range_check_spec tmin tmax :
  degree_ok tmin -> degree_ok tmax ->
  (truthy tmin && truthy tmax && js_ge tmin tmax = false <->
   (truthy tmin = true -> truthy tmax = true -> js_lt tmin tmax = true)).
Proof.
  intros Hmin Hmax.
  destruct (truthy tmin) eqn:E1; [|split; [discriminate|reflexivity]].
  destruct (truthy tmax) eqn:E2; [|split; [discriminate|reflexivity]].
  destruct Hmin as [?|(a & -> & _)]; [congruence|].
  destruct Hmax as [?|(b & -> & _)]; [congruence|].
  apply truthy_num_not_NaN in E1, E2.
  simpl. unfold js_ge, js_le, js_lt. simpl.
  rewrite num_leb_negb_ltb by assumption.
  split.
  - intros E _ _. apply negb_false_iff, E.
  - intros E. rewrite E by reflexivity. reflexivity.
Qed.

(** The validation callback never throws. *)
Lemma filamentValid_total f : exists b, filamentValid f = Ok b.
Proof.
  unfold filamentValid.
  repeat (match goal with |- context [if ?c then _ else _] => destruct c eqn:? end;
          eauto).
  all: rewrite ?js_get_truthy by assumption; simpl; eauto.
  all: repeat (match goal with |- context [if ?c then _ else _] => destruct c eqn:? end;
               simpl; eauto).
  all: rewrite ?js_get_truthy by assumption; simpl; eauto.
  all: repeat (match goal with |- context [if ?c then _ else _] => destruct c eqn:? end;
               simpl; eauto).
Qed.

(** The callback accepts exactly the well-formed records. *)
Lemma filamentValid_spec f : filamentValid f = Ok true <-> WellFormedFilament f.
Proof.
  unfold filamentValid. split.
  - intros Hv.
    destruct (missing_text (brand f)) eqn:E1; [discriminate|].
    destruct (missing_text (materialType f)) eqn:E2; [discriminate|].
    destruct (missing_text (color f)) eqn:E3; [discriminate|].
    destruct (bad_colorHex (colorHex f)) eqn:E4; [discriminate|].
    destruct (bad_weight (weight f)) eqn:E5; [discriminate|].
    destruct (bad_diameter (diameter f)) eqn:E6; [discriminate|].
    destruct (bad_purchasePrice (purchasePrice f)) eqn:E7; [discriminate|].
    constructor;
      [ apply missing_text_spec, E1 | apply missing_text_spec, E2
      | apply missing_text_spec, E3 | apply bad_colorHex_spec, E4
      | apply bad_weight_spec, E5 | apply bad_diameter_spec, E6
      | apply bad_purchasePrice_spec, E7 | ].
    destruct (truthy (temperature f)) eqn:Et; [|left; exact Et].
    right. rewrite !js_get_truthy in Hv by assumption. simpl in Hv.
    destruct (bad_degree (field_of (temperature f) "min")) eqn:D1; [discriminate|].
    simpl in Hv.
    destruct (bad_degree (field_of (temperature f) "max")) eqn:D2; [discriminate|].
    apply bad_degree_spec in D1, D2. split; [exact D1|]. split; [exact D2|].
    apply range_check_spec; [assumption..|].
    destruct (truthy (field_of (temperature f) "min") &&
              truthy (field_of (temperature f) "max") &&
              js_ge (field_of (temperature f) "min") (field_of (temperature f) "max"));
      [discriminate|reflexivity].
  - intros [W1 W2 W3 W4 W5 W6 W7 W8].
    apply missing_text_spec in W1, W2, W3. apply bad_colorHex_spec in W4.
    apply bad_weight_spec in W5. apply bad_diameter_spec in W6.
    apply bad_purchasePrice_spec in W7.
    rewrite W1, W2, W3, W4, W5, W6, W7.
    destruct W8 as [Et|(D1 & D2 & D3)]; [rewrite Et; reflexivity|].
    destruct (truthy (temperature f)) eqn:Et; [|reflexivity].
    rewrite !js_get_truthy by assumption. simpl.
    pose proof (proj2 (range_check_spec _ _ D1 D2) D3) as D3'.
    apply bad_degree_spec in D1, D2. rewrite D1. simpl. rewrite D2, D3'. reflexivity.
Qed.

Lemma every_r_true {A} (p : A -> result bool) l :
  every_r p l = Ok true -> forall x, x ∈ l -> p x = Ok true.
Proof.
  induction l as [|y l IH]; simpl; intros Hall x Hx.
  - apply elem_of_nil in Hx. destruct Hx.
  - destruct (p y) as [[]|] eqn:Ey; simpl in Hall; try discriminate.
    apply elem_of_cons in Hx as [->|Hx]; [exact Ey|]. apply IH; assumption.
Qed.

Lemma every_r_all {A} (p : A -> result bool) l :
  (forall x, x ∈ l -> p x = Ok true) -> every_r p l = Ok true.
Proof.
  induction l as [|y l IH]; simpl; intros Hall; [reflexivity|].
  rewrite (Hall y) by apply list_elem_of_here. simpl.
  apply IH. intros x Hx. apply Hall. apply list_elem_of_further, Hx.
Qed.

(** A record that is not structurally valid is written all the same: the
    temperature range of the sample starts at 0 degrees, the check of the
    lower bound is skipped because 0 is falsy, and [saveData] returns
    [true] with the record under its key. *)
Lemma saveData_writes_invalid_temperature :
  ~ DataModelFilament Workshop.coldAcme /\
  WellFormedFilament Workshop.coldAcme /\
  (saveData (Sample.env true) (Sample.store [Workshop.coldAcme] [] [])).2 = true /\
  localStorage (saveData (Sample.env true) (Sample.store [Workshop.coldAcme] [] [])).1
    !! "filaments"
  = Some (SFilaments [Workshop.coldAcme]).
Proof.
  split; [|split; [|split]].
  - intros [_ _ _ _ _ _ _ [[E|E]|(fields & lo & hi & E & Hmin & _ & _ & _ & Hlo & _)]];
      try discriminate E.
    injection E as <-. cbn in Hmin. injection Hmin as <-. discriminate Hlo.
  - apply filamentValid_spec. reflexivity.
  - vm_compute. reflexivity.
  - vm_compute. reflexivity.
Qed.

(** C2 (as the code has it).  [saveData] validates the whole filament
    collection first: brand, material type and colour are non-blank
    strings, the colour code is [#RRGGBB], the weight is a positive
    number, the diameter is 1.75 or 2.85, a purchase price that is truthy
    is a non-negative number, and of a temperature that is truthy each
    bound that is truthy is a number within 150..350, the lower below the
    upper when both are truthy.  If any record of the collection violates
    this, [saveData] returns [false] and writes nothing: the store, with
    what is persisted, is as before. *)
Theorem saveData_refuses_invalid (env : Env) (st : Store) :
  (exists f, f ∈ filaments st /\ ~ WellFormedFilament f) ->
  saveData env st = (st, false).
Proof.
  intros (f & Hin & Hbad). unfold saveData, validateFilamentData.
  destruct (every_r filamentValid (filaments st)) as [[]|] eqn:E; try reflexivity.
  exfalso. apply Hbad, filamentValid_spec. eapply every_r_true; eassumption.
Qed.

Lemma saveData_refuses_invalid_witness :
  (exists f, f ∈ filaments (Sample.store [Sample.acme; Sample.broken] [] [])
             /\ ~ WellFormedFilament f) /\
  saveData (Sample.env true) (Sample.store [Sample.acme; Sample.broken] [] [])
  = (Sample.store [Sample.acme; Sample.broken] [] [], false).
Proof.
  assert (Hhyp : exists f, f ∈ filaments (Sample.store [Sample.acme; Sample.broken] [] [])
                           /\ ~ WellFormedFilament f).
  { exists Sample.broken. split.
    - simpl. apply list_elem_of_further, list_elem_of_here.
    - intros [_ _ _ (s & Hs & Hrgb) _ _ _ _]. simpl in Hs.
      inversion Hs; subst s. destruct Hrgb as (r & Hr & _). discriminate Hr. }
  split; [exact Hhyp|].
  apply (saveData_refuses_invalid (Sample.env true)
           (Sample.store [Sample.acme; Sample.broken] [] []) Hhyp).
Defined.

(** X1.  When every record is well formed and the storage takes the four
    writes, [saveData] returns [true] and the collections are under their
    keys. *)
Lemma saveData_writes (env : Env) (st : Store) :
  (forall f, f ∈ filaments st -> WellFormedFilament f) ->
  4 <= quota env ->
  let st' := (saveData env st).1 in
  (saveData env st).2 = true /\
  localStorage st' !! "filaments" = Some (SFilaments (filaments st)) /\
  localStorage st' !! "printstackData"
  = Some (SEnvelope (filaments st) (models st) (prints st) "2.0" (now_iso env)) /\
  filaments st' = filaments st /\ models st' = models st /\ prints st' = prints st.
Proof.
  intros Hwf Hq. unfold saveData, validateFilamentData.
  rewrite every_r_all by (intros f Hf; apply filamentValid_spec, Hwf, Hf).
  destruct (quota env) as [|[|[|[|q]]]] eqn:Eq; try lia.
  cbn -[lookup insert]. unfold setItem. cbn -[lookup insert].
  rewrite take_nil. cbn -[lookup insert].
  repeat split; try reflexivity.
  - rewrite lookup_insert_ne by discriminate. rewrite lookup_insert_ne by discriminate.
    apply lookup_insert_eq.
  - rewrite !lookup_insert_ne by discriminate. apply lookup_insert_eq.
Qed.

(** ** C1, C7: the guard of [deleteFilament] *)

Lemma find_from_Some {A} (p : A -> bool) k l i x :
  find_from p k l = Some (i, x) ->
  exists j, i = k + j /\ l !! j = Some x /\ p x = true.
Proof.
  revert k. induction l as [|y l IH]; simpl; intros k Hf; [discriminate|].
  destruct (p y) eqn:Ey.
  - inversion Hf; subst. exists 0. split; [lia|]. split; [reflexivity|exact Ey].
  - destruct (IH _ Hf) as (j & -> & Hj & Hp). exists (S j). split; [lia|]. split; assumption.
Qed.

Lemma js_find_Some {A} (p : A -> bool) l i x :
  js_find p l = Some (i, x) -> l !! i = Some x /\ p x = true.
Proof.
  intros Hf. apply find_from_Some in Hf as (j & -> & Hj & Hp). split; assumption.
Qed.


(** [saveData] touches the storage only. *)
Lemma saveData_collections env st :
  filaments (saveData env st).1 = filaments st /\
  models (saveData env st).1 = models st /\
  prints (saveData env st).1 = prints st /\
  editingModelId (saveData env st).1 = editingModelId st.
Proof.
  unfold saveData. destruct (validateFilamentData st) as [[]|]; simpl; auto.
Qed.

Lemma modelReferences_nonempty id ms :
  referenced_by_model id ms -> (0 <? length (modelReferences id ms)) = true.
Proof.
  intros (m & reqs & r & Hm & Hreqs & Hr & Hid).
  apply Nat.ltb_lt. unfold modelReferences.
  induction ms as [|m' ms IH]; [apply elem_of_nil in Hm; destruct Hm|].
  simpl. rewrite length_app.
  apply elem_of_cons in Hm as [<-|Hm]; [|specialize (IH Hm); lia].
  rewrite Hreqs.
  assert (Hlen : 0 < length (List.filter (fun r => strict_eq (r_filamentId r) id) reqs)).
  { assert (Hin : In r (List.filter (fun r => strict_eq (r_filamentId r) id) reqs)).
    { apply filter_In. split; [apply list_elem_of_In, Hr|exact Hid]. }
    destruct (List.filter _ reqs); [destruct Hin|simpl; lia]. }
  apply Nat.ltb_lt in Hlen. rewrite Hlen. simpl. lia.
Qed.

Lemma printReferences_nonempty id filament ps :
  referenced_by_print id filament ps ->
  (0 <? length (printReferences id filament ps)) = true.
Proof.
  intros (p & Hp & Href). apply Nat.ltb_lt. unfold printReferences.
  assert (Hin : In p (List.filter (printReferencing id filament) ps)).
  { apply filter_In. split; [apply list_elem_of_In, Hp|exact Href]. }
  destruct (List.filter _ ps); [destruct Hin|simpl; lia].
Qed.

Lemma retire_same_but_stock f : same_but_stock f (retire f).
Proof. unfold same_but_stock. simpl. repeat split. Qed.

Lemma same_but_stock_refl f : same_but_stock f f.
Proof. unfold same_but_stock. repeat split. Qed.

Lemma deleteFilament_blocked (env : Env) (id : JSVal) (st : Store)
    (i : nat) (filament : Filament) :
  js_find (fun f => strict_eq (f_id f) id) (filaments st) = Some (i, filament) ->
  referenced_by_model id (models st) \/ referenced_by_print id filament (prints st) ->
  confirm env = true ->
  filaments (deleteFilament env id st) = <[ i := retire filament ]> (filaments st).
Proof.
  intros Hfind Href Hc. unfold deleteFilament. rewrite Hfind.
  assert (Hblocked : (0 <? length (modelReferences id (models st)))
                     || (0 <? length (printReferences id filament (prints st))) = true).
  { apply orb_true_iff.
    destruct Href as [Hm|Hp];
      [left; apply modelReferences_nonempty, Hm
      |right; apply printReferences_nonempty, Hp]. }
  rewrite Hblocked, Hc. simpl negb. cbv iota.
  apply saveData_collections.
Qed.

(** X2.  When the guard finds a reference, in a model requirement or among the
    print records it tests, the filament is not removed.  Whatever the
    answer to the dialog, the collection keeps its length and its ids in
    order; every record is as before except, when the user accepts, the
    filament itself, which gets [inStock = false] and
    [deletionBlocked = true] and is otherwise unchanged.  Models and
    prints are untouched. *)
Lemma deleteFilament_referenced (env : Env) (id : JSVal) (st : Store)
    (i : nat) (filament : Filament) :
  js_find (fun f => strict_eq (f_id f) id) (filaments st) = Some (i, filament) ->
  referenced_by_model id (models st) \/ referenced_by_print id filament (prints st) ->
  let st' := deleteFilament env id st in
  filaments st'
  = (if confirm env then <[ i := retire filament ]> (filaments st) else filaments st)
  /\ map f_id (filaments st') = map f_id (filaments st)
  /\ Forall2 same_but_stock (filaments st) (filaments st')
  /\ inStock (retire filament) = VBool false
  /\ deletionBlocked (retire filament) = VBool true
  /\ models st' = models st /\ prints st' = prints st.
Proof.
  intros Hfind Href st'. subst st'. unfold deleteFilament. rewrite Hfind.
  assert (Hblocked : (0 <? length (modelReferences id (models st)))
                     || (0 <? length (printReferences id filament (prints st))) = true).
  { apply orb_true_iff.
    destruct Href as [Hm|Hp];
      [left; apply modelReferences_nonempty, Hm
      |right; apply printReferences_nonempty, Hp]. }
  rewrite Hblocked. simpl negb. cbv iota.
  apply js_find_Some in Hfind as [Hi _].
  destruct (confirm env).
  - destruct (saveData_collections env
                (set_filaments (<[i:=retire filament]> (filaments st)) st))
      as (-> & -> & -> & _). simpl.
    repeat split.
    + rewrite list_fmap_insert. apply list_insert_id.
      rewrite list_lookup_fmap, Hi. reflexivity.
    + apply Forall2_same_length_lookup. split; [rewrite length_insert; reflexivity|].
      intros j x y Hx Hy. destruct (decide (i = j)) as [<-|Hne].
      * rewrite list_lookup_insert_eq in Hy by (eapply lookup_lt_Some; eassumption).
        rewrite Hi in Hx. inversion Hx; inversion Hy; subst.
        apply retire_same_but_stock.
      * rewrite list_lookup_insert_ne in Hy by assumption.
        rewrite Hx in Hy. inversion Hy; subst. apply same_but_stock_refl.
  - repeat split. apply Forall2_same_length_lookup. split; [reflexivity|].
    intros j x y Hx Hy. rewrite Hx in Hy. inversion Hy; subst. apply same_but_stock_refl.
Qed.

Lemma deleteFilament_referenced_sample :
  let st := Sample.store [Sample.acme; Sample.bolt] [Sample.benchy] [] in
  filaments (deleteFilament (Sample.env true) (Sample.num 1) st)
  = [retire Sample.acme; Sample.bolt] /\
  map f_id (filaments (deleteFilament (Sample.env true) (Sample.num 1) st))
  = map f_id (filaments st).
Proof.
  intros st.
  assert (Hfind : js_find (fun f => strict_eq (f_id f) (Sample.num 1)) (filaments st)
                  = Some (0, Sample.acme)) by reflexivity.
  assert (Href : referenced_by_model (Sample.num 1) (models st)
                 \/ referenced_by_print (Sample.num 1) Sample.acme (prints st)).
  { left. exists Sample.benchy, [mkRequirement (Sample.num 1) (VStr "Blue") VUndef VUndef VUndef],
                 (mkRequirement (Sample.num 1) (VStr "Blue") VUndef VUndef VUndef).
    repeat split; [apply list_elem_of_here | apply list_elem_of_here]. }
  destruct (deleteFilament_referenced (Sample.env true) (Sample.num 1) st 0 Sample.acme
              Hfind Href) as (H1 & H2 & _).
  split; [exact H1 | exact H2].
Defined.

(** With no reference and the user's consent the filament is removed. *)
Lemma deleteFilament_unreferenced (env : Env) (id : JSVal) (st : Store)
    (i : nat) (filament : Filament) :
  js_find (fun f => strict_eq (f_id f) id) (filaments st) = Some (i, filament) ->
  modelReferences id (models st) = [] ->
  printReferences id filament (prints st) = [] ->
  confirm env = true ->
  filaments (deleteFilament env id st)
  = List.filter (fun f => negb (strict_eq (f_id f) id)) (filaments st).
Proof.
  intros Hfind Hm Hp Hc. unfold deleteFilament. rewrite Hfind, Hm, Hp, Hc. simpl.
  apply saveData_collections.
Qed.

(** C1, at the failing input.  A print of two filaments is recorded with
    [addPrint]: its usage list names the Acme spool by id, and its colour
    text is [2-color print].  The guard reads neither the usage list nor,
    here, a matching colour, so both reference sets are empty and the
    confirmed deletion removes the spool from the collection. *)
Example deleteFilament_removes_filament_of_two_color_print :
  let st0 := Sample.store [Sample.acme; Sample.bolt] [] [] in
  let st1 := (addPrint (Sample.env true) Sample.twoColorForm st0).1.1 in
  (exists p usages usage,
     prints st1 = [p] /\ p_filaments p = Some usages /\ usage ∈ usages /\
     strict_eq (pf_filamentId usage) (f_id Sample.acme) = true /\
     p_color p = VStr "2-color print") /\
  printReferences (f_id Sample.acme) Sample.acme (prints st1) = [] /\
  filaments (deleteFilament (Sample.env true) (f_id Sample.acme) st1) = [Sample.bolt].
Proof.
  split; [|split; reflexivity].
  eexists _, _, _. split; [reflexivity|]. split; [reflexivity|].
  split; [apply list_elem_of_here|]. split; reflexivity.
Qed.

(** A print record that carries the id of another filament still blocks
    the deletion when its colour is the filament's: at the sample record
    the premises of the claim hold and the record is in the reference set,
    so the filament is retired, not deleted. *)
Lemma other_id_print_blocks_deletion :
  truthy (p_filamentId Sample.bluePrint) = true /\
  strict_eq (p_filamentId Sample.bluePrint) (f_id Sample.acme) = false /\
  printReferences (f_id Sample.acme) Sample.acme [Sample.bluePrint] = [Sample.bluePrint] /\
  filaments (deleteFilament (Sample.env true) (f_id Sample.acme)
               (Sample.store [Sample.acme] [] [Sample.bluePrint]))
  = [retire Sample.acme].
Proof. repeat split. Qed.

(** C7 (as the code has it).  A print record is in the reference set of
    the guard exactly when its [filamentId] is the filament's id, or its
    colour is the filament's colour and its material is absent or is the
    filament's material type; the second test is made for every record,
    with or without a [filamentId]. *)
Theorem printReferences_spec (id : JSVal) (filament : Filament)
    (ps : list PrintRecord) (p : PrintRecord) :
  p ∈ printReferences id filament ps <->
  p ∈ ps /\
  (strict_eq (p_filamentId p) id = true \/
   (strict_eq (p_color p) (color filament) = true /\
    (truthy (p_material p) = false \/
     strict_eq (p_material p) (materialType filament) = true))).
Proof.
  unfold printReferences. rewrite !list_elem_of_In, filter_In.
  unfold printReferencing.
  rewrite orb_true_iff, andb_true_iff, orb_true_iff, negb_true_iff.
  reflexivity.
Qed.

(** ** C10: merging a duplicate filament *)

Lemma find_from_r_Some {A} (p : A -> result bool) k l i x :
  find_from_r p k l = Ok (Some (i, x)) ->
  exists j, i = k + j /\ l !! j = Some x /\ p x = Ok true /\
            forall j' y, j' < j -> l !! j' = Some y -> p y = Ok false.
Proof.
  revert k. induction l as [|y l IH]; simpl; intros k Hf; [discriminate|].
  destruct (p y) as [[]|] eqn:Ey; simpl in Hf; try discriminate.
  - inversion Hf; subst. exists 0. split; [lia|]. split; [reflexivity|].
    split; [exact Ey|]. intros j' y' Hlt. lia.
  - destruct (IH _ Hf) as (j & -> & Hj & Hp & Hbefore). exists (S j).
    split; [lia|]. split; [exact Hj|]. split; [exact Hp|].
    intros [|j'] y' Hlt Hy'; simpl in Hy'; [inversion Hy'; subst; exact Ey|].
    apply (Hbefore j'); [lia|exact Hy'].
Qed.

Lemma duplicateOf_true data f :
  duplicateOf data f = Ok true ->
  same_lowercase (brand f) (brand data) = Ok true /\
  same_lowercase (materialType f) (materialType data) = Ok true /\
  same_lowercase (colorHex f) (colorHex data) = Ok true.
Proof.
  unfold duplicateOf. intros Hd.
  destruct (same_lowercase (brand f) (brand data)) as [[]|]; simpl in Hd; try discriminate.
  destruct (same_lowercase (materialType f) (materialType data)) as [[]|];
    simpl in Hd; try discriminate.
  auto.
Qed.

Lemma collected_weight_number env d :
  exists b, weight (collectFilamentFormData env d) = VNum b.
Proof.
  unfold collectFilamentFormData. simpl. unfold js_or.
  destruct (truthy (VNum (parseFloat_str (filamentWeight d)))); eauto.
Qed.

Lemma collected_notes_string env d :
  exists n, notes (collectFilamentFormData env d) = VStr n.
Proof.
  unfold collectFilamentFormData. simpl. unfold js_or.
  destruct (truthy (VStr (trim (filamentNotes d)))); eauto.
Qed.

Lemma find_from_r_first {A} (p : A -> result bool) (l : list A) (i : nat) (x : A) :
  forall k, l !! i = Some x -> p x = Ok true ->
  (forall j y, j < i -> l !! j = Some y -> p y = Ok false) ->
  find_from_r p k l = Ok (Some (k + i, x)).
Proof.
  revert i. induction l as [|y l IH]; intros i k Hi Hp Hbefore; [discriminate|].
  destruct i as [|i]; cbn in *.
  - injection Hi as ->. rewrite Hp. cbn. rewrite Nat.add_0_r. reflexivity.
  - rewrite (Hbefore 0 y) by (first [lia|reflexivity]). cbn.
    rewrite (IH i (S k) Hi Hp).
    + cbn. rewrite <- plus_n_Sm. reflexivity.
    + intros j z Hlt Hz. apply (Hbefore (S j) z); [lia|exact Hz].
Qed.

Lemma same_lowercase_text (a : JSVal) (s : string) :
  same_lowercase a (VStr s) = Ok true <-> same_text_ci a (VStr s) = true.
Proof.
  destruct a; cbn; split; intros E; try discriminate; congruence.
Qed.

Lemma same_lowercase_text_false (t s : string) :
  same_text_ci (VStr t) (VStr s) = false -> same_lowercase (VStr t) (VStr s) = Ok false.
Proof. cbn. intros ->. reflexivity. Qed.

Section Merge.
Context `{Host}.

Lemma collected_keys_text env d :
  exists b m h,
    brand (collectFilamentFormData env d) = VStr b /\
    materialType (collectFilamentFormData env d) = VStr m /\
    colorHex (collectFilamentFormData env d) = VStr h.
Proof.
  unfold collectFilamentFormData. cbn. do 3 eexists. repeat split.
Qed.

Lemma duplicates_found env d f :
  duplicates (collectFilamentFormData env d) f ->
  duplicateOf (collectFilamentFormData env d) f = Ok true.
Proof.
  destruct (collected_keys_text env d) as (b & m & h & Hb & Hm & Hh).
  unfold duplicates, duplicateOf. rewrite Hb, Hm, Hh. intros (Eb & Em & Eh).
  apply same_lowercase_text in Eb, Em, Eh. rewrite Eb. cbn. rewrite Em. cbn. exact Eh.
Qed.

Lemma told_apart_passed env d g :
  told_apart (collectFilamentFormData env d) g ->
  duplicateOf (collectFilamentFormData env d) g = Ok false.
Proof.
  destruct (collected_keys_text env d) as (b & m & h & Hb & Hm & Hh).
  unfold told_apart, duplicateOf. rewrite Hb, Hm, Hh.
  intros (gb & -> & Hrest). cbn in *.
  destruct (String.eqb (toLowerCase gb) (toLowerCase b)); cbn; [|reflexivity].
  destruct Hrest as [E|(gm & -> & Hrest)]; [discriminate E|]. cbn in *.
  destruct (String.eqb (toLowerCase gm) (toLowerCase m)); cbn; [|reflexivity].
  destruct Hrest as [E|(gh & -> & Eh)]; [discriminate E|]. cbn in *.
  rewrite Eh. reflexivity.
Qed.

Lemma first_duplicate_found env d st i duplicate :
  filaments st !! i = Some duplicate ->
  duplicates (collectFilamentFormData env d) duplicate ->
  (forall j g, j < i -> filaments st !! j = Some g ->
               told_apart (collectFilamentFormData env d) g) ->
  checkForFilamentDuplicate (collectFilamentFormData env d) st = Ok (Some (i, duplicate)).
Proof.
  intros Hi Hdup Hbefore. unfold checkForFilamentDuplicate.
  rewrite (find_from_r_first _ _ i duplicate 0 Hi (duplicates_found _ _ _ Hdup)).
  - reflexivity.
  - intros j g Hlt Hg. apply told_apart_passed, (Hbefore j g Hlt Hg).
Qed.

Lemma passed_told_apart env d g :
  duplicateOf (collectFilamentFormData env d) g = Ok false ->
  told_apart (collectFilamentFormData env d) g.
Proof.
  destruct (collected_keys_text env d) as (b & m & h & Hb & Hm & Hh).
  unfold told_apart, duplicateOf. rewrite Hb, Hm, Hh.
  destruct (brand g) as [| |?|?|gb|?]; try discriminate. cbn.
  intros Hd. exists gb. split; [reflexivity|].
  destruct (String.eqb (toLowerCase gb) (toLowerCase b)); [|left; reflexivity].
  right. cbn in Hd.
  destruct (materialType g) as [| |?|?|gm|?]; try discriminate. cbn in *.
  exists gm. split; [reflexivity|].
  destruct (String.eqb (toLowerCase gm) (toLowerCase m)); [|left; reflexivity].
  right. cbn in Hd.
  destruct (colorHex g) as [| |?|?|gh|?]; try discriminate. cbn in *.
  exists gh. split; [reflexivity|]. injection Hd as ->. reflexivity.
Qed.

(** The search of [checkForFilamentDuplicate] returns the record at a
    position exactly when that record duplicates the new one and every
    record before it can be told apart. *)
Lemma first_duplicate_iff env d st i duplicate :
  checkForFilamentDuplicate (collectFilamentFormData env d) st = Ok (Some (i, duplicate)) <->
  filaments st !! i = Some duplicate /\
  duplicates (collectFilamentFormData env d) duplicate /\
  (forall j g, j < i -> filaments st !! j = Some g ->
               told_apart (collectFilamentFormData env d) g).
Proof.
  split.
  - unfold checkForFilamentDuplicate. intros Hf.
    apply find_from_r_Some in Hf as (j & Hj & Hi & Hd & Hbefore). cbn in Hj. subst j.
    split; [exact Hi|]. split.
    + apply duplicateOf_true in Hd as (Eb & Em & Eh).
      destruct (collected_keys_text env d) as (b & m & h & Hb & Hm & Hh).
      unfold duplicates. rewrite Hb, Hm, Hh in *.
      apply same_lowercase_text in Eb, Em, Eh. auto.
    + intros j g Hlt Hg. apply passed_told_apart, (Hbefore j g Hlt Hg).
  - intros (Hi & Hdup & Hbefore). apply first_duplicate_found; assumption.
Qed.

(** C10 (as the code has it).  When the form is accepted, a record of the
    collection duplicates the filament read off the form (brand, material
    type and colour code are texts equal up to letter case), every
    record before it can be told apart, the weight of the record is a
    number and the user accepts the merge, nothing is appended: the
    collection keeps its length and ids, that record gets the sum of the
    two weights and the two notes joined (the new notes alone when it had
    none), and is otherwise unchanged, like every other record. *)
Theorem addFilament_merges_duplicate (env : Env) (form : Form) (d : FilamentFormData)
    (st : Store) (v : FormValidation) (i : nat) (duplicate : Filament) (a : JSNum) :
  validateForm (materialTypes st) form = Ok v ->
  fv_valid v = true ->
  filaments st !! i = Some duplicate ->
  duplicates (collectFilamentFormData env d) duplicate ->
  (forall j g, j < i -> filaments st !! j = Some g ->
               told_apart (collectFilamentFormData env d) g) ->
  confirm env = true ->
  weight duplicate = VNum a ->
  let filamentData := collectFilamentFormData env d in
  let st' := (addFilament env form d st).1 in
  (addFilament env form d st).2 = Ok true /\
  length (filaments st') = length (filaments st) /\
  map f_id (filaments st') = map f_id (filaments st) /\
  exists merged b n,
    filaments st' = <[ i := merged ]> (filaments st) /\
    weight filamentData = VNum b /\
    notes filamentData = VStr n /\
    weight merged = VNum (num_add a b) /\
    notes merged
    = (if truthy (notes duplicate)
       then VStr (ToString (notes duplicate) +:+ "; " +:+ n) else VStr n) /\
    same_but_weight_notes duplicate merged.
Proof.
  intros Hv Hvalid Hi Hdup Hbefore Hc Hw filamentData st'. subst st' filamentData.
  pose proof (first_duplicate_found env d st i duplicate Hi Hdup Hbefore) as Hfound.
  unfold addFilament. rewrite Hv, Hvalid. simpl negb. cbv iota.
  rewrite Hfound.
  unfold handleDuplicateFilament. rewrite Hc.
  set (filamentData := collectFilamentFormData env d) in *.
  destruct (saveData_collections env
    (set_filaments (<[i:=mergeInto duplicate filamentData]> (filaments st)) st))
    as (Hf & _).
  cbn [fst snd]. rewrite Hf. simpl filaments.
  destruct (collected_weight_number env d) as [b Hb'].
  destruct (collected_notes_string env d) as [n Hn'].
  fold filamentData in Hb', Hn'. clearbody filamentData.
  split; [reflexivity|]. split; [apply length_insert|]. split.
  - rewrite list_fmap_insert. apply list_insert_id.
    rewrite list_lookup_fmap, Hi. reflexivity.
  - exists (mergeInto duplicate filamentData), b, n.
    split; [reflexivity|]. split; [exact Hb'|]. split; [exact Hn'|].
    split; [simpl; rewrite Hw, Hb'; reflexivity|].
    split; [simpl; rewrite Hn'; destruct (truthy (notes duplicate)); reflexivity|].
    unfold same_but_weight_notes. simpl. repeat split.
Qed.

End Merge.

(** A duplicate that is not merged as claimed.  With a record before it
    that has the brand of the new one and no material type, the search
    throws, the exception is caught, and [addFilament] returns [true]
    with the store as it was.  With a weight that is a text, the new
    weight is appended to the text. *)
Lemma duplicate_not_merged :
  duplicates (collectFilamentFormData (Sample.env true) Sample.secondSpool) Sample.acme /\
  addFilament (H := Sample.host) (Sample.env true) Sample.secondSpoolForm Sample.secondSpool
    (Sample.store [Workshop.untypedAcme; Sample.acme] [] [])
  = (Sample.store [Workshop.untypedAcme; Sample.acme] [] [], Ok true) /\
  duplicates (collectFilamentFormData (Sample.env true) Sample.secondSpool) Workshop.textWeightAcme /\
  map weight
    (filaments (addFilament (H := Sample.host) (Sample.env true) Sample.secondSpoolForm
                  Sample.secondSpool (Sample.store [Workshop.textWeightAcme] [] [])).1)
  = [VStr "1000250"].
Proof. repeat split. Qed.


(** The record without a material type is as [loadData] leaves it. *)
Example untyped_record_survives_loading :
  migrateFilament Workshop.untypedAcme = Workshop.untypedAcme.
Proof. reflexivity. Qed.

Lemma addFilament_merges_duplicate_witness :
  let st := Sample.store [Sample.bolt; Sample.acme] [] [] in
  let st' := (addFilament (H := Sample.host) (Sample.env true) Sample.secondSpoolForm
                Sample.secondSpool st).1 in
  length (filaments st') = length (filaments st) /\
  map f_id (filaments st') = map f_id (filaments st).
Proof.
  intros st st'.
  assert (Hv : validateForm (H := Sample.host) (materialTypes st) Sample.secondSpoolForm
               = Ok (mkFormValidation true ∅)) by (vm_compute; reflexivity).
  assert (Hbefore : forall j g, j < 1 -> filaments st !! j = Some g ->
            told_apart (collectFilamentFormData (Sample.env true) Sample.secondSpool) g).
  { intros [|j] g Hlt Hg; [|lia]. injection Hg as <-.
    exists "Bolt". split; [reflexivity|left; reflexivity]. }
  destruct (addFilament_merges_duplicate (H := Sample.host) (Sample.env true)
              Sample.secondSpoolForm Sample.secondSpool st _ 1 Sample.acme (num_of_Z 1000)
              Hv eq_refl eq_refl (conj eq_refl (conj eq_refl eq_refl)) Hbefore
              eq_refl eq_refl)
    as (_ & Hlen & Hids & _).
  split; [exact Hlen | exact Hids].
Defined.

(** The merge on the sample store: 1000 g and 250 g, and the two notes. *)
Example merge_sample :
  let merged := mergeInto (H := Sample.host) Sample.acme
                  (collectFilamentFormData (Sample.env true) Sample.secondSpool) in
  filaments (addFilament (H := Sample.host) (Sample.env true) Sample.secondSpoolForm
               Sample.secondSpool (Sample.store [Sample.bolt; Sample.acme] [] [])).1
  = [Sample.bolt; merged] /\
  weight merged = VNum (num_add (num_of_Z 1000) (num_of_Z 250)) /\
  notes merged = VStr "first spool; second spool".
Proof. vm_compute. repeat split. Qed.

(** ** C8: editing a model *)

(** The last requirement row cannot be removed from the container. *)
Lemma removeFilamentRequirement_keeps_last i row :
  removeFilamentRequirement i [row]
  = ([row], Some "Model must have at least one filament").
Proof. reflexivity. Qed.

(** [addModel] counts the requirements before it touches the store. *)
Lemma addModel_without_requirement env form st :
  collectRequirements addModel_entry (filaments st) (reqSearchInputs form) = [] ->
  (addModel env form st).1 = st.
Proof.
  intros Hreqs. unfold addModel. rewrite Hreqs.
  destruct (truthy (VStr (trim (modelNameInput form)))); reflexivity.
Qed.

(** [saveEditModel] counts them after it has written the model: when no
    row of the form names a known filament the alert is shown, nothing is
    saved, and the model in memory has the new name and link and an empty
    requirements list. *)
Lemma saveEditModel_without_requirement env form st i m :
  js_find (fun x => strict_eq (m_id x) (editingModelId st)) (models st) = Some (i, m) ->
  collectRequirements saveEditModel_entry (filaments st) (reqSearchInputs form) = [] ->
  saveEditModel env form st
  = (set_models
       (<[ i := mkModel (m_id m) (VStr (trim (modelNameInput form)))
                        (VStr (trim (modelLinkInput form))) (Some []) ]> (models st)) st,
     Some "At least one filament required").
Proof.
  intros Hfind Hreqs. unfold saveEditModel. rewrite Hfind, Hreqs. reflexivity.
Qed.

(** C8, at the failing input.  The Benchy model has one requirement; its
    edit form is saved after the requirement input was cleared.  The edit
    is refused with the alert and nothing is persisted, but the model in
    the store now has the new name and no requirement. *)
Example saveEditModel_rejected_edit_mutates_model :
  requirements Sample.benchy
  = Some [mkRequirement (Sample.num 1) (VStr "Blue") VUndef VUndef VUndef] /\
  saveEditModel (Sample.env true) Sample.clearedEditForm Sample.editingBenchy
  = (set_models [mkModel (Sample.num 10) (VStr "Benchy v2") (VStr "") (Some [])]
       Sample.editingBenchy,
     Some "At least one filament required").
Proof. split; reflexivity. Qed.

(** The refused edit is in memory only until the next save of any
    handler, which writes the model without requirements to the storage. *)
Example rejected_edit_reaches_storage :
  let st' := (saveEditModel (Sample.env true) Sample.clearedEditForm
                Sample.editingBenchy).1 in
  localStorage st' !! "models" = None /\
  localStorage (saveData (Sample.env true) st').1 !! "models"
  = Some (SModels [mkModel (Sample.num 10) (VStr "Benchy v2") (VStr "") (Some [])]).
Proof. split; vm_compute; reflexivity. Qed.

(** ** C9: recording a print *)


Section RecordingFacts.
Context `{Host}.







End RecordingFacts.

(** ** C3: the usage entries of a selected model *)

Lemma strict_eq_truthy a b : strict_eq a b = true -> truthy a = truthy b.
Proof.
  destruct a as [| |x|x|x|], b as [| |y|y|y|]; simpl; try discriminate; try reflexivity.
  - destruct x, y; simpl; congruence.
  - destruct x as [| | |p], y as [| | |q]; simpl; try discriminate; try reflexivity.
    intros E. f_equal.
    destruct (Qeq_bool p 0) eqn:Ep, (Qeq_bool q 0) eqn:Eq; try reflexivity.
    + apply Qeq_bool_iff in E, Ep. rewrite E in Ep. apply Qeq_bool_iff in Ep. congruence.
    + apply Qeq_bool_iff in E, Eq. rewrite <- E in Eq. apply Qeq_bool_iff in Eq. congruence.
  - intros E. apply String.eqb_eq in E. subst. reflexivity.
Qed.

Section Populate.
Context `{Host}.

Lemma assign_select_found fs f :
  f ∈ fs -> truthy (f_id f) = true ->
  assign_select (select_options fs) (f_id f) = ToString (f_id f).
Proof.
  intros Hin Ht. unfold assign_select, select_options.
  assert (Hex : existsb (String.eqb (ToString (f_id f)))
                  ("" :: map (fun fil => ToString (f_id fil))
                             (List.filter (fun fil => truthy (f_id fil)) fs)) = true).
  { apply existsb_exists. exists (ToString (f_id f)). split; [|apply String.eqb_refl].
    right. apply in_map_iff. exists f. split; [reflexivity|].
    apply filter_In. split; [apply list_elem_of_In, Hin|exact Ht]. }
  rewrite Hex. reflexivity.
Qed.

(** The item the script appends for a requirement: its select shows the
    filament with the stored id when there is one, and nothing otherwise. *)
Lemma populateItem_spec fs req :
  select_value (populateItem fs req)
  = from_option (fun f => ToString (f_id f)) "" (resolve_by_id fs req) /\
  (truthy (r_weight req) = false -> weight_value (populateItem fs req) = "").
Proof.
  unfold populateItem, resolve_by_id. simpl. split.
  - destruct (truthy (r_filamentId req)) eqn:Ht; [|reflexivity].
    destruct (js_find _ fs) as [[i f]|] eqn:Ef; [|reflexivity]. simpl.
    apply js_find_Some in Ef as [Hi Hid].
    apply assign_select_found.
    + eapply list_elem_of_lookup_2, Hi.
    + rewrite (strict_eq_truthy _ _ Hid). exact Ht.
  - intros Hw. unfold js_or. rewrite Hw. reflexivity.
Qed.

(** C3 (as the code has it).  Selecting a model with N requirements gives
    exactly N entries, in the order of the requirements, and they replace
    whatever was there (the script needs N > 0: for an empty list it
    shows one blank row).  An entry is resolved by the stored filament id
    only; when no filament has that id the entry is still there, with
    nothing selected, and no other filament is looked for.  The React
    form leaves the weight blank; the script fills it only from a weight
    stored with the requirement. *)
Theorem model_selection_entries
    (st : Store) (modelName : string) (form : PrintFormDOM) (j : nat) (model : Model)
    (reqs : list Requirement)
    (fresh : nat -> string) (ms : list Model) (fs : list Filament) (value : string)
    (s : PrintForm.State) (k : nat) (model' : Model) (reqs' : list Requirement) :
  js_find (fun m => strict_eq (m_name m) (VStr modelName)) (models st) = Some (j, model) ->
  requirements model = Some reqs ->
  reqs <> [] ->
  js_find (fun m => strict_eq (m_id m) (VStr value)) ms = Some (k, model') ->
  requirements model' = Some reqs' ->
  let items :=
    printFilamentsContainer (populatePrintFilamentsFromModel modelName st form) in
  let s' := PrintForm.handleInputChange fresh ms "modelId" value s in
  length items = length reqs /\
  (forall n req, reqs !! n = Some req ->
     exists item, items !! n = Some item /\
       select_value item
       = from_option (fun f => ToString (f_id f)) "" (resolve_by_id (filaments st) req) /\
       (truthy (r_weight req) = false -> weight_value item = "")) /\
  length (PrintForm.filamentUsages s') = length reqs' /\
  (forall n req, reqs' !! n = Some req ->
     PrintForm.filamentUsages s' !! n
     = Some (PrintForm.mkUsage (fresh n) (r_filamentId req) (r_materialType req) (VStr ""))) /\
  (forall n req, reqs' !! n = Some req ->
     PrintForm.availableFilaments fs s' !! n
     = Some (PrintForm.mkAvailable req
               (snd <$> js_find (fun f => strict_eq (f_id f) (r_filamentId req)) fs)
               (js_or (from_option inStock VUndef
                         (snd <$> js_find (fun f => strict_eq (f_id f) (r_filamentId req)) fs))
                      (VBool false)))).
Proof.
  intros Hfind Hreqs Hne Hfind' Hreqs' items s'.
  assert (Hitems : items = map (populateItem (filaments st)) reqs).
  { subst items. unfold populatePrintFilamentsFromModel. rewrite Hfind, Hreqs.
    destruct reqs; [congruence|reflexivity]. }
  assert (Hs' : PrintForm.filamentUsages s'
                = imap (fun n req => PrintForm.mkUsage (fresh n) (r_filamentId req)
                                       (r_materialType req) (VStr "")) reqs'
                /\ PrintForm.selectedModel s' = Some model').
  { subst s'. unfold PrintForm.handleInputChange. simpl String.eqb. cbv iota.
    rewrite Hfind'. destruct model' as [mid mname mlink mreqs]. simpl in Hreqs'.
    subst mreqs. destruct (0 <? length (PrintForm.errors s)); split; reflexivity. }
  destruct Hs' as [Hus Hsel].
  split; [rewrite Hitems; apply length_map|].
  split.
  { intros n req Hn. exists (populateItem (filaments st) req).
    split; [rewrite Hitems, list_lookup_fmap, Hn; reflexivity|].
    apply populateItem_spec. }
  split; [rewrite Hus; apply length_imap|].
  split.
  { intros n req Hn. rewrite Hus, list_lookup_imap, Hn. reflexivity. }
  intros n req Hn. unfold PrintForm.availableFilaments. rewrite Hsel.
  destruct model' as [mid mname mlink mreqs]. simpl in Hreqs'. subst mreqs.
  rewrite list_lookup_fmap, Hn. reflexivity.
Qed.

(** For a model without requirements the script shows one blank row. *)
Lemma populate_without_requirements st modelName form j model :
  js_find (fun m => strict_eq (m_name m) (VStr modelName)) (models st) = Some (j, model) ->
  requirements model = Some [] ->
  printFilamentsContainer (populatePrintFilamentsFromModel modelName st form)
  = [emptyPrintFilamentItem].
Proof.
  intros Hfind Hreqs. unfold populatePrintFilamentsFromModel.
  rewrite Hfind, Hreqs. reflexivity.
Qed.

End Populate.

Lemma model_selection_entries_witness :
  printFilamentsContainer
    (populatePrintFilamentsFromModel (H := Sample.host) "Benchy"
       (Sample.store [Sample.acme] [Sample.benchy] []) Sample.emptyPrintForm)
  !! 0 = Some (mkPrintFilamentItem "1" "") /\
  length (PrintForm.filamentUsages
            (PrintForm.handleInputChange Sample.fresh [Sample.dragon] "modelId" "m1"
               Sample.emptyFormState)) = 1.
Proof.
  destruct (model_selection_entries (H := Sample.host)
              (Sample.store [Sample.acme] [Sample.benchy] []) "Benchy"
              Sample.emptyPrintForm 0 Sample.benchy
              [mkRequirement (Sample.num 1) (VStr "Blue") VUndef VUndef VUndef]
              Sample.fresh [Sample.dragon] [Sample.acme] "m1" Sample.emptyFormState
              0 Sample.dragon [Sample.staleRequirement]
              eq_refl eq_refl ltac:(discriminate) eq_refl eq_refl)
    as (_ & Hitems & Hlen & _).
  split; [|exact Hlen].
  destruct (Hitems 0 _ eq_refl) as (item & -> & Hsel & Hw).
  destruct item as [sel w]. simpl in Hsel, Hw. rewrite Hsel, (Hw eq_refl). reflexivity.
Defined.

(** The stale requirement of the sample model names no live filament, and
    a spool of its material and colour is in stock: the resolution of the
    specification finds that spool, the script selects nothing, and the
    React form shows the requirement as not available. *)
Lemma selection_has_no_fallback :
  spec_resolve [Sample.acme] Sample.staleRequirement = Some Sample.acme /\
  printFilamentsContainer
    (populatePrintFilamentsFromModel (H := Sample.host) "Dragon"
       (Sample.store [Sample.acme] [Sample.dragon] []) Sample.emptyPrintForm)
  = [mkPrintFilamentItem "" ""] /\
  PrintForm.availableFilaments [Sample.acme]
    (PrintForm.handleInputChange Sample.fresh [Sample.dragon] "modelId" "m1"
       Sample.emptyFormState)
  = [PrintForm.mkAvailable Sample.staleRequirement None (VBool false)].
Proof. repeat split. Qed.

(** ** C4: sorting a grid *)

Section Sorting.
Context `{Host} {Row : Type} `{GridRow Row}.

(** [column.key] of a string is [undefined], and [getNestedValue] cannot
    split it: both comparison functions throw on every pair of rows. *)
Lemma numberCompare_throws column asc (a b : Row) :
  EnhancedDataGrid.numberCompare column asc a b = Throw split_of_undefined.
Proof. reflexivity. Qed.

Lemma textCompare_throws column asc (a b : Row) :
  EnhancedDataGrid.textCompare column asc a b = Throw split_of_undefined.
Proof. reflexivity. Qed.

Lemma sort_r_throws {A} (compare : A -> A -> result JSNum) e (l : list A) :
  (forall a b, compare a b = Throw e) ->
  2 <= length l ->
  sort_r compare l = Throw e.
Proof.
  intros Hc. induction l as [|x l IH]; intros Hl; [simpl in Hl; lia|].
  cbn [sort_r]. destruct l as [|y r]; [simpl in Hl; lia|].
  destruct r as [|z r].
  - cbn. rewrite Hc. reflexivity.
  - rewrite IH by (simpl; lia). reflexivity.
Qed.

(** C4, on the code.  Clicking a header of a grid with two or more visible
    rows does not sort them: the comparison throws, the handler is left
    with a TypeError, and the rows are in the order they had; only the
    recorded sort column and direction have changed. *)
Theorem sort_throws (column : string) (g : Grid Row) (columnConfig : Column) :
  List.find (fun col => String.eqb (key col) column) (columns g) = Some columnConfig ->
  2 <= length (visibleData g) ->
  (EnhancedDataGrid.sort column g).2 = Throw split_of_undefined /\
  visibleData (EnhancedDataGrid.sort column g).1 = visibleData g /\
  currentPage (EnhancedDataGrid.sort column g).1 = currentPage g /\
  sort_column (currentSort (EnhancedDataGrid.sort column g).1) = VStr column /\
  ascending (currentSort (EnhancedDataGrid.sort column g).1)
  = (if strict_eq (sort_column (currentSort g)) (VStr column)
     then negb (ascending (currentSort g)) else true).
Proof.
  intros Hcol Hlen. unfold EnhancedDataGrid.sort. rewrite Hcol.
  cbn [visibleData].
  rewrite (sort_r_throws _ split_of_undefined); [repeat split| |exact Hlen].
  intros a b. destruct (String.eqb (sortType columnConfig) "number");
    [apply numberCompare_throws|apply textCompare_throws].
Qed.

End Sorting.

Lemma sort_throws_witness :
  (EnhancedDataGrid.sort (H := Sample.host) "brand"
     (Sample.grid [Sample.bolt; Sample.acme])).2 = Throw split_of_undefined /\
  visibleData (EnhancedDataGrid.sort (H := Sample.host) "brand"
                 (Sample.grid [Sample.bolt; Sample.acme])).1
  = [Sample.bolt; Sample.acme].
Proof.
  destruct (sort_throws (H := Sample.host) "brand" (Sample.grid [Sample.bolt; Sample.acme])
              (mkColumn "brand" "Brand" "text") eq_refl ltac:(simpl; lia))
    as (Hthrow & Hrows & _).
  split; [exact Hthrow | exact Hrows].
Defined.

(** ** C5: filtering the filament table *)

Section Filtering.
Context `{Host}.




(** The rows shown for a search text of two characters or more are those
    whose searched text, as the table builds it, contains the lowercased
    search text. *)
Lemma onSearchInput_rows (value : string) (g : Grid Filament) (f : Filament) :
  2 <= String.length value ->
  (f ∈ visibleData (FilamentTable.onSearchInput value g) <->
   f ∈ originalData g /\
   occurs_in (toLowerCase value) (FilamentTable.searchableText f)).
Proof.
  intros Hge. unfold FilamentTable.onSearchInput, FilamentTable.filterRows.
  cbn [visibleData]. rewrite toLowerCase_length. unfold str_length.
  assert (Hnlt : (String.length value <? 2) = false) by (apply Nat.ltb_ge, Hge).
  rewrite Hnlt, !list_elem_of_In, filter_In, includes_spec. reflexivity.
Qed.

End Filtering.



(** A property that is absent from a record is searched as the text
    [undefined]: the Acme spool has no legacy material and no colour
    name, and is found by that word. *)
Example search_matches_absent_property :
  FilamentTable.searchableText (H := Sample.host) Sample.acme
  = "acme pla undefined undefined blue shelf" /\
  visibleData (FilamentTable.onSearchInput (H := Sample.host) "undefined"
                 (Sample.grid [Sample.acme]))
  = [Sample.acme].
Proof. split; reflexivity. Qed.

(** ** C6: the stages of [validateField] *)

Section Stages.
Context `{Host}.

(** Every rule of the table is required or optional. *)
Lemma ValidationRules_presence types fieldName rule :
  ValidationRules types fieldName = Some rule ->
  required rule || optional rule = true.
Proof.
  unfold ValidationRules. intros Hr.
  repeat (match type of Hr with
          | (if ?c then _ else _) = _ => destruct c
          end; [inversion Hr; reflexivity|]).
  discriminate.
Qed.

(** On every value that is not an object, [validateField] is the staged
    pipeline: the stages run in the order presence, type, range, length,
    pattern, allowed values, custom predicate, and the result is that of
    the first stage that fails. *)
Lemma validateField_staged types fieldName value :
  (forall fs, value <> VObj fs) ->
  validateField types fieldName value = Ok (spec_validate types fieldName value).
Proof.
  intros Hobj. unfold validateField, spec_validate.
  destruct (ValidationRules types fieldName) as [rule|] eqn:Hrule; [|reflexivity].
  apply ValidationRules_presence in Hrule.
  destruct (optional rule && is_empty_value value) eqn:E1; [reflexivity|].
  destruct (required rule && is_empty_value value) eqn:E2; [reflexivity|].
  assert (Hne : is_empty_value value = false).
  { destruct (is_empty_value value); [|reflexivity].
    rewrite andb_true_r in E1, E2. rewrite E1, E2 in Hrule. discriminate. }
  unfold validateFieldType.
  destruct (type_is_number rule && negb (strict_eq value (VStr ""))) eqn:Ec.
  - destruct (isNaN (parseFloat value)) eqn:En; [reflexivity|].
    cbn [andb is_object typeof mbind result_bind first_failure].
    unfold custom_stage.
    repeat (match goal with |- context [if failed ?r then _ else _] => destruct (failed r) end;
            [reflexivity|]).
    destruct (validate rule) as [check|]; [|reflexivity].
    destruct (negb (check (VNum (parseFloat value)))); reflexivity.
  - cbn [andb].
    assert (Hno : is_object value = false).
    { destruct value; try reflexivity; [discriminate Hne|].
      exfalso. eapply Hobj. reflexivity. }
    rewrite Hno. cbn [mbind result_bind first_failure].
    unfold custom_stage.
    repeat (match goal with |- context [if failed ?r then _ else _] => destruct (failed r) end;
            [reflexivity|]).
    destruct (validate rule) as [check|]; [|reflexivity].
    destruct (negb (check value)); reflexivity.
Qed.

(** An object given to the temperature rule is handed back as the result
    at the type stage, whatever it holds. *)
Lemma validateField_temperature_object types fs :
  truthy (assoc fs "valid") = false ->
  validateField types "temperature" (VObj fs) = Ok (VObj fs).
Proof.
  intros Hv. unfold validateField. cbn. rewrite Hv. reflexivity.
Qed.

End Stages.

(** C6, at the failing input.  The temperature rule has no type stage and
    a custom predicate.  For the range 200..250 every stage passes and the
    staged pipeline returns success; for 100..50 the predicate fails and
    the pipeline returns the message of the rule.  [validateField] returns
    the object it was given in both cases: a result without [valid], which
    its callers read as a failure, and without a message. *)
Example validateField_object_stops_at_type_stage :
  spec_validate (H := Sample.host) Sample.types "temperature" Sample.goodRange
  = valid_result /\
  validateField (H := Sample.host) Sample.types "temperature" Sample.goodRange
  = Ok Sample.goodRange /\
  spec_validate (H := Sample.host) Sample.types "temperature" Sample.badRange
  = invalid_result (VStr "Temperature range must be 150-350°C with max > min") /\
  validateField (H := Sample.host) Sample.types "temperature" Sample.badRange
  = Ok Sample.badRange /\
  failed Sample.goodRange = true /\
  js_get Sample.badRange "message" = Ok VUndef.
Proof. vm_compute. repeat split. Qed.

(** The stages on the diameter select, as in the validation test of the
    repository: the texts 1.75 and 2.85 pass, another diameter fails at
    the allowed-values stage and a non-number at the type stage. *)
Example validateField_diameter :
  validateField (H := Sample.host) Sample.types "diameter" (VStr "1.75") = Ok valid_result /\
  validateField (H := Sample.host) Sample.types "diameter" (VStr "2.85") = Ok valid_result /\
  validateField (H := Sample.host) Sample.types "diameter" (VStr "3")
  = Ok (invalid_result (VStr "Diameter must be 1.75mm or 2.85mm")) /\
  validateField (H := Sample.host) Sample.types "diameter" (VStr "wide")
  = Ok (invalid_result (VStr "diameter must be a number")).
Proof. vm_compute. repeat split. Qed.

(** * Further properties of the script *)

(** ** Deleting and saving *)

Lemma deleteFilament_unreferenced_sample :
  filaments (deleteFilament (Sample.env true) (Sample.num 1)
               (Sample.store [Sample.acme; Sample.bolt] [] []))
  = [Sample.bolt].
Proof.
  exact (deleteFilament_unreferenced (Sample.env true) (Sample.num 1)
           (Sample.store [Sample.acme; Sample.bolt] [] []) 0 Sample.acme
           eq_refl eq_refl eq_refl eq_refl).
Defined.

Lemma saveData_writes_sample :
  (saveData (Sample.env true) (Sample.store [Sample.acme] [] [])).2 = true.
Proof.
  assert (Hwf : forall f, f ∈ filaments (Sample.store [Sample.acme] [] []) ->
                          WellFormedFilament f).
  { intros f Hf. apply filamentValid_spec. simpl in Hf.
    apply list_elem_of_singleton in Hf. subst f. reflexivity. }
  exact (proj1 (saveData_writes (Sample.env true) (Sample.store [Sample.acme] [] [])
                  Hwf ltac:(simpl; lia))).
Defined.

Lemma validateField_staged_sample :
  validateField (H := Sample.host) Sample.types "diameter" (VStr "1.75")
  = Ok (spec_validate (H := Sample.host) Sample.types "diameter" (VStr "1.75")).
Proof.
  exact (validateField_staged (H := Sample.host) Sample.types "diameter" (VStr "1.75")
           ltac:(discriminate)).
Defined.

(** ** Printable models *)

Lemma strict_eq_trans a b c :
  strict_eq a b = true -> strict_eq b c = true -> strict_eq a c = true.
Proof.
  destruct a as [| |x|x|x|], b as [| |y|y|y|], c as [| |z|z|z|];
    simpl; try discriminate; try reflexivity.
  - destruct x, y, z; simpl; congruence.
  - destruct x as [| | |p], y as [| | |q], z as [| | |r];
      simpl; try discriminate; try reflexivity.
    intros E1 E2. apply Qeq_bool_iff in E1, E2. apply Qeq_bool_iff.
    rewrite E1. exact E2.
  - intros E1 E2. apply String.eqb_eq in E1, E2. subst. apply String.eqb_refl.
Qed.

Lemma strict_eq_sym a b : strict_eq a b = strict_eq b a.
Proof.
  destruct a as [| |x|x|x|], b as [| |y|y|y|]; simpl; try reflexivity.
  - destruct x, y; reflexivity.
  - apply num_eqb_sym.
  - apply String.eqb_sym.
Qed.

Section PrintableFacts.
Context `{Host}.

Lemma requirementMet_spec fs r :
  requirementMet fs r = true <->
  exists f, f ∈ fs /\ strict_eq (f_id f) (r_filamentId r) = true /\
            truthy (inStock f) = true.
Proof.
  unfold requirementMet. rewrite existsb_exists. split.
  - intros (f & Hin & Hf). apply andb_true_iff in Hf as [H1 H2].
    exists f. split; [apply list_elem_of_In, Hin|]. split; assumption.
  - intros (f & Hin & H1 & H2). exists f. split; [apply list_elem_of_In, Hin|].
    rewrite H1, H2. reflexivity.
Qed.

Lemma canPrintModel_true (m : Model) (st : Store) (reqs : list Requirement) (r : Requirement) :
  canPrint (canPrintModel m st) = true ->
  requirements m = Some reqs -> r ∈ reqs ->
  requirementMet (filaments st) r = true.
Proof.
  unfold canPrintModel. intros Hcan Hreqs Hr. rewrite Hreqs in Hcan.
  destruct reqs as [|r0 reqs]; [discriminate|].
  cbn [canPrint] in Hcan. rewrite length_map in Hcan. apply Nat.eqb_eq in Hcan.
  destruct (requirementMet (filaments st) r) eqn:E; [reflexivity|].
  assert (Hin : In r (List.filter (fun r => negb (requirementMet (filaments st) r))
                        (r0 :: reqs))).
  { apply filter_In. split; [apply list_elem_of_In, Hr|]. rewrite E. reflexivity. }
  destruct (List.filter _ (r0 :: reqs)); [destruct Hin|discriminate Hcan].
Qed.

(** X3.  A model can be printed exactly when it has a requirement and every
    requirement names, by id, a filament that is in stock. *)
Theorem canPrintModel_spec (m : Model) (st : Store) :
  canPrint (canPrintModel m st) = true <->
  exists reqs,
    requirements m = Some reqs /\ reqs <> [] /\
    forall r, r ∈ reqs ->
      exists f, f ∈ filaments st /\ strict_eq (f_id f) (r_filamentId r) = true /\
                truthy (inStock f) = true.
Proof.
  unfold canPrintModel.
  destruct (requirements m) as [[|r0 reqs]|] eqn:Hreqs.
  - split; [discriminate|]. intros (reqs & E & Hne & _). inversion E; subst. congruence.
  - set (all := r0 :: reqs). cbn [canPrint]. rewrite length_map, Nat.eqb_eq. split.
    + intros Hlen. exists all. split; [reflexivity|]. split; [discriminate|].
      intros r Hr. apply requirementMet_spec.
      destruct (requirementMet (filaments st) r) eqn:E; [reflexivity|].
      assert (Hin : In r (List.filter (fun r => negb (requirementMet (filaments st) r)) all)).
      { apply filter_In. split; [apply list_elem_of_In, Hr|]. rewrite E. reflexivity. }
      destruct (List.filter _ all); [destruct Hin|discriminate Hlen].
    + intros (reqs' & E & _ & Hall). inversion E; subst reqs'.
      destruct (List.filter (fun r => negb (requirementMet (filaments st) r)) all)
        as [|r l] eqn:Ef; [reflexivity|].
      assert (Hin : In r (List.filter (fun r => negb (requirementMet (filaments st) r)) all))
        by (rewrite Ef; left; reflexivity).
      apply filter_In in Hin as [Hin Hr].
      apply list_elem_of_In, Hall, requirementMet_spec in Hin.
      rewrite Hin in Hr. discriminate.
  - split; [discriminate|]. intros (reqs & E & _). discriminate.
Qed.

(** X4.  Retiring a filament through the guard makes every model that requires
    it unprintable, when no other filament has its id. *)
Theorem retired_filament_unprintable (env : Env) (id : JSVal) (st : Store)
    (i : nat) (filament : Filament) (m : Model) (reqs : list Requirement)
    (r : Requirement) :
  js_find (fun f => strict_eq (f_id f) id) (filaments st) = Some (i, filament) ->
  (forall j f, filaments st !! j = Some f -> strict_eq (f_id f) id = true -> j = i) ->
  m ∈ models st ->
  requirements m = Some reqs ->
  r ∈ reqs ->
  strict_eq (r_filamentId r) id = true ->
  confirm env = true ->
  canPrint (canPrintModel m (deleteFilament env id st)) = false.
Proof.
  intros Hfind Huniq Hm Hreqs Hr Hid Hc.
  assert (Href : referenced_by_model id (models st) \/
                 referenced_by_print id filament (prints st)).
  { left. exists m, reqs, r. auto. }
  pose proof (deleteFilament_blocked env id st i filament Hfind Href Hc) as Hf.
  destruct (canPrint (canPrintModel m (deleteFilament env id st))) eqn:E; [|reflexivity].
  exfalso. apply (canPrintModel_true _ _ reqs r) in E; [|exact Hreqs|exact Hr].
  apply requirementMet_spec in E as (f & Hin & Hfid & Hstock).
  rewrite Hf in Hin. apply list_elem_of_lookup in Hin as [j Hj].
  apply js_find_Some in Hfind as [Hi _].
  destruct (decide (i = j)) as [<-|Hne].
  - rewrite list_lookup_insert_eq in Hj by (eapply lookup_lt_Some; eassumption).
    inversion Hj; subst f. discriminate Hstock.
  - rewrite list_lookup_insert_ne in Hj by assumption.
    apply Hne. symmetry. apply (Huniq j f Hj).
    eapply strict_eq_trans; eassumption.
Qed.

End PrintableFacts.

Lemma retired_filament_unprintable_witness :
  canPrint (canPrintModel (H := Sample.host) Sample.benchy
              (deleteFilament (Sample.env true) (Sample.num 1)
                 (Sample.store [Sample.acme; Sample.bolt] [Sample.benchy] [])))
  = false.
Proof.
  apply (retired_filament_unprintable (H := Sample.host) (Sample.env true) (Sample.num 1)
           (Sample.store [Sample.acme; Sample.bolt] [Sample.benchy] []) 0 Sample.acme
           Sample.benchy [mkRequirement (Sample.num 1) (VStr "Blue") VUndef VUndef VUndef]
           (mkRequirement (Sample.num 1) (VStr "Blue") VUndef VUndef VUndef)).
  - reflexivity.
  - intros [|[|j]] f Hj Hf; [reflexivity| |].
    + simpl in Hj. inversion Hj; subst f. discriminate Hf.
    + simpl in Hj. discriminate Hj.
  - apply list_elem_of_here.
  - reflexivity.
  - apply list_elem_of_here.
  - reflexivity.
  - reflexivity.
Defined.

(** ** Creating and editing models *)

(** The requirements read off a form name filaments of the collection,
    and there is at most one per row. *)
Lemma collectRequirements_spec entry (fs : list Filament) (inputs : list string) :
  length (collectRequirements entry fs inputs) <= length inputs /\
  forall r, r ∈ collectRequirements entry fs inputs ->
    exists id f, r = entry id f /\ f ∈ fs /\ strict_eq (f_id f) (VNum id) = true /\
                 num_gtb id (Fin 0) = true.
Proof.
  unfold collectRequirements. split.
  - induction inputs as [|x inputs IH]; cbn [flat_map length]; [lia|].
    rewrite length_app.
    match goal with |- length ?h + _ <= _ => assert (Hh : length h <= 1) end.
    { destruct (negb _ && _); [destruct (js_find _ fs) as [[? ?]|]|]; simpl; lia. }
    lia.
  - induction inputs as [|x inputs IH]; cbn [flat_map]; intros r Hr.
    + apply elem_of_nil in Hr. destruct Hr.
    + apply elem_of_app in Hr as [Hr|Hr]; [|apply IH, Hr].
      set (id := parseInt_str (Some 10%N) x) in *.
      destruct (negb (isNaN id) && num_gtb id (Fin 0)) eqn:Eid;
        [|apply elem_of_nil in Hr; destruct Hr].
      apply andb_true_iff in Eid as [_ Hpos].
      destruct (js_find (fun x0 => strict_eq (f_id x0) (VNum id)) fs) as [[k f]|] eqn:Ef;
        [|apply elem_of_nil in Hr; destruct Hr].
      apply js_find_Some in Ef as [Hk Hf].
      apply list_elem_of_singleton in Hr. subst r.
      exists id, f. split; [reflexivity|]. split; [eapply list_elem_of_lookup_2, Hk|].
      split; assumption.
Qed.

(** X5.  When [addModel] shows no alert it has appended one model, with a
    non-blank name and at least one requirement, and each requirement
    carries the id of a filament of the collection; the models that were
    there and the filaments are as before. *)
Theorem addModel_appends (env : Env) (form : ModelForm) (st st' : Store) :
  addModel env form st = (st', None) ->
  exists name reqs,
    models st' = models st ++ [mkModel (VNum (now_ms env)) (VStr name)
                                 (VStr (trim (modelLinkInput form))) (Some reqs)] /\
    name = trim (modelNameInput form) /\ name <> "" /\
    reqs <> [] /\
    (forall r, r ∈ reqs ->
       exists f, f ∈ filaments st /\ strict_eq (f_id f) (r_filamentId r) = true) /\
    filaments st' = filaments st /\ prints st' = prints st.
Proof.
  unfold addModel. intros Hadd.
  destruct (truthy (VStr (trim (modelNameInput form)))) eqn:Hname; simpl in Hadd;
    [|discriminate].
  set (reqs := collectRequirements addModel_entry (filaments st) (reqSearchInputs form)) in *.
  destruct (length reqs =? 0) eqn:Hlen; [discriminate|].
  inversion Hadd as [Hst]. clear Hadd.
  exists (trim (modelNameInput form)), reqs.
  destruct (saveData_collections env
    (set_models (models st ++ [mkModel (VNum (now_ms env)) (VStr (trim (modelNameInput form)))
                                 (VStr (trim (modelLinkInput form))) (Some reqs)]) st))
    as (Hf & Hm & Hp & _).
  split; [exact Hm|]. split; [reflexivity|].
  split.
  { intros E. simpl in Hname. rewrite E in Hname. discriminate. }
  split.
  { intros E. rewrite E in Hlen. discriminate. }
  split; [|split; [exact Hf|exact Hp]].
  intros r Hr. destruct (proj2 (collectRequirements_spec addModel_entry _ _) r Hr)
    as (id & f & -> & Hin & Hid & _).
  exists f. split; [exact Hin|exact Hid].
Qed.

Lemma addModel_appends_witness :
  exists name reqs,
    models (addModel (Sample.env true) (mkModelForm "Vase" "" ["1"])
              (Sample.store [Sample.acme] [Sample.benchy] [])).1
    = [Sample.benchy;
       mkModel (VNum (now_ms (Sample.env true))) (VStr name) (VStr "") (Some reqs)] /\
    reqs <> [].
Proof.
  destruct (addModel_appends (Sample.env true) (mkModelForm "Vase" "" ["1"])
              (Sample.store [Sample.acme] [Sample.benchy] []) _ eq_refl)
    as (name & reqs & Hm & _ & _ & Hne & _).
  exists name, reqs. split; [exact Hm|exact Hne].
Defined.

(** X6.  When [saveEditModel] shows no alert and the edited model exists, that
    model, and no other, has the name, link and requirements of the form:
    at least one requirement, each with the id of a filament of the
    collection.  The edit is closed when [updateAllTables()] returns; when
    it throws, [closeEditModelModal()] is not reached and the model is
    still the one being edited. *)
Theorem saveEditModel_updates (env : Env) (form : ModelForm) (st st' : Store)
    (i : nat) (m : Model) :
  js_find (fun x => strict_eq (m_id x) (editingModelId st)) (models st) = Some (i, m) ->
  saveEditModel env form st = (st', None) ->
  exists reqs,
    models st' = <[ i := mkModel (m_id m) (VStr (trim (modelNameInput form)))
                           (VStr (trim (modelLinkInput form))) (Some reqs) ]> (models st) /\
    reqs <> [] /\
    (forall r, r ∈ reqs ->
       exists f, f ∈ filaments st /\ strict_eq (f_id f) (r_filamentId r) = true) /\
    map m_id (models st') = map m_id (models st) /\
    editingModelId st' =
      match tables env with TablesUpdated => VNull | _ => editingModelId st end /\
    filaments st' = filaments st /\ prints st' = prints st.
Proof.
  intros Hfind. unfold saveEditModel. rewrite Hfind.
  set (reqs := collectRequirements saveEditModel_entry (filaments st) (reqSearchInputs form)).
  destruct (length reqs =? 0) eqn:Hlen; [discriminate|].
  set (m' := mkModel (m_id m) (VStr (trim (modelNameInput form)))
               (VStr (trim (modelLinkInput form))) (Some reqs)).
  destruct (saveData_collections env (set_models (<[i:=m']> (models st)) st))
    as (Hf & Hm & Hp & He).
  intros Hst. exists reqs.
  apply js_find_Some in Hfind as [Hi _].
  assert (Hst' : models st' = models (saveData env (set_models (<[i:=m']> (models st)) st)).1 /\
                 filaments st' = filaments (saveData env (set_models (<[i:=m']> (models st)) st)).1 /\
                 prints st' = prints (saveData env (set_models (<[i:=m']> (models st)) st)).1 /\
                 editingModelId st' =
                   match tables env with TablesUpdated => VNull | _ => editingModelId st end).
  { destruct (tables env); inversion Hst as [Hst']; simpl; rewrite ?He; auto. }
  destruct Hst' as (Hm' & Hf' & Hp' & He'). rewrite Hm', Hf', Hp', Hm, Hf, Hp.
  repeat split; try assumption; try reflexivity.
  - intros E. rewrite E in Hlen. discriminate.
  - intros r Hr. destruct (proj2 (collectRequirements_spec saveEditModel_entry _ _) r Hr)
      as (id & f & -> & Hin & Hid & _).
    exists f. split; [exact Hin|exact Hid].
  - simpl. rewrite list_fmap_insert. apply list_insert_id.
    rewrite list_lookup_fmap, Hi. reflexivity.
Qed.

Lemma saveEditModel_updates_witness :
  exists reqs,
    models (saveEditModel (Sample.env true) (mkModelForm "Benchy v2" "" ["1"])
              Sample.editingBenchy).1
    = [mkModel (Sample.num 10) (VStr "Benchy v2") (VStr "") (Some reqs)] /\
    reqs <> [].
Proof.
  destruct (saveEditModel_updates (Sample.env true) (mkModelForm "Benchy v2" "" ["1"])
              Sample.editingBenchy _ 0 Sample.benchy eq_refl eq_refl)
    as (reqs & Hm & Hne & _).
  exists reqs. split; [exact Hm|exact Hne].
Defined.

(** ** Adding a filament *)

Section AddFilamentFacts.
Context `{Host}.

(** X7.  Whatever the form holds and whatever the user answers, [addFilament]
    removes no record and moves none: the ids that were in the collection
    are still there, in the same positions, and at most one record is
    added, at the end.  Models and prints are not touched. *)
Theorem addFilament_keeps_records (env : Env) (form : Form) (d : FilamentFormData)
    (st : Store) :
  let st' := (addFilament env form d st).1 in
  take (length (filaments st)) (map f_id (filaments st')) = map f_id (filaments st) /\
  length (filaments st) <= length (filaments st') <= S (length (filaments st)) /\
  models st' = models st /\ prints st' = prints st.
Proof.
  intros st'. subst st'. unfold addFilament.
  assert (Hsame : take (length (filaments st)) (map f_id (filaments st))
                  = map f_id (filaments st)).
  { rewrite <- (length_map f_id). apply firstn_all. }
  destruct (validateForm (materialTypes st) form) as [v|e]; [|simpl; auto with lia].
  destruct (negb (fv_valid v)); [simpl; auto with lia|].
  set (data := collectFilamentFormData env d).
  destruct (checkForFilamentDuplicate data st) as [[[i dup]|]|e] eqn:Hdup;
    [| |simpl; auto with lia].
  - cbn [fst].
    destruct (saveData_collections env (handleDuplicateFilament env i dup data st))
      as (-> & -> & -> & _).
    unfold handleDuplicateFilament.
    unfold checkForFilamentDuplicate in Hdup.
    apply find_from_r_Some in Hdup as (j & Hj & Hi & _). simpl in Hj. subst j.
    destruct (confirm env); simpl.
    + rewrite length_insert. repeat split; try lia.
      rewrite list_fmap_insert, list_insert_id
        by (rewrite list_lookup_fmap, Hi; reflexivity).
      exact Hsame.
    + rewrite length_app, map_app. simpl. repeat split; try lia.
      rewrite <- (length_map f_id (filaments st)). rewrite take_app_length. reflexivity.
  - cbn [fst].
    destruct (saveData_collections env (addNewFilament data st)) as (-> & -> & -> & _).
    unfold addNewFilament. simpl.
    rewrite length_app, map_app. simpl. repeat split; try lia.
    rewrite <- (length_map f_id (filaments st)). rewrite take_app_length. reflexivity.
Qed.

End AddFilamentFacts.

(** ** The pages of a grid *)

Lemma num_geb_nat a b : num_geb (num_of_nat a) (num_of_nat b) = (b <=? a).
Proof.
  unfold num_geb, num_leb, num_ltb, num_of_nat, num_of_Z, Qltb. rewrite negb_involutive.
  destruct (Nat.leb_spec b a) as [Hle|Hlt].
  - apply Qle_bool_iff. rewrite <- Zle_Qle. lia.
  - apply not_true_is_false. rewrite Qle_bool_iff, <- Zle_Qle. lia.
Qed.

Lemma num_eqb_nat a b : num_eqb (num_of_nat a) (num_of_nat b) = (a =? b).
Proof.
  unfold num_eqb, num_of_nat, num_of_Z.
  destruct (Nat.eqb_spec a b) as [->|Hne].
  - apply Qeq_bool_iff. reflexivity.
  - apply not_true_is_false. rewrite Qeq_bool_iff, inject_Z_injective. lia.
Qed.

Section PagingFacts.
Context {Row : Type}.

Lemma js_slice_window {A} (s n : nat) (l : list A) :
  js_slice (Z.of_nat s) (Z.min (Z.of_nat s + Z.of_nat n) (Z.of_nat (length l))) l
  = take n (drop s l).
Proof.
  unfold js_slice.
  assert (H1 : (Z.of_nat s <? 0)%Z = false) by (apply Z.ltb_ge; lia).
  assert (H2 : (Z.min (Z.of_nat s + Z.of_nat n) (Z.of_nat (length l)) <? 0)%Z = false)
    by (apply Z.ltb_ge; lia).
  rewrite H1, H2.
  destruct (le_lt_dec s (length l)) as [Hle|Hgt].
  - replace (Z.to_nat (Z.min (Z.of_nat s) (Z.of_nat (length l)))) with s by lia.
    replace (Z.to_nat _) with (Nat.min n (length l - s)) by lia.
    rewrite <- take_take.
    rewrite (take_ge (drop s l) (length l - s)) by (rewrite length_drop; lia).
    reflexivity.
  - replace (Z.to_nat (Z.min (Z.of_nat s) (Z.of_nat (length l)))) with (length l) by lia.
    rewrite !drop_ge by lia. rewrite !take_nil. reflexivity.
Qed.

(** From the first page on, a page is a window of the visible rows. *)
Lemma pageData_window (p : nat) (g : Grid Row) :
  Paging.pageData (Z.of_nat (S p)) g
  = take (itemsPerPage g) (drop (p * itemsPerPage g) (visibleData g)).
Proof.
  unfold Paging.pageData, Paging.endIndex, Paging.startIndex.
  replace ((Z.of_nat (S p) - 1) * Z.of_nat (itemsPerPage g))%Z
    with (Z.of_nat (p * itemsPerPage g)) by lia.
  apply js_slice_window.
Qed.

Lemma windows_concat {A} (n k : nat) (l : list A) :
  concat (map (fun p => take k (drop (p * k) l)) (seq 0 n)) = take (n * k) l.
Proof.
  induction n as [|n IH]; [reflexivity|].
  rewrite seq_S, map_app, concat_app, IH. simpl. rewrite app_nil_r.
  rewrite take_take_drop. f_equal. lia.
Qed.

Lemma ceil_pages (len k : nat) : 0 < k -> len <= (len + k - 1) / k * k.
Proof.
  intros Hk. pose proof (Nat.div_mod_eq (len + k - 1) k) as Hd.
  pose proof (Nat.mod_upper_bound (len + k - 1) k ltac:(lia)) as Hm.
  nia.
Qed.

Lemma ceil_least (len k c : nat) :
  0 < k -> c < (len + k - 1) / k -> c * k < len.
Proof.
  intros Hk Hc. destruct (Nat.le_gt_cases len (c * k)) as [Hle|Hgt]; [|exact Hgt].
  exfalso. assert (Hlt : (len + k - 1) / k < S c); [|lia].
  apply Nat.Div0.div_lt_upper_bound. lia.
Qed.

(** X8.  The pages from 1 to the last, one after the other, are the visible
    rows: each row is on exactly one page, in order. *)
Theorem pages_cover_rows (g : Grid Row) :
  0 < itemsPerPage g ->
  let n := (length (visibleData g) + itemsPerPage g - 1) / itemsPerPage g in
  Paging.totalPages g = num_of_nat n /\
  concat (map (fun p => Paging.pageData (Z.of_nat p) g) (seq 1 n)) = visibleData g.
Proof.
  intros Hk n. split.
  - unfold Paging.totalPages. destruct (itemsPerPage g); [lia|reflexivity].
  - rewrite <- (fmap_S_seq 0 n), <- list_fmap_compose.
    erewrite map_ext; [|intros p; apply pageData_window].
    rewrite (windows_concat n (itemsPerPage g) (visibleData g)).
    apply take_ge. subst n. apply (ceil_pages _ _ Hk).
Qed.

Lemma pageData_nil (p : nat) (g : Grid Row) :
  0 < itemsPerPage g ->
  (Paging.pageData (Z.of_nat (S p)) g = [] <-> length (visibleData g) <= p * itemsPerPage g).
Proof.
  intros Hk. rewrite pageData_window. split.
  - intros E. apply (f_equal length) in E. rewrite length_take, length_drop in E.
    simpl in E. lia.
  - intros Hle. rewrite drop_ge by lia. apply take_nil.
Qed.

(** X9.  The page is taken as given.  On a grid with rows, page zero and every
    page past the last are rendered with no row at all: neither the
    empty-state message nor the nearest page is shown. *)
Theorem goToPage_out_of_range (page : nat) (g : Grid Row) :
  0 < length (visibleData g) ->
  page = 0 \/ length (visibleData g) <= (page - 1) * itemsPerPage g ->
  Paging.renderTable (Paging.goToPage page g) = PageRows [].
Proof.
  intros Hlen Hout. unfold Paging.renderTable, Paging.goToPage.
  cbn [visibleData currentPage].
  destruct (Nat.eqb_spec (length (visibleData g)) 0) as [E|_]; [lia|]. f_equal.
  destruct page as [|p].
  - unfold Paging.pageData, Paging.endIndex, Paging.startIndex, js_slice.
    cbn [visibleData itemsPerPage].
    match goal with |- take ?n _ = [] => replace n with 0; [reflexivity|] end.
    repeat match goal with
           | |- context [(?a <? ?b)%Z] => destruct (Z.ltb_spec a b)
           end; lia.
  - destruct Hout as [E|Hle]; [discriminate|].
    rewrite pageData_window. cbn [visibleData itemsPerPage].
    rewrite drop_ge by lia. apply take_nil.
Qed.

(** X10.  The Next button is disabled exactly when the page after the current
    one has no row. *)
Theorem nextDisabled_spec (g : Grid Row) :
  0 < itemsPerPage g ->
  (Paging.nextDisabled g = true <->
   Paging.pageData (Z.of_nat (currentPage g + 1)) g = []).
Proof.
  intros Hk. rewrite Nat.add_1_r, (pageData_nil _ _ Hk).
  unfold Paging.nextDisabled, Paging.totalPages.
  destruct (itemsPerPage g) as [|k] eqn:Ek; [lia|]. rewrite <- Ek in *.
  rewrite num_geb_nat.
  set (n := (length (visibleData g) + itemsPerPage g - 1) / itemsPerPage g).
  pose proof (ceil_pages (length (visibleData g)) _ Hk) as Hn. fold n in Hn.
  rewrite orb_true_iff, Nat.leb_le. split.
  - intros [Hle|Hz].
    + nia.
    + change (Fin 0) with (num_of_nat 0) in Hz. rewrite num_eqb_nat in Hz.
      apply Nat.eqb_eq in Hz. lia.
  - intros Hle. left.
    destruct (Nat.le_gt_cases n (currentPage g)) as [?|Hgt]; [assumption|].
    apply (ceil_least (length (visibleData g)) _ _ Hk) in Hgt. lia.
Qed.
End PagingFacts.

Lemma pages_cover_rows_witness :
  concat (map (fun p => Paging.pageData (Z.of_nat p) Sample.threeRows) (seq 1 2))
  = [Sample.acme; Sample.bolt; Sample.azure].
Proof.
  exact (proj2 (pages_cover_rows Sample.threeRows ltac:(simpl; lia))).
Defined.

Lemma goToPage_out_of_range_witness :
  Paging.renderTable (Paging.goToPage 3 Sample.threeRows) = PageRows [].
Proof.
  apply (goToPage_out_of_range 3 Sample.threeRows); [simpl; lia|right; simpl; lia].
Defined.

Lemma nextDisabled_spec_witness :
  Paging.nextDisabled (Paging.goToPage 2 Sample.threeRows) = true.
Proof.
  apply (nextDisabled_spec (Paging.goToPage 2 Sample.threeRows)); [simpl; lia|reflexivity].
Defined.

(** ** Material types *)

Section MaterialTypeFacts.
Import MaterialTypes.

Lemma array_includes_strings (l : list string) (t : string) :
  array_includes (map VStr l) (VStr t) = true <-> t ∈ l.
Proof.
  unfold array_includes. rewrite existsb_exists. split.
  - intros (x & Hin & Hx). apply in_map_iff in Hin as (y & <- & Hy).
    simpl in Hx. apply String.eqb_eq in Hx. subst. apply list_elem_of_In, Hy.
  - intros Hin. exists (VStr t). split; [apply in_map, list_elem_of_In, Hin|].
    simpl. apply String.eqb_refl.
Qed.

Lemma truthy_VStr (t : string) : truthy (VStr t) = true <-> t <> "".
Proof.
  simpl. rewrite negb_true_iff. apply String.eqb_neq.
Qed.

Lemma addMaterialType_new (t : string) (s : State) :
  trim t <> "" -> trim t ∉ materialTypes (store s) ->
  addMaterialType (VStr t) s
  = (saveMaterialTypes (set_materialTypes (materialTypes (store s) ++ [trim t]) s), true).
Proof.
  intros Hne Hnin. unfold addMaterialType.
  assert (Et : truthy (VStr t) = true).
  { apply truthy_VStr. intros ->. apply Hne, trim_empty. }
  rewrite Et, (proj2 (truthy_VStr (trim t)) Hne). cbn [negb].
  destruct (array_includes _ _) eqn:E; [|reflexivity].
  apply array_includes_strings in E. contradiction.
Qed.

Lemma addMaterialType_true (type_ : JSVal) (s : State) :
  (addMaterialType type_ s).2 = true ->
  exists t, type_ = VStr t /\ trim t <> "" /\ trim t ∉ materialTypes (store s).
Proof.
  unfold addMaterialType. destruct type_ as [| |b|n|t|o]; try discriminate.
  destruct (truthy (VStr t)); [|discriminate]. cbn [negb].
  destruct (truthy (VStr (trim t))) eqn:Ett; [|discriminate]. cbn [negb].
  destruct (array_includes _ _) eqn:E; [discriminate|]. intros _.
  exists t. split; [reflexivity|]. split; [apply truthy_VStr, Ett|].
  intros Hin. apply array_includes_strings in Hin. congruence.
Qed.

Lemma addMaterialType_false (type_ : JSVal) (s : State) :
  (addMaterialType type_ s).2 = false -> (addMaterialType type_ s).1 = s.
Proof.
  unfold addMaterialType. destruct type_ as [| |b|n|t|o]; try reflexivity.
  destruct (negb (truthy (VStr t))); [reflexivity|].
  destruct (negb (truthy (VStr (trim t)))); [reflexivity|].
  destruct (negb (array_includes _ _)); [discriminate|reflexivity].
Qed.


Lemma find_from_first {A} (p : A -> bool) k l i x :
  find_from p k l = Some (i, x) ->
  exists j, i = k + j /\ l !! j = Some x /\ p x = true /\
            forall j' y, j' < j -> l !! j' = Some y -> p y = false.
Proof.
  revert k. induction l as [|y l IH]; simpl; intros k Hf; [discriminate|].
  destruct (p y) eqn:Ey.
  - inversion Hf; subst. exists 0. split; [lia|]. split; [reflexivity|].
    split; [exact Ey|]. intros j' z Hj'. lia.
  - destruct (IH _ Hf) as (j & -> & Hj & Hp & Hfirst). exists (S j).
    split; [lia|]. split; [exact Hj|]. split; [exact Hp|].
    intros [|j'] z Hlt Hz; [simpl in Hz; inversion Hz; subst; exact Ey|].
    apply (Hfirst j' z); [lia|exact Hz].
Qed.

Lemma find_from_app_last {A} (p : A -> bool) k l x :
  (forall y, y ∈ l -> p y = false) -> p x = true ->
  find_from p k (l ++ [x]) = Some (k + length l, x).
Proof.
  revert k. induction l as [|y l IH]; simpl; intros k Hall Hx.
  - rewrite Hx. f_equal. f_equal. lia.
  - rewrite (Hall y) by apply list_elem_of_here.
    rewrite IH by (auto using list_elem_of_further). f_equal. f_equal. lia.
Qed.

Lemma strict_eq_VStr v t : strict_eq v (VStr t) = true <-> v = VStr t.
Proof.
  destruct v; simpl; try (split; discriminate).
  rewrite String.eqb_eq. split; [intros ->; reflexivity|intros E; inversion E; reflexivity].
Qed.

Lemma in_use_spec t fs :
  existsb (fun f => strict_eq (materialType f) (VStr t)) fs = true <->
  exists f, f ∈ fs /\ materialType f = VStr t.
Proof.
  rewrite existsb_exists. split; intros (f & Hin & Hf); exists f;
    (split; [apply list_elem_of_In, Hin|apply strict_eq_VStr, Hf]).
Qed.

Lemma removeMaterialType_true (type_ : JSVal) (s : State) :
  (removeMaterialType type_ s).2 = true ->
  exists t i,
    type_ = VStr t /\ t <> "" /\
    materialTypes (store s) !! i = Some t /\
    (forall j, j < i -> materialTypes (store s) !! j <> Some t) /\
    (forall f, f ∈ filaments (store s) -> materialType f <> VStr t) /\
    (removeMaterialType type_ s).1
    = saveMaterialTypes (set_materialTypes (delete i (materialTypes (store s))) s).
Proof.
  unfold removeMaterialType. destruct type_ as [| |b|n|t|o]; try discriminate.
  destruct (truthy (VStr t)) eqn:Et; [|discriminate]. cbn [negb].
  destruct (js_find _ (materialTypes (store s))) as [[index x]|] eqn:Ef; [|discriminate].
  apply find_from_first in Ef as (j & -> & Hj & Hx & Hfirst). simpl in Hx.
  apply String.eqb_eq in Hx. subst x. simpl.
  destruct (existsb _ (filaments (store s))) eqn:Euse; [discriminate|]. intros _.
  exists t, j. split; [reflexivity|]. split; [apply truthy_VStr, Et|].
  split; [exact Hj|]. split; [|split; [|reflexivity]].
  - intros j' Hlt Hj'. specialize (Hfirst j' t Hlt Hj'). simpl in Hfirst.
    rewrite String.eqb_refl in Hfirst. discriminate.
  - intros f Hin Hf.
    assert (Huse : exists f, f ∈ filaments (store s) /\ materialType f = VStr t) by eauto.
    apply in_use_spec in Huse. congruence.
Qed.

Lemma removeMaterialType_false (type_ : JSVal) (s : State) :
  (removeMaterialType type_ s).2 = false -> (removeMaterialType type_ s).1 = s.
Proof.
  unfold removeMaterialType. destruct type_ as [| |b|n|t|o]; try reflexivity.
  destruct (negb (truthy (VStr t))); [reflexivity|].
  destruct (js_find _ _) as [[index x]|]; [|reflexivity].
  destruct (negb (existsb _ _)); [discriminate|reflexivity].
Qed.



(** X13.  A list of material types without repetition stays so under both
    operations, and a type that was removed is no longer in it. *)
Theorem materialTypes_NoDup (type_ : JSVal) (s : State) :
  NoDup (materialTypes (store s)) ->
  NoDup (materialTypes (store (addMaterialType type_ s).1)) /\
  NoDup (materialTypes (store (removeMaterialType type_ s).1)) /\
  (forall t, type_ = VStr t -> (removeMaterialType type_ s).2 = true ->
     t ∉ materialTypes (store (removeMaterialType type_ s).1)).
Proof.
  intros Hnd. split; [|split].
  - destruct ((addMaterialType type_ s).2) eqn:E.
    + apply addMaterialType_true in E as (t & -> & Hne & Hnin).
      rewrite addMaterialType_new by assumption. cbn.
      apply NoDup_app. split; [exact Hnd|]. split; [|apply NoDup_singleton].
      intros x Hx Hx'. apply list_elem_of_singleton in Hx'. subst x. exact (Hnin Hx).
    + rewrite (addMaterialType_false _ _ E). exact Hnd.
  - destruct ((removeMaterialType type_ s).2) eqn:E.
    + apply removeMaterialType_true in E as (t & i & _ & _ & _ & _ & _ & ->). cbn.
      eapply sublist_NoDup; [exact Hnd|apply sublist_delete].
    + rewrite (removeMaterialType_false _ _ E). exact Hnd.
  - intros t -> E.
    apply removeMaterialType_true in E as (t' & i & Et & _ & Hi & _ & _ & ->).
    inversion Et; subst t'. cbn.
    rewrite delete_take_drop. rewrite <- (take_drop_middle _ _ _ Hi) in Hnd.
    apply NoDup_app in Hnd as (_ & Hdisj & Hnd).
    apply NoDup_cons in Hnd as [Hnin _].
    intros Hin. apply elem_of_app in Hin as [Hin|Hin]; [|exact (Hnin Hin)].
    apply (Hdisj t Hin), list_elem_of_here.
Qed.

(** X14.  Adding a type and removing it again gives back the list, when no
    filament carries the type. *)
Theorem add_then_remove (t : string) (s : State) :
  (addMaterialType (VStr t) s).2 = true ->
  (forall f, f ∈ filaments (store s) -> materialType f <> VStr (trim t)) ->
  let s1 := (addMaterialType (VStr t) s).1 in
  (removeMaterialType (VStr (trim t)) s1).2 = true /\
  materialTypes (store (removeMaterialType (VStr (trim t)) s1).1) = materialTypes (store s).
Proof.
  intros Hadd Hfree s1. subst s1.
  apply addMaterialType_true in Hadd as (t' & E & Hne & Hnin).
  inversion E; subst t'. clear E.
  rewrite addMaterialType_new by assumption. cbn [fst].
  unfold removeMaterialType.
  rewrite (proj2 (truthy_VStr (trim t)) Hne). cbn [negb].
  cbn [store saveMaterialTypes set_materialTypes materialTypes filaments].
  unfold js_find. rewrite find_from_app_last.
  - assert (Euse : existsb (fun f => strict_eq (materialType f) (VStr (trim t)))
                     (filaments (store s)) = false).
    { apply not_true_is_false. intros Huse.
      apply in_use_spec in Huse as (f & Hin & Hf). exact (Hfree f Hin Hf). }
    rewrite Euse. simpl. split; [reflexivity|].
    rewrite delete_take_drop, take_app_length, drop_ge; [apply app_nil_r|].
    rewrite length_app. simpl. lia.
  - intros y Hy. simpl. apply String.eqb_neq. intros ->. exact (Hnin Hy).
  - simpl. apply String.eqb_refl.
Qed.

End MaterialTypeFacts.

Lemma materialTypes_NoDup_witness :
  NoDup (materialTypes
           (MaterialTypes.store
              (MaterialTypes.addMaterialType (VStr " ASA ") Workshop.typeState).1)).
Proof.
  exact (proj1 (materialTypes_NoDup (VStr " ASA ") Workshop.typeState ltac:(compute_done))).
Defined.

Lemma add_then_remove_witness :
  materialTypes
    (MaterialTypes.store
       (MaterialTypes.removeMaterialType (VStr "ASA")
          (MaterialTypes.addMaterialType (VStr " ASA ") Workshop.typeState).1).1)
  = ["PLA"; "PETG"; "ABS"; "TPU"].
Proof.
  refine (proj2 (add_then_remove " ASA " Workshop.typeState eq_refl _)).
  intros f Hf. simpl in Hf. apply list_elem_of_singleton in Hf. subst f. discriminate.
Defined.

(** ** The rules of the form validator *)

Section RuleFacts.
Context `{Host}.

Lemma validateField_materialType_cases (types : list string) (t : string) :
  (t <> "" /\ (t ∈ types \/ t = "Other") /\
   validateField types "materialType" (VStr t) = Ok valid_result) \/
  (~ (t <> "" /\ (t ∈ types \/ t = "Other")) /\
   exists msg, validateField types "materialType" (VStr t) = Ok (invalid_result msg)).
Proof.
  unfold validateField. cbn [ValidationRules String.eqb Ascii.eqb Bool.eqb optional required andb].
  unfold is_empty_value. cbn [truthy strict_eq].
  destruct (String.eqb_spec t "") as [->|Hne].
  - right. split; [intros [Hne _]; congruence|]. cbn. eauto.
  - unfold validateFieldType, validateFieldRange, validateFieldLength,
      validateFieldPattern, validateFieldAllowed, failed, valid_result, invalid_result.
    cbn -[array_includes].
    destruct (array_includes (map VStr types) (VStr t)) eqn:Einc; cbn.
    + left. apply array_includes_strings in Einc. auto.
    + destruct (String.eqb_spec t "Other") as [->|Hno]; cbn.
      * left. auto.
      * right. split; [|eauto]. intros (_ & [Hin|E]); [|congruence].
        apply array_includes_strings in Hin. congruence.
Qed.

(** X15.  The material type rule, through all stages of the validator: a text is
    accepted exactly when it is not empty and is a listed material type
    or the word [Other]; the validator does not throw on a text. *)
Theorem materialType_rule (types : list string) (t : string) :
  (validateField types "materialType" (VStr t) = Ok valid_result <->
   t <> "" /\ (t ∈ types \/ t = "Other")) /\
  exists r, validateField types "materialType" (VStr t) = Ok r.
Proof.
  destruct (validateField_materialType_cases types t)
    as [(Hne & Hin & E)|(Hno & msg & E)]; rewrite E.
  - split; [|eauto]. split; auto.
  - split; [|eauto]. split; [discriminate|]. intros Hyes. destruct (Hno Hyes).
Qed.

(** A type that was just added is accepted as the material type of a
    filament; before, the validator refused it. *)
Theorem added_type_validates (t : string) (s : MaterialTypes.State) :
  (MaterialTypes.addMaterialType (VStr t) s).2 = true ->
  trim t <> "Other" ->
  validateField (materialTypes (MaterialTypes.store s)) "materialType" (VStr (trim t))
  <> Ok valid_result /\
  validateField
    (materialTypes (MaterialTypes.store (MaterialTypes.addMaterialType (VStr t) s).1))
    "materialType" (VStr (trim t)) = Ok valid_result.
Proof.
  intros Hadd Hno.
  apply addMaterialType_true in Hadd as (t' & E & Hne & Hnin).
  inversion E; subst t'. clear E.
  rewrite addMaterialType_new by assumption.
  cbn [fst MaterialTypes.store MaterialTypes.saveMaterialTypes
       MaterialTypes.set_materialTypes materialTypes].
  split.
  - intros Hv.
    destruct (validateField_materialType_cases (materialTypes (MaterialTypes.store s)) (trim t))
      as [(_ & [Hin|Ho] & _)|(_ & msg & E)]; [auto..|].
    rewrite E in Hv. discriminate.
  - destruct (validateField_materialType_cases (materialTypes (MaterialTypes.store s) ++ [trim t])
                (trim t)) as [(_ & _ & E)|(Hno' & _)]; [exact E|].
    exfalso. apply Hno'. split; [exact Hne|]. left.
    apply elem_of_app. right. apply list_elem_of_here.
Qed.

Lemma validateInput_keeps_errors types form errors input errors' :
  validateInput types form errors input = Ok errors' -> errors <> ∅ -> errors' <> ∅.
Proof.
  unfold validateInput. intros Hv Hne.
  destruct (String.eqb (in_type input) "checkbox" || negb (String.eqb (in_type input) "radio"));
    [|inversion Hv; subst; exact Hne].
  match type of Hv with (?m ≫= _) = _ => destruct m as [validation|e]; [|discriminate] end.
  cbn in Hv. destruct (js_get validation "valid") as [ok|e]; [|discriminate].
  cbn in Hv. destruct (negb (truthy ok)); [|inversion Hv; subst; exact Hne].
  destruct (js_get validation "message") as [msg|e]; [|discriminate].
  cbn in Hv. inversion Hv; subst. apply insert_non_empty.
Qed.

Lemma validateForm_keeps_errors types form l errors errors' :
  foldM_r (validateInput types form) errors l = Ok errors' -> errors <> ∅ -> errors' <> ∅.
Proof.
  revert errors. induction l as [|x l IH]; intros errors Hf Hne.
  - inversion Hf; subst. exact Hne.
  - cbn in Hf. destruct (validateInput types form errors x) as [e1|e] eqn:E1; [|discriminate].
    cbn in Hf. eapply IH; [exact Hf|]. eapply validateInput_keeps_errors; eassumption.
Qed.

Lemma validateForm_error types form l errors errors' input :
  input ∈ l ->
  (forall e e', validateInput types form e input = Ok e' -> e' <> ∅) ->
  foldM_r (validateInput types form) errors l = Ok errors' -> errors' <> ∅.
Proof.
  intros Hin Hbad. revert errors. induction l as [|x l IH]; intros errors Hf.
  - apply elem_of_nil in Hin. destruct Hin.
  - cbn in Hf. destruct (validateInput types form errors x) as [e1|e] eqn:E1; [|discriminate].
    cbn in Hf. apply elem_of_cons in Hin as [<-|Hin].
    + eapply validateForm_keeps_errors; [exact Hf|]. eapply Hbad, E1.
    + eapply IH; eassumption.
Qed.

(** X16.  A material typed in as custom text is refused unless it is already a
    listed type: with [Other] selected the form validation passes the
    trimmed text to the material type rule, and nothing is stored. *)
Theorem addFilament_custom_material_refused (env : Env) (form : Form)
    (d : FilamentFormData) (st : Store) (input : FormInput) (custom : string) :
  input ∈ form_inputs form ->
  in_name input = "materialType" ->
  in_type input = "select-one" ->
  in_value input = "Other" ->
  customMaterialInput form = Some custom ->
  trim custom ∉ materialTypes st ->
  trim custom <> "Other" ->
  (addFilament env form d st).1 = st /\ (addFilament env form d st).2 <> Ok true.
Proof.
  intros Hin Hname Htype Hvalue Hcustom Hnew Hno.
  unfold addFilament, validateForm.
  destruct (foldM_r (validateInput (materialTypes st) form) ∅ (form_inputs form))
    as [errors|e] eqn:Ef; cbn; [|split; [reflexivity|discriminate]].
  assert (Herr : errors <> ∅).
  { eapply validateForm_error; [exact Hin| |exact Ef].
    intros e e'. unfold validateInput. rewrite Hname, Htype, Hvalue, Hcustom.
    cbn -[validateField].
    destruct (validateField_materialType_cases (materialTypes st) (trim custom))
      as [(_ & [Hl|Ho] & _)|(_ & msg & ->)]; [contradiction..|].
    cbn. intros E. inversion E; subst. apply insert_non_empty. }
  rewrite bool_decide_eq_false_2 by exact Herr. cbn. split; [reflexivity|discriminate].
Qed.


(** The colour code rule: a text is accepted exactly when it is [#] and
    six hexadecimal digits. *)
Theorem colorHex_rule (types : list string) (t : string) :
  validateField types "colorHex" (VStr t) = Ok valid_result <-> is_RRGGBB t.
Proof.
  rewrite <- hex_color_re_spec.
  unfold validateField. cbn [ValidationRules String.eqb Ascii.eqb Bool.eqb optional required andb].
  unfold is_empty_value. cbn [truthy strict_eq].
  destruct (String.eqb_spec t "") as [->|Hne]; [cbn; split; discriminate|].
  unfold validateFieldType, validateFieldRange, validateFieldLength,
    validateFieldPattern, validateFieldAllowed, failed, valid_result, invalid_result.
  cbn -[hex_color_re]. destruct (hex_color_re t); cbn; split; congruence.
Qed.

(** X17.  The weight rule: a text is accepted exactly when the number
    [parseFloat] reads from it lies between 0.1 and 10000. *)
Theorem weight_rule (types : list string) (t : string) :
  validateField types "weight" (VStr t) = Ok valid_result <->
  exists q, parseFloat_str t = Fin q /\ (1 # 10 <= q)%Q /\ (q <= 10000)%Q.
Proof.
  unfold validateField. cbn [ValidationRules String.eqb Ascii.eqb Bool.eqb optional required andb].
  unfold is_empty_value. cbn [truthy strict_eq].
  destruct (String.eqb_spec t "") as [->|Hne].
  { cbn. split; [discriminate|]. intros (q & E & _). vm_compute in E. discriminate. }
  unfold validateFieldType. cbn [type_is_number type String.eqb Ascii.eqb Bool.eqb andb strict_eq].
  rewrite (proj2 (String.eqb_neq t "") Hne). cbn [negb].
  unfold parseFloat. cbn [ToString].
  destruct (parseFloat_str t) as [| | |q] eqn:Ep; cbn [isNaN];
    unfold validateFieldRange, validateFieldLength,
      validateFieldPattern, validateFieldAllowed, failed, valid_result, invalid_result;
    cbn -[Qle_bool];
    try (split; [discriminate|intros (q & E & _); discriminate]).
  unfold Qltb. destruct (Qle_bool (1 # 10) q) eqn:E1; cbn -[Qle_bool].
  - destruct (Qle_bool q 10000) eqn:E2; cbn.
    + split; [intros _|reflexivity]. exists q. rewrite <- !Qle_bool_iff. auto.
    + split; [discriminate|]. intros (q0 & E & _ & Hq). inversion E; subst.
      apply Qle_bool_iff in Hq. congruence.
  - split; [discriminate|]. intros (q0 & E & Hq & _). inversion E; subst.
    apply Qle_bool_iff in Hq. congruence.
Qed.

(** X18.  The diameter rule: a text is accepted exactly when the number
    [parseFloat] reads from it is 1.75 or 2.85, whatever follows the
    number in the text. *)
Theorem diameter_rule (types : list string) (t : string) :
  validateField types "diameter" (VStr t) = Ok valid_result <->
  exists q, parseFloat_str t = Fin q /\ (q == 175 # 100 \/ q == 285 # 100)%Q.
Proof.
  unfold validateField. cbn [ValidationRules String.eqb Ascii.eqb Bool.eqb optional required andb].
  unfold is_empty_value. cbn [truthy strict_eq].
  destruct (String.eqb_spec t "") as [->|Hne].
  { cbn. split; [discriminate|]. intros (q & E & _). vm_compute in E. discriminate. }
  unfold validateFieldType. cbn [type_is_number type String.eqb Ascii.eqb Bool.eqb andb strict_eq].
  rewrite (proj2 (String.eqb_neq t "") Hne). cbn [negb].
  unfold parseFloat. cbn [ToString].
  destruct (parseFloat_str t) as [| | |q] eqn:Ep; cbn [isNaN];
    unfold validateFieldRange, validateFieldLength,
      validateFieldPattern, validateFieldAllowed, failed, valid_result, invalid_result;
    cbn -[Qeq_bool];
    try (split; [discriminate|intros (q & E & _); discriminate]).
  destruct (Qeq_bool (175 # 100) q) eqn:E1; cbn -[Qeq_bool].
  - split; [intros _|reflexivity]. exists q. split; [reflexivity|]. left.
    symmetry. apply Qeq_bool_iff, E1.
  - destruct (Qeq_bool (285 # 100) q) eqn:E2; cbn.
    + split; [intros _|reflexivity]. exists q. split; [reflexivity|]. right.
      symmetry. apply Qeq_bool_iff, E2.
    + split; [discriminate|]. intros (q0 & E & [Hq|Hq]); inversion E; subst;
        symmetry in Hq; apply Qeq_bool_iff in Hq; congruence.
Qed.

End RuleFacts.

Lemma added_type_validates_witness :
  validateField (H := Sample.host)
    (materialTypes
       (MaterialTypes.store
          (MaterialTypes.addMaterialType (VStr " ASA ") Workshop.typeState).1))
    "materialType" (VStr "ASA") = Ok valid_result.
Proof.
  exact (proj2 (added_type_validates (H := Sample.host) " ASA " Workshop.typeState
                  eq_refl ltac:(discriminate))).
Defined.

Lemma addFilament_custom_material_refused_witness :
  (addFilament (H := Sample.host) (Sample.env true) Workshop.customMaterialForm
     Workshop.customMaterialSpool (Sample.store [] [] [])).1 = Sample.store [] [] [].
Proof.
  refine (proj1 (addFilament_custom_material_refused (H := Sample.host) (Sample.env true)
                   Workshop.customMaterialForm Workshop.customMaterialSpool
                   (Sample.store [] [] [])
                   (mkFormInput "materialType" "filamentMaterialType" "select-one" "Other" false)
                   " ASA " _ eq_refl eq_refl eq_refl eq_refl _ _)).
  - apply list_elem_of_further, list_elem_of_here.
  - vm_compute. intros Hin. repeat (apply elem_of_cons in Hin as [Hin|Hin]; [discriminate|]).
    apply elem_of_nil in Hin. exact Hin.
  - discriminate.
Defined.

(** ** What the form accepts and the save refuses *)

Section UnsavedFacts.
Context `{Host}.

Lemma every_r_false {A} (p : A -> result bool) l x :
  x ∈ l -> p x <> Ok true -> every_r p l <> Ok true.
Proof.
  intros Hin Hx Hall. apply Hx. eapply every_r_true; eassumption.
Qed.

Lemma blank_color_invalid (f : Filament) :
  color f = VStr "" -> filamentValid f <> Ok true.
Proof.
  intros Hc. unfold filamentValid.
  destruct (missing_text (brand f)); [discriminate|].
  destruct (missing_text (materialType f)); [discriminate|].
  rewrite Hc. cbn. discriminate.
Qed.

(** X19.  The form has no rule for the colour, while [saveData] wants one on
    every record.  A filament added with a blank colour is accepted and
    appended in memory, [addFilament] returns [true], and nothing is
    written to the storage, then or at any later save: whatever else has
    happened to the store, [saveData] returns [false] and leaves the store
    as it is while the record is in the collection. *)
Theorem addFilament_blank_color_unsaved (env : Env) (form : Form) (d : FilamentFormData)
    (st : Store) (v : FormValidation) :
  validateForm (materialTypes st) form = Ok v ->
  fv_valid v = true ->
  checkForFilamentDuplicate (collectFilamentFormData env d) st = Ok None ->
  trim (filamentColor d) = "" ->
  let st' := (addFilament env form d st).1 in
  (addFilament env form d st).2 = Ok true /\
  filaments st' = filaments st ++ [collectFilamentFormData env d] /\
  localStorage st' = localStorage st /\
  forall (env' : Env) (st1 : Store),
    collectFilamentFormData env d ∈ filaments st1 -> saveData env' st1 = (st1, false).
Proof.
  intros Hv Hvalid Hdup Hblank st'. subst st'.
  unfold addFilament. rewrite Hv, Hvalid, Hdup. cbn [negb fst snd].
  set (data := collectFilamentFormData env d).
  assert (Hbad : forall env' st1, data ∈ filaments st1 -> saveData env' st1 = (st1, false)).
  { intros env' st1 Hin. unfold saveData, validateFilamentData.
    pose proof (every_r_false filamentValid (filaments st1) data Hin) as Hne.
    destruct (every_r filamentValid (filaments st1)) as [[]|]; try reflexivity.
    exfalso. apply Hne; [|reflexivity].
    apply blank_color_invalid. subst data. unfold collectFilamentFormData. cbn [color].
    rewrite Hblank. reflexivity. }
  assert (Hin : data ∈ filaments (addNewFilament data st)).
  { unfold addNewFilament. simpl. apply elem_of_app. right. apply list_elem_of_here. }
  rewrite (Hbad env _ Hin). cbn [fst].
  repeat split. exact Hbad.
Qed.

End UnsavedFacts.

Lemma addFilament_blank_color_unsaved_witness :
  let r := addFilament (H := Sample.host) (Sample.env true) Sample.secondSpoolForm
             Workshop.blankColorSpool (Sample.store [] [] []) in
  r.2 = Ok true /\ length (filaments r.1) = 1 /\ localStorage r.1 = ∅.
Proof.
  intros r.
  assert (Hv : validateForm (H := Sample.host) (materialTypes (Sample.store [] [] []))
                 Sample.secondSpoolForm = Ok (mkFormValidation true ∅))
    by (vm_compute; reflexivity).
  destruct (addFilament_blank_color_unsaved (H := Sample.host) (Sample.env true)
              Sample.secondSpoolForm Workshop.blankColorSpool (Sample.store [] [] []) _
              Hv eq_refl eq_refl eq_refl) as (Hr & Hfs & Hls & _).
  split; [exact Hr|]. split; [|exact Hls].
  subst r. rewrite Hfs. reflexivity.
Defined.

(** ** Ids at loading *)

Section LoadingFacts.

Lemma ensureFilamentIds_filaments clock env st :
  filaments (ensureFilamentIds clock env st)
  = imap (fun k f => if lacks_id f then set_id (newId (clock k)) f else f) (filaments st) /\
  models (ensureFilamentIds clock env st) = models st /\
  prints (ensureFilamentIds clock env st) = prints st.
Proof.
  unfold ensureFilamentIds.
  destruct (existsb lacks_id (filaments st)) eqn:E.
  - destruct (saveData_collections env
      (set_filaments
         (imap (fun k f => if lacks_id f then set_id (newId (clock k)) f else f)
            (filaments st)) st)) as (-> & -> & -> & _).
    auto.
  - split; [|auto]. apply list_eq. intros k. rewrite list_lookup_imap.
    destruct (filaments st !! k) as [f|] eqn:Ek; [|reflexivity]. simpl.
    assert (Hf : lacks_id f = false).
    { destruct (lacks_id f) eqn:El; [|reflexivity].
      assert (Hex : existsb lacks_id (filaments st) = true).
      { apply existsb_exists. exists f. split; [|exact El].
        apply list_elem_of_In. eapply list_elem_of_lookup_2, Ek. }
      congruence. }
    rewrite Hf. reflexivity.
Qed.

Lemma isInteger_newId a b : isInteger (newId (Fin a, Fin b)) = true.
Proof.
  unfold newId, isInteger. cbn [fst snd num_mul num_add num_floor num_of_Z].
  rewrite Qfloor_Z. apply Qeq_bool_iff. reflexivity.
Qed.

Lemma lacks_id_false f : lacks_id f = false -> isInteger (f_id f) = true.
Proof.
  unfold lacks_id. intros E. apply orb_false_iff in E as [_ E].
  apply negb_false_iff, E.
Qed.

(** X20.  After [ensureFilamentIds], with a clock that gives finite numbers,
    every filament has an integer id.  A record whose id was a non-zero
    integer is untouched; any other record keeps everything but its id,
    which is the floor of the clock reading taken at it.  No record is
    added, removed or moved, and models and prints are as before. *)
Theorem ensureFilamentIds_spec (clock : nat -> JSNum * JSNum) (env : Env) (st : Store) :
  (forall k, exists a b, clock k = (Fin a, Fin b)) ->
  let st' := ensureFilamentIds clock env st in
  length (filaments st') = length (filaments st) /\
  (forall k f, filaments st !! k = Some f ->
     filaments st' !! k
     = Some (if lacks_id f then set_id (newId (clock k)) f else f)) /\
  (forall f', f' ∈ filaments st' -> isInteger (f_id f') = true) /\
  models st' = models st /\ prints st' = prints st.
Proof.
  intros Hclock st'. subst st'.
  destruct (ensureFilamentIds_filaments clock env st) as (-> & -> & ->).
  split; [apply length_imap|]. split; [|split; [|auto]].
  - intros k f Hk. rewrite list_lookup_imap, Hk. reflexivity.
  - intros f' Hin. apply list_elem_of_lookup in Hin as [k Hk].
    rewrite list_lookup_imap in Hk.
    destruct (filaments st !! k) as [f|]; [|discriminate]. simpl in Hk.
    inversion Hk; subst f'. destruct (lacks_id f) eqn:El.
    + destruct (Hclock k) as (a & b & ->). apply isInteger_newId.
    + apply lacks_id_false, El.
Qed.


Lemma parseInt_str_integer radix s :
  parseInt_str radix s = NaN \/ exists z, parseInt_str radix s = num_of_Z z.
Proof.
  unfold parseInt_str.
  destruct (read_sign (trimStart s)) as [neg s0].
  destruct radix as [r|].
  - destruct (read_digits r _) as [[|d ds] rest]; [left; reflexivity|right; eauto].
  - destruct (startsWith s0 "0x" || startsWith s0 "0X");
      destruct (read_digits _ _) as [[|d ds] rest]; (left; reflexivity) || (right; eauto).
Qed.

Lemma strict_eq_integer v z :
  strict_eq v (VNum (num_of_Z z)) = true -> isInteger v = true.
Proof.
  destruct v as [| |b|[| | |q]|t|o]; simpl; try discriminate.
  intros E. apply Qeq_bool_iff in E. apply Qeq_bool_iff.
  rewrite E at 1. rewrite E, Qfloor_Z. reflexivity.
Qed.

Lemma find_from_filter {A} (p q : A -> bool) k k' l :
  (forall x, p x = true -> q x = true) ->
  snd <$> find_from p k (List.filter q l) = snd <$> find_from p k' l.
Proof.
  intros Hpq. revert k k'. induction l as [|x l IH]; intros k k'; [reflexivity|].
  simpl. destruct (q x) eqn:Eq; simpl.
  - destruct (p x); [reflexivity|apply IH].
  - destruct (p x) eqn:Ep; [rewrite (Hpq x Ep) in Eq; discriminate|apply IH].
Qed.

Lemma js_find_integer_id (z : Z) (fs : list Filament) :
  snd <$> js_find (fun f => strict_eq (f_id f) (VNum (num_of_Z z)))
            (List.filter (fun f => isInteger (f_id f)) fs)
  = snd <$> js_find (fun f => strict_eq (f_id f) (VNum (num_of_Z z))) fs.
Proof.
  apply find_from_filter. intros f. apply strict_eq_integer.
Qed.

Lemma collectRequirements_integer_ids (entry : JSNum -> Filament -> Requirement)
    (fs : list Filament) (inputs : list string) :
  collectRequirements entry fs inputs
  = collectRequirements entry (List.filter (fun f => isInteger (f_id f)) fs) inputs.
Proof.
  unfold collectRequirements. induction inputs as [|x inputs IH]; [reflexivity|].
  cbn [flat_map]. rewrite IH. f_equal.
  destruct (parseInt_str_integer (Some 10%N) x) as [->|[z ->]]; [reflexivity|].
  destruct (negb (isNaN (num_of_Z z)) && num_gtb (num_of_Z z) (Fin 0)); [|reflexivity].
  pose proof (js_find_integer_id z fs) as E.
  destruct (js_find _ (List.filter _ fs)) as [[? ?]|], (js_find _ fs) as [[? ?]|];
    simpl in E; congruence.
Qed.

Lemma collectPrintFilament_integer_ids `{Host} (fs : list Filament)
    (item : PrintFilamentItem) :
  collectPrintFilament fs item
  = collectPrintFilament (List.filter (fun f => isInteger (f_id f)) fs) item.
Proof.
  unfold collectPrintFilament.
  destruct (parseInt_str_integer None (select_value item)) as [->|[z ->]]; [reflexivity|].
  destruct (negb (isNaN (num_of_Z z)) && num_gtb (num_of_Z z) (Fin 0) && _); [|reflexivity].
  pose proof (js_find_integer_id z fs) as E.
  destruct (js_find _ (List.filter _ fs)) as [[? ?]|], (js_find _ fs) as [[? ?]|];
    simpl in E; congruence.
Qed.

(** X21.  The model form and the print form read the chosen id with
    [parseInt]: what they collect is what they would collect if the
    filaments whose id is not an integer were not in the collection. *)
Theorem forms_see_integer_ids `{Host} (entry : JSNum -> Filament -> Requirement)
    (fs : list Filament) (inputs : list string) (item : PrintFilamentItem) :
  collectRequirements entry fs inputs
  = collectRequirements entry (List.filter (fun f => isInteger (f_id f)) fs) inputs /\
  collectPrintFilament fs item
  = collectPrintFilament (List.filter (fun f => isInteger (f_id f)) fs) item.
Proof.
  split; [apply collectRequirements_integer_ids|apply collectPrintFilament_integer_ids].
Qed.

Lemma strict_eq_isInteger a b : strict_eq a b = true -> isInteger a = isInteger b.
Proof.
  destruct a as [| |x|[| | |p]|x|x], b as [| |y|[| | |q]|y|y]; simpl;
    try discriminate; try reflexivity.
  intros E. apply Qeq_bool_iff in E.
  destruct (Qeq_bool p (inject_Z (Qfloor p))) eqn:Ep.
  - symmetry. apply Qeq_bool_iff. apply Qeq_bool_iff in Ep.
    rewrite <- E at 1. rewrite <- E. exact Ep.
  - symmetry. apply not_true_is_false. intros Eq. apply Qeq_bool_iff in Eq.
    apply not_true_iff_false in Ep. apply Ep, Qeq_bool_iff.
    rewrite E at 1. rewrite E. exact Eq.
Qed.

Lemma filter_delete_rejected {A} (p : A -> bool) (l : list A) (k : nat) (x : A) :
  l !! k = Some x -> p x = false -> List.filter p (delete k l) = List.filter p l.
Proof.
  intros Hk Hp. rewrite <- (take_drop_middle l k x Hk) at 2.
  rewrite delete_take_drop, !List.filter_app. cbn [List.filter]. rewrite Hp. reflexivity.
Qed.

(** X22.  A filament whose id is not an integer (the add form computes the
    id as [Date.now() + Math.random()]) cannot be chosen in the model form
    or in the print form: they collect what they would collect without
    the record.  At the next [ensureFilamentIds], which runs when the page
    is loaded, the record gets another id, an integer. *)
Theorem fractional_id_unusable_until_reload `{Host} (env : Env) (st : Store) (k : nat)
    (f : Filament) (clock : nat -> JSNum * JSNum) :
  filaments st !! k = Some f ->
  isInteger (f_id f) = false ->
  (forall j, exists a c, clock j = (Fin a, Fin c)) ->
  let st2 := ensureFilamentIds clock env st in
  let id' := newId (clock k) in
  (forall entry inputs,
     collectRequirements entry (filaments st) inputs
     = collectRequirements entry (delete k (filaments st)) inputs) /\
  (forall item,
     collectPrintFilament (filaments st) item
     = collectPrintFilament (delete k (filaments st)) item) /\
  filaments st2 !! k = Some (set_id id' f) /\
  isInteger id' = true /\
  strict_eq (f_id f) id' = false.
Proof.
  intros Hk Hfrac Hclock st2 id'.
  assert (Hid : isInteger id' = true).
  { subst id'. destruct (Hclock k) as (a & c & ->). apply isInteger_newId. }
  split; [|split; [|split; [|split]]].
  - intros entry inputs.
    rewrite (collectRequirements_integer_ids entry (filaments st)).
    rewrite (collectRequirements_integer_ids entry (delete k (filaments st))).
    rewrite (filter_delete_rejected _ _ k f Hk Hfrac). reflexivity.
  - intros item.
    rewrite (collectPrintFilament_integer_ids (filaments st)).
    rewrite (collectPrintFilament_integer_ids (delete k (filaments st))).
    rewrite (filter_delete_rejected _ _ k f Hk Hfrac). reflexivity.
  - subst st2. destruct (ensureFilamentIds_filaments clock env st) as (-> & _).
    rewrite list_lookup_imap, Hk. cbn.
    unfold lacks_id. rewrite Hfrac, orb_true_r. reflexivity.
  - exact Hid.
  - destruct (strict_eq (f_id f) id') eqn:E; [|reflexivity].
    apply strict_eq_isInteger in E. congruence.
Qed.

End LoadingFacts.

Lemma ensureFilamentIds_spec_witness :
  filaments (ensureFilamentIds Workshop.clock (Sample.env true)
               (Sample.store [Sample.acme; Workshop.freshSpool] [] [])) !! 1
  = Some (set_id (newId (Workshop.clock 1)) Workshop.freshSpool).
Proof.
  refine (proj1 (proj2
    (ensureFilamentIds_spec Workshop.clock (Sample.env true)
       (Sample.store [Sample.acme; Workshop.freshSpool] [] []) _))
    1 Workshop.freshSpool eq_refl).
  intros k. eexists _, _. reflexivity.
Defined.

Lemma fractional_id_unusable_until_reload_witness :
  collectRequirements addModel_entry
    [Sample.acme; Workshop.freshSpool] ["1700000000000"; "1"]
  = collectRequirements addModel_entry [Sample.acme] ["1700000000000"; "1"] /\
  filaments (ensureFilamentIds Workshop.clock (Sample.env true)
               (Sample.store [Sample.acme; Workshop.freshSpool] [] [])) !! 1
  = Some (set_id (newId (Workshop.clock 1)) Workshop.freshSpool).
Proof.
  destruct (fractional_id_unusable_until_reload (H := Sample.host) (Sample.env true)
              (Sample.store [Sample.acme; Workshop.freshSpool] [] []) 1
              Workshop.freshSpool Workshop.clock eq_refl eq_refl
              (fun k => ex_intro _ _ (ex_intro _ _ eq_refl)))
    as (Hreqs & _ & Hid & _).
  split; [exact (Hreqs addModel_entry ["1700000000000"; "1"])|exact Hid].
Defined.

(** ** Saving and loading *)

Section LoadDataFacts.

Lemma saveData_true (env : Env) (st : Store) :
  (saveData env st).2 = true ->
  validateFilamentData st = Ok true /\
  localStorage (saveData env st).1 !! "filaments" = Some (SFilaments (filaments st)) /\
  localStorage (saveData env st).1 !! "models" = Some (SModels (models st)) /\
  localStorage (saveData env st).1 !! "prints" = Some (SPrints (prints st)).
Proof.
  unfold saveData. destruct (validateFilamentData st) as [[]|]; try discriminate.
  cbn [fst snd]. intros Hq. apply Nat.leb_le in Hq. split; [reflexivity|].
  destruct (quota env) as [|[|[|[|q]]]]; try (simpl in Hq; lia).
  cbn -[lookup insert]. unfold setItem. cbn -[lookup insert].
  rewrite take_nil. cbn -[lookup insert].
  repeat split.
  - rewrite lookup_insert_ne by discriminate. rewrite lookup_insert_ne by discriminate.
    apply lookup_insert_eq.
  - rewrite lookup_insert_ne by discriminate. apply lookup_insert_eq.
  - apply lookup_insert_eq.
Qed.

Lemma valid_not_migrated (f : Filament) :
  filamentValid f = Ok true -> inStock f <> VUndef -> migrateFilament f = f.
Proof.
  intros Hv Hstock. apply filamentValid_spec in Hv.
  destruct Hv as [(b & Hb & Hbt) (m & Hm & Hmt) _ (c & Hc & r & -> & _) _ (n & Hd & Hn) _ _].
  unfold migrateFilament.
  destruct f as [fid fbrand fmt fmat fcol fcn fhex fdia fw floc fpp fnotes fstock ftemp
                   fdate fblocked]; simpl in *. subst.
  assert (Eb : truthy (VStr b) = true).
  { simpl. apply negb_true_iff, String.eqb_neq. intros ->. apply Hbt, trim_empty. }
  assert (Em : truthy (VStr m) = true).
  { simpl. apply negb_true_iff, String.eqb_neq. intros ->. apply Hmt, trim_empty. }
  assert (Ed : truthy (VNum n) = true).
  { destruct n as [| | |q]; simpl in *; try (destruct Hn; discriminate).
    apply negb_true_iff, not_true_is_false. intros E. apply Qeq_bool_iff in E.
    destruct Hn as [Hn|Hn]; apply Qeq_bool_iff in Hn; rewrite E in Hn; discriminate Hn. }
  rewrite Eb, Em, Ed. cbn [negb andb truthy String.eqb].
  simpl in Em. rewrite Em. cbn [negb]. rewrite andb_false_r.
  destruct fstock; try reflexivity. congruence.
Qed.

(** X23.  What [saveData] has written, [loadData] reads back.  When the save
    succeeded, the filaments have non-zero integer ids and a stock flag,
    the requirements with a legacy material also name a material type,
    and every value survives the JSON text (no number that is not
    finite, no [undefined] inside an object), a page that starts from
    that storage has the three collections of the store that was saved,
    and loading writes nothing. *)
Theorem save_then_load (clock : nat -> JSNum * JSNum) (env env' : Env)
    (st page : Store) :
  (saveData env st).2 = true ->
  (forall f, f ∈ filaments st ->
     json_filament f = f /\ lacks_id f = false /\ inStock f <> VUndef) ->
  (forall m, m ∈ models st -> json_model m = m /\ migrateModel m = m) ->
  (forall p, p ∈ prints st -> json_print p = p) ->
  localStorage page = localStorage (saveData env st).1 ->
  exists st',
    loadData clock env' page = Some st' /\
    filaments st' = filaments st /\ models st' = models st /\ prints st' = prints st /\
    localStorage st' = localStorage page.
Proof.
  intros Hsave Hfs Hms Hps Hls.
  destruct (saveData_true env st Hsave) as (Hvalid & Hf & Hm & Hp).
  unfold loadData. rewrite Hls, Hf, Hm, Hp. cbn [mbind option_bind].
  assert (Ef : map (fun f => migrateFilament (json_filament f)) (filaments st) = filaments st).
  { rewrite <- (map_id (filaments st)) at 2. apply map_ext_in. intros f Hin.
    apply list_elem_of_In in Hin. destruct (Hfs f Hin) as (-> & _ & Hstock).
    apply valid_not_migrated; [|exact Hstock].
    eapply every_r_true; [exact Hvalid|exact Hin]. }
  assert (Em : map (fun m => migrateModel (json_model m)) (models st) = models st).
  { rewrite <- (map_id (models st)) at 2. apply map_ext_in. intros m Hin.
    apply list_elem_of_In in Hin. destruct (Hms m Hin) as (-> & ->). reflexivity. }
  assert (Ep : map json_print (prints st) = prints st).
  { rewrite <- (map_id (prints st)) at 2. apply map_ext_in. intros p Hin.
    apply list_elem_of_In in Hin. apply Hps, Hin. }
  rewrite Ef, Em, Ep. eexists. split; [reflexivity|].
  unfold ensureFilamentIds. cbn [filaments set_prints set_models set_filaments].
  assert (Hno : existsb lacks_id (filaments st) = false).
  { apply not_true_is_false. intros E. apply existsb_exists in E as (f & Hin & Hl).
    apply list_elem_of_In in Hin. destruct (Hfs f Hin) as (_ & Hl' & _). congruence. }
  rewrite Hno. repeat split. exact Hls.
Qed.

End LoadDataFacts.

Lemma save_then_load_witness :
  let st := Sample.store [Sample.acme; Sample.bolt] [Sample.benchy] [Sample.bluePrint] in
  exists st',
    loadData Workshop.clock (Sample.env true)
      (set_localStorage (localStorage (saveData (Sample.env true) st).1)
         (Sample.store [] [] []))
    = Some st' /\
    filaments st' = [Sample.acme; Sample.bolt].
Proof.
  intros st.
  destruct (save_then_load Workshop.clock (Sample.env true) (Sample.env true) st
              (set_localStorage (localStorage (saveData (Sample.env true) st).1)
                 (Sample.store [] [] [])))
    as (st' & Hload & Hfs & _).
  - reflexivity.
  - intros f Hf. simpl in Hf.
    repeat (apply elem_of_cons in Hf as [->|Hf];
            [vm_compute; repeat split; discriminate|]).
    apply elem_of_nil in Hf. destruct Hf.
  - intros m Hm. simpl in Hm.
    repeat (apply elem_of_cons in Hm as [->|Hm]; [vm_compute; repeat split|]).
    apply elem_of_nil in Hm. destruct Hm.
  - intros p Hp. simpl in Hp.
    repeat (apply elem_of_cons in Hp as [->|Hp]; [vm_compute; reflexivity|]).
    apply elem_of_nil in Hp. destruct Hp.
  - reflexivity.
  - exists st'. split; [exact Hload|exact Hfs].
Defined.

(** ** Searching and sorting a grid *)

Section GridFacts.
Context `{Host}.

Lemma sort_originalData {Row : Type} `{GridRow Row} (column : string) (g : Grid Row) :
  originalData (EnhancedDataGrid.sort column g).1 = originalData g /\
  sort_column (currentSort (EnhancedDataGrid.sort column g).1) = VStr column.
Proof.
  unfold EnhancedDataGrid.sort.
  destruct (List.find _ (columns g)) as [cfg|]; [|split; reflexivity].
  cbn [visibleData originalData columns itemsPerPage currentSort].
  destruct (sort_r _ (visibleData g)); split; reflexivity.
Qed.

(** A search is always made in the original data.  What the table showed
    before, the result of an earlier search or the order left by a sort,
    has no effect on the rows shown, which come in the original order on
    page 1; the sort column that was recorded stays recorded. *)
Theorem filterRows_restarts (query earlier column : string) (g : Grid Filament) :
  FilamentTable.filterRows query (FilamentTable.filterRows earlier g)
  = FilamentTable.filterRows query g /\
  visibleData (FilamentTable.filterRows query (EnhancedDataGrid.sort column g).1)
  = visibleData (FilamentTable.filterRows query g) /\
  currentPage (FilamentTable.filterRows query (EnhancedDataGrid.sort column g).1) = 1 /\
  sort_column (currentSort (FilamentTable.filterRows query (EnhancedDataGrid.sort column g).1))
  = VStr column.
Proof.
  split; [reflexivity|].
  destruct (sort_originalData column g) as [Ho Hs].
  unfold FilamentTable.filterRows. cbn [visibleData currentPage currentSort].
  rewrite Ho, Hs. auto.
Qed.

(** A header click that needs no comparison succeeds: with at most one
    visible row the rows stay and the grid goes to page 1.  A click on a
    header whose column is not configured throws before anything is
    compared, and the rows and the page stay as they are. *)
Theorem sort_without_comparison {Row : Type} `{GridRow Row} (column : string) (g : Grid Row) :
  (forall cfg, List.find (fun col => String.eqb (key col) column) (columns g) = Some cfg ->
     length (visibleData g) <= 1 ->
     (EnhancedDataGrid.sort column g).2 = Ok tt /\
     visibleData (EnhancedDataGrid.sort column g).1 = visibleData g /\
     currentPage (EnhancedDataGrid.sort column g).1 = 1) /\
  (List.find (fun col => String.eqb (key col) column) (columns g) = None ->
     (exists e, (EnhancedDataGrid.sort column g).2 = Throw e) /\
     visibleData (EnhancedDataGrid.sort column g).1 = visibleData g /\
     currentPage (EnhancedDataGrid.sort column g).1 = currentPage g).
Proof.
  unfold EnhancedDataGrid.sort. split.
  - intros cfg -> Hlen. cbn [visibleData].
    destruct (visibleData g) as [|x [|y l]]; [| |simpl in Hlen; lia]; cbn; auto.
  - intros ->. cbn. eauto.
Qed.

End GridFacts.

Lemma onSearchInput_rows_witness :
  Sample.azure ∈ visibleData (FilamentTable.onSearchInput (H := Sample.host) "AZU"
                                (Sample.grid [Sample.bolt; Sample.azure])).
Proof.
  apply (onSearchInput_rows (H := Sample.host) "AZU"
           (Sample.grid [Sample.bolt; Sample.azure]) Sample.azure).
  - simpl. lia.
  - split; [apply list_elem_of_further, list_elem_of_here|].
    apply includes_spec. reflexivity.
Defined.

(** ** The usage list of the print form *)

Section PrintFormFacts.
Context `{Host}.
Import PrintForm PrintFormEdit.

Lemma remove_imap_delete {A} (index : nat) (l : list A) :
  omap id (imap (fun i x => if negb (i =? index) then Some x else None) l)
  = delete index l.
Proof.
  revert index. induction l as [|x l IH]; intros index; [reflexivity|].
  rewrite imap_cons. destruct index as [|k]; cbn [omap Nat.eqb negb id].
  - cbn. clear IH. f_equal.
    transitivity (omap id (imap (fun _ x => Some x) l)).
    + reflexivity.
    + induction l as [|y l IH]; [reflexivity|].
      rewrite imap_cons. cbn. f_equal. exact IH.
  - cbn. f_equal. exact (IH k).
Qed.

Lemma update_imap_alter {A} (f : A -> A) (index : nat) (l : list A) :
  imap (fun i x => if i =? index then f x else x) l = alter f index l.
Proof.
  revert index. induction l as [|x l IH]; intros index; [reflexivity|].
  rewrite imap_cons. destruct index as [|k]; cbn.
  - f_equal. clear IH. induction l as [|y l IH]; [reflexivity|].
    rewrite imap_cons. cbn. f_equal. exact IH.
  - f_equal. apply IH.
Qed.

(** X24.  Editing the usage list.  An update touches the entry at the index and
    no other, and an index past the end changes nothing; a removal takes
    out the entry at the index and keeps the others in order; adding an
    entry and removing the last one gives back the list. *)
Theorem usage_list_edits (index : nat) (field value id : string) (s : State) :
  length (filamentUsages (updateFilamentUsage index field value s))
  = length (filamentUsages s) /\
  (forall i, i <> index ->
     filamentUsages (updateFilamentUsage index field value s) !! i = filamentUsages s !! i) /\
  filamentUsages (updateFilamentUsage index field value s) !! index
  = set_field field value <$> filamentUsages s !! index /\
  (length (filamentUsages s) <= index -> updateFilamentUsage index field value s = s) /\
  filamentUsages (removeFilamentUsage index s)
  = take index (filamentUsages s) ++ drop (S index) (filamentUsages s) /\
  removeFilamentUsage (length (filamentUsages s)) (addFilamentUsage id s) = s.
Proof.
  unfold updateFilamentUsage, removeFilamentUsage, addFilamentUsage, set_usages.
  cbn [filamentUsages fields selectedModel errors].
  rewrite update_imap_alter, !remove_imap_delete.
  split; [apply length_alter|].
  split; [intros i Hi; apply list_lookup_alter_ne; congruence|].
  split; [apply list_lookup_alter_eq|].
  split.
  - intros Hle. destruct s as [fs us m es]. cbn in *. f_equal.
    apply list_eq. intros i. destruct (decide (i = index)) as [->|Hne].
    + rewrite list_lookup_alter_eq, lookup_ge_None_2 by exact Hle. reflexivity.
    + apply list_lookup_alter_ne. congruence.
  - split; [apply delete_take_drop|].
    destruct s as [fs us m es]. cbn. f_equal.
    rewrite delete_take_drop, take_app_length, drop_ge; [apply app_nil_r|].
    rewrite length_app. simpl. lia.
Qed.

(** Right after a model was chosen the total weight is zero: every usage
    the selection creates has an empty weight. *)
Theorem total_after_selection (fresh : nat -> string) (ms : list Model)
    (value : string) (s : State) :
  calculateTotalWeight (handleInputChange fresh ms "modelId" value s) = Fin 0.
Proof.
  unfold calculateTotalWeight.
  assert (Hzero : forall l : list Usage,
            Forall (fun u => u_actualWeight u = VStr "") l ->
            fold_left (fun total usage => num_add total (usageWeight usage)) l (Fin 0) = Fin 0).
  { induction l as [|u l IH]; intros Hall; [reflexivity|].
    inversion Hall as [|? ? Hu Hl]; subst. cbn [fold_left].
    unfold usageWeight at 2. rewrite Hu.
    replace (parseFloat (VStr "")) with NaN by reflexivity. cbn. apply IH, Hl. }
  apply Hzero.
  unfold handleInputChange. cbn [String.eqb Ascii.eqb Bool.eqb].
  assert (Hpop : forall reqs : list Requirement,
            Forall (fun u => u_actualWeight u = VStr "")
              (imap (fun k req => mkUsage (fresh k) (r_filamentId req)
                                    (r_materialType req) (VStr "")) reqs)).
  { intros reqs. apply Forall_forall. intros u Hu.
    apply list_elem_of_lookup in Hu as [k Hk].
    rewrite list_lookup_imap in Hk.
    destruct (reqs !! k); [|discriminate]. inversion Hk. reflexivity. }
  destruct (js_find _ ms) as [[i [mid mname mlink [reqs|]]]|];
    destruct (0 <? length (errors s)); cbn [filamentUsages]; auto.
Qed.

End PrintFormFacts.

(** ** Deleting models and prints *)

Section DeletingFacts.

Lemma modelReferences_nil id ms :
  (forall m reqs r, m ∈ ms -> requirements m = Some reqs -> r ∈ reqs ->
     strict_eq (r_filamentId r) id = false) ->
  modelReferences id ms = [].
Proof.
  intros Hno. unfold modelReferences.
  induction ms as [|m ms IH]; [reflexivity|]. cbn [flat_map].
  rewrite IH by (intros m' reqs r Hm'; apply Hno, list_elem_of_further, Hm').
  rewrite app_nil_r.
  destruct (requirements m) as [reqs|] eqn:Hreqs; [|reflexivity].
  assert (Hf : List.filter (fun r => strict_eq (r_filamentId r) id) reqs = []).
  { assert (Hall : forall r, r ∈ reqs -> strict_eq (r_filamentId r) id = false)
      by (intros r Hr; exact (Hno m reqs r (list_elem_of_here _ _) Hreqs Hr)).
    clear -Hall. induction reqs as [|r reqs IH]; [reflexivity|]. cbn.
    rewrite (Hall r) by apply list_elem_of_here.
    apply IH. intros r' Hr'. apply Hall, list_elem_of_further, Hr'. }
  rewrite Hf. reflexivity.
Qed.

Lemma filter_nil_all {A} (p : A -> bool) (l : list A) :
  (forall x, x ∈ l -> p x = false) -> List.filter p l = [].
Proof.
  induction l as [|x l IH]; intros Hall; [reflexivity|]. cbn.
  rewrite (Hall x) by apply list_elem_of_here.
  apply IH. intros y Hy. apply Hall, list_elem_of_further, Hy.
Qed.

(** X25.  Neither [deleteModel] nor [deletePrint] has a guard, and they lift the
    one on a filament: once the models that require the filament and the
    print records in its reference set are deleted, the filament itself
    is deleted, not retired. *)
Theorem deletions_unblock_filament (env : Env) (mid pid fid : JSVal) (st : Store)
    (i : nat) (filament : Filament) :
  confirm env = true ->
  js_find (fun f => strict_eq (f_id f) fid) (filaments st) = Some (i, filament) ->
  (forall m reqs r, m ∈ models st -> requirements m = Some reqs -> r ∈ reqs ->
     strict_eq (r_filamentId r) fid = true -> strict_eq (m_id m) mid = true) ->
  (forall p, p ∈ prints st -> printReferencing fid filament p = true ->
     strict_eq (p_id p) pid = true) ->
  let st' := deleteFilament env fid (deletePrint env pid (deleteModel env mid st)) in
  filaments st' = List.filter (fun f => negb (strict_eq (f_id f) fid)) (filaments st) /\
  models st' = List.filter (fun m => negb (strict_eq (m_id m) mid)) (models st) /\
  prints st' = List.filter (fun p => negb (strict_eq (p_id p) pid)) (prints st).
Proof.
  intros Hc Hfind Hreq Hpr st'. subst st'.
  unfold deleteModel, deletePrint. rewrite Hc.
  destruct (saveData_collections env
    (set_models (List.filter (fun m => negb (strict_eq (m_id m) mid)) (models st)) st))
    as (Hf & Hm & Hps & _).
  cbn [filaments models prints set_models] in Hf, Hm, Hps.
  remember (saveData env _).1 as st1 eqn:Est1.
  destruct (saveData_collections env
    (set_prints (List.filter (fun p => negb (strict_eq (p_id p) pid)) (prints st1)) st1))
    as (Hf2 & Hm2 & Hps2 & _).
  cbn [filaments models prints set_prints] in Hf2, Hm2, Hps2.
  remember (saveData env (set_prints _ st1)).1 as st2 eqn:Est2.
  rewrite Hf in Hf2. rewrite Hm in Hm2. rewrite Hps in Hps2.
  unfold deleteFilament. rewrite Hf2, Hm2, Hps2, Hfind.
  rewrite modelReferences_nil.
  - unfold printReferences. rewrite (filter_nil_all (printReferencing fid filament)).
    + cbn [length Nat.ltb Nat.leb orb negb]. rewrite Hc.
      match goal with |- context [saveData env ?s] =>
        destruct (saveData_collections env s) as (-> & -> & -> & _) end.
      cbn. rewrite Hm2, Hps2. auto.
    + intros p Hin. apply list_elem_of_In, filter_In in Hin as [Hin Hne].
      destruct (printReferencing fid filament p) eqn:E; [|reflexivity].
      rewrite (Hpr p (proj2 (list_elem_of_In _ _) Hin) E) in Hne. discriminate.
  - intros m reqs r Hm' Hreqs Hr.
    apply list_elem_of_In, filter_In in Hm' as [Hin Hne].
    destruct (strict_eq (r_filamentId r) fid) eqn:E; [|reflexivity].
    rewrite (Hreq m reqs r (proj2 (list_elem_of_In _ _) Hin) Hreqs Hr E) in Hne.
    discriminate.
Qed.


(** X26.  [saveEditPrint] rewrites the model name, the colour, the weight and
    the date of the print being edited and nothing else: the record keeps
    its id and its list of filament usages, whatever colour is typed, and
    the weight stored is a number that is not NaN.  Every other print,
    the filaments and the models are as before.  When no print has the
    id being edited nothing changes. *)
Theorem saveEditPrint_spec (env : Env) (form : EditPrintForm) (editingPrintId : JSVal)
    (st : Store) :
  let st' := saveEditPrint env form editingPrintId st in
  (js_find (fun x => strict_eq (p_id x) editingPrintId) (prints st) = None -> st' = st) /\
  (forall i p,
     js_find (fun x => strict_eq (p_id x) editingPrintId) (prints st) = Some (i, p) ->
     exists p' w,
       prints st' = <[ i := p' ]> (prints st) /\
       p_id p' = p_id p /\ p_filaments p' = p_filaments p /\
       p_filamentId p' = p_filamentId p /\ p_material p' = p_material p /\
       p_color p' = VStr (trim (editPrintColor form)) /\
       p_weight p' = VNum w /\ isNaN w = false /\
       map p_id (prints st') = map p_id (prints st)) /\
  filaments st' = filaments st /\ models st' = models st.
Proof.
  intros st'. subst st'. unfold saveEditPrint.
  destruct (js_find _ (prints st)) as [[i p]|] eqn:Hfind.
  - destruct (saveData_collections env
      (set_prints (<[i:=editedPrint form p]> (prints st)) st)) as (Hf & Hm & Hp & _).
    split; [discriminate|]. split; [|split; assumption].
    intros i' p' E. inversion E; subst i' p'. clear E.
    apply js_find_Some in Hfind as [Hi _].
    exists (editedPrint form p).
    exists (match parseFloat_str (editPrintWeight form) with
            | NaN => Fin 0
            | Fin q => if Qeq_bool q 0 then Fin 0 else Fin q
            | n => n
            end).
    split; [exact Hp|]. repeat split.
    + cbn [editedPrint p_weight]. unfold js_or.
      destruct (parseFloat_str (editPrintWeight form)) as [| | |q]; cbn; try reflexivity.
      destruct (Qeq_bool q 0); reflexivity.
    + destruct (parseFloat_str (editPrintWeight form)) as [| | |q]; cbn; try reflexivity.
      destruct (Qeq_bool q 0); reflexivity.
    + rewrite Hp. cbn [prints set_prints]. rewrite list_fmap_insert.
      apply list_insert_id. rewrite list_lookup_fmap, Hi. reflexivity.
  - split; [reflexivity|]. split; [discriminate|]. auto.
Qed.

End DeletingFacts.

Lemma deletions_unblock_filament_witness :
  filaments
    (deleteFilament (Sample.env true) (Sample.num 1)
       (deletePrint (Sample.env true) (Sample.num 20)
          (deleteModel (Sample.env true) (Sample.num 10)
             (Sample.store [Sample.acme; Sample.bolt] [Sample.benchy] [Sample.bluePrint]))))
  = [Sample.bolt].
Proof.
  refine (proj1 (deletions_unblock_filament (Sample.env true) (Sample.num 10)
                   (Sample.num 20) (Sample.num 1)
                   (Sample.store [Sample.acme; Sample.bolt] [Sample.benchy]
                      [Sample.bluePrint])
                   0 Sample.acme eq_refl eq_refl _ _)).
  - intros m reqs r Hm _ _ _. simpl in Hm. apply list_elem_of_singleton in Hm.
    subst m. reflexivity.
  - intros p Hp _. simpl in Hp. apply list_elem_of_singleton in Hp.
    subst p. reflexivity.
Defined.

(** ** Looking a filament up by colour and material *)

Section ResolveFacts.

Lemma find_from_r_throws {A} (p : A -> result bool) k pre x post e :
  (forall y, y ∈ pre -> p y = Ok false) -> p x = Throw e ->
  find_from_r p k (pre ++ x :: post) = Throw e.
Proof.
  revert k. induction pre as [|y pre IH]; intros k Hpre Hx; cbn.
  - rewrite Hx. reflexivity.
  - rewrite (Hpre y) by apply list_elem_of_here. cbn.
    apply IH; [|exact Hx]. intros z Hz. apply Hpre, list_elem_of_further, Hz.
Qed.

(** X27.  What [resolveFilamentId] returns is [null] or the id of a filament
    that is in stock and whose colour and legacy material are, trimmed
    and lowercased, those asked for; it is the first such filament of
    the collection: no record before it is in stock with a colour and a
    material that are, trimmed and lowercased, those asked for. *)
Theorem resolveFilamentId_found (color_ material_ v : JSVal) (st : Store) :
  resolveFilamentId color_ material_ st = Ok v ->
  v = VNull \/
  exists i f c m fc fm,
    filaments st !! i = Some f /\ v = f_id f /\ truthy (inStock f) = true /\
    color_ = VStr c /\ material_ = VStr m /\ color f = VStr fc /\ material f = VStr fm /\
    trim (toLowerCase fc) = trim (toLowerCase c) /\
    trim (toLowerCase fm) = trim (toLowerCase m) /\
    forall j g gc gm, j < i -> filaments st !! j = Some g ->
      color g = VStr gc -> material g = VStr gm ->
      ~ (trim (toLowerCase gc) = trim (toLowerCase c) /\
         trim (toLowerCase gm) = trim (toLowerCase m) /\
         truthy (inStock g) = true).
Proof.
  unfold resolveFilamentId.
  destruct (negb (truthy color_) || negb (truthy material_));
    [intros E; inversion E; auto|].
  destruct color_ as [| |?|?|c|?]; try discriminate.
  destruct material_ as [| |?|?|m|?]; try discriminate.
  cbn [call_string_method mbind result_bind].
  destruct (find_from_r _ 0 (filaments st)) as [[[i f]|]|e] eqn:Ef; cbn;
    [|intros E; inversion E; auto|intros E; inversion E].
  intros E. inversion E; subst v. clear E. right.
  apply find_from_r_Some in Ef as (j & Hj & Hi & Hp & Hbefore). simpl in Hj. subst j.
  destruct (color f) as [| |?|?|fc|?] eqn:Hfc; try discriminate.
  cbn in Hp. destruct (String.eqb_spec (trim (toLowerCase fc)) (trim (toLowerCase c)))
    as [Ec|]; [|discriminate].
  destruct (material f) as [| |?|?|fm|?] eqn:Hfm; try discriminate.
  cbn in Hp. destruct (String.eqb_spec (trim (toLowerCase fm)) (trim (toLowerCase m)))
    as [Em|]; [|discriminate].
  injection Hp as Hstock.
  exists i, f, c, m, fc, fm. repeat split; try assumption.
  intros j g gc gm Hlt Hg Hgc Hgm (Egc & Egm & Hgs).
  specialize (Hbefore j g Hlt Hg). rewrite Hgc in Hbefore. cbn in Hbefore.
  rewrite Egc, String.eqb_refl, Hgm in Hbefore. cbn in Hbefore.
  rewrite Egm, String.eqb_refl, Hgs in Hbefore. discriminate Hbefore.
Qed.

(** X28.  A filament made by the form has no legacy [material].  When the
    lookup reaches such a record and its colour is the one asked for, the
    read of [material.toLowerCase] throws: the lookup ends with a
    TypeError, whatever follows in the collection. *)
Theorem resolveFilamentId_throws (c m fc : string) (st : Store)
    (pre post : list Filament) (f : Filament) :
  c <> "" -> m <> "" ->
  filaments st = pre ++ f :: post ->
  (forall g, g ∈ pre -> exists gc, color g = VStr gc /\
                                   trim (toLowerCase gc) <> trim (toLowerCase c)) ->
  color f = VStr fc ->
  trim (toLowerCase fc) = trim (toLowerCase c) ->
  material f = VUndef ->
  exists e, resolveFilamentId (VStr c) (VStr m) st = Throw e.
Proof.
  intros Hc Hm Hfs Hpre Hfc Hsame Hmat. unfold resolveFilamentId.
  cbn [truthy]. rewrite (proj2 (String.eqb_neq c "") Hc), (proj2 (String.eqb_neq m "") Hm).
  cbn [negb orb call_string_method mbind result_bind].
  rewrite Hfs. erewrite find_from_r_throws.
  - cbn. eauto.
  - intros g Hg. destruct (Hpre g Hg) as (gc & -> & Hne). cbn.
    rewrite (proj2 (String.eqb_neq _ _) Hne). reflexivity.
  - rewrite Hfc. cbn. rewrite Hsame, String.eqb_refl, Hmat. reflexivity.
Qed.

End ResolveFacts.

Lemma resolveFilamentId_found_witness :
  exists f, f ∈ [Sample.bolt; Sample.azure] /\ f_id f = Sample.num 4 /\
            truthy (inStock f) = true.
Proof.
  destruct (resolveFilamentId_found (VStr " BLUE") (VStr "petg ") (Sample.num 4)
              (Sample.store [Sample.bolt; Sample.azure] [] []) eq_refl)
    as [E|(i & f & c & m & fc & fm & Hi & Hid & Hstock & _)]; [discriminate E|].
  exists f. split; [eapply list_elem_of_lookup_2, Hi|]. split; [symmetry; exact Hid|exact Hstock].
Defined.

Lemma resolveFilamentId_throws_witness :
  exists e, resolveFilamentId (VStr "blue") (VStr "pla")
              (Sample.store [Sample.bolt; Sample.acme; Sample.azure] [] []) = Throw e.
Proof.
  apply (resolveFilamentId_throws "blue" "pla" "Blue"
           (Sample.store [Sample.bolt; Sample.acme; Sample.azure] [] [])
           [Sample.bolt] [Sample.azure] Sample.acme);
    try reflexivity; try discriminate.
  intros g Hg. apply list_elem_of_singleton in Hg. subst g.
  exists "Red". split; [reflexivity|discriminate].
Defined.

(** ** Importing a file *)

Section ImportFacts.

Lemma addImportedModels_prefix (ms imported : list Model) :
  take (length ms) (addImportedModels ms imported).1 = ms.
Proof.
  revert ms. induction imported as [|m r IH]; intros ms; cbn.
  - apply firstn_all.
  - destruct (some_r (sameName m) ms) as [[]|e]; [apply IH| |apply firstn_all].
    specialize (IH (ms ++ [m])).
    apply (f_equal (take (length ms))) in IH.
    rewrite take_take, length_app, Nat.min_l in IH by lia.
    rewrite IH. apply take_app_length.
Qed.


(** X29.  In the add mode nothing that was in the collections is lost or
    moved, however the import ends: the prints and the models that were
    there are the first of the prints and models afterwards, and so are
    the filaments, each as [ensureFilamentIds] leaves it (a record with a
    non-zero integer id is untouched). *)
Theorem handleImport_add_keeps (clocks : ImportClocks) (env : Env) (file : ImportFile)
    (st : Store) :
  confirm env = false ->
  let st' := (handleImport clocks env file st).1 in
  take (length (prints st)) (prints st') = prints st /\
  take (length (models st)) (models st') = models st /\
  (forall k f, filaments st !! k = Some f ->
     filaments st' !! k = Some f \/
     (lacks_id f = true /\
      filaments st' !! k = Some (set_id (newId (ensureClock clocks k)) f))).
Proof.
  intros Hc st'. subst st'. unfold handleImport. rewrite Hc.
  destruct (negb (0 <? length (filamentsToImport file)) &&
            negb (0 <? length (modelsToImport file)) &&
            negb (0 <? length (printsToImport file))).
  { cbn [fst]. split; [apply firstn_all|]. split; [apply firstn_all|]. auto. }
  set (st1 := if 0 <? length (filamentsToImport file) then _ else st).
  assert (H1 : prints st1 = prints st /\ models st1 = models st /\
               forall k f, filaments st !! k = Some f ->
                 filaments st1 !! k = Some f \/
                 (lacks_id f = true /\
                  filaments st1 !! k = Some (set_id (newId (ensureClock clocks k)) f))).
  { subst st1. destruct (0 <? length (filamentsToImport file)); [|auto].
    match goal with |- context [ensureFilamentIds ?c ?e ?s] =>
      destruct (ensureFilamentIds_filaments c e s) as (-> & -> & ->) end.
    split; [reflexivity|]. split; [reflexivity|].
    intros k f Hk. rewrite list_lookup_imap. cbn [filaments set_filaments].
    rewrite lookup_app_l by (eapply lookup_lt_Some, Hk). rewrite Hk. cbn.
    destruct (lacks_id f); auto. }
  clearbody st1. destruct H1 as (Hp1 & Hm1 & Hf1).
  set (after := if 0 <? length (modelsToImport file) then _ else (st1, None)).
  assert (H2 : prints after.1 = prints st /\
               take (length (models st)) (models after.1) = models st /\
               filaments after.1 = filaments st1).
  { subst after. destruct (0 <? length (modelsToImport file));
      [|cbn; rewrite Hp1, Hm1; split; [reflexivity|split; [apply firstn_all|reflexivity]]].
    destruct (imap_r _ 0 (modelsToImport file)) as [processed|e];
      [|cbn; rewrite Hp1, Hm1; split; [reflexivity|split; [apply firstn_all|reflexivity]]].
    pose proof (addImportedModels_prefix (models st1) processed) as Hpre.
    destruct (addImportedModels (models st1) processed) as [ms err]. cbn in *.
    rewrite <- Hm1. auto. }
  clearbody after. destruct after as [st2 [e|]]; cbn [fst] in *.
  - destruct H2 as (-> & -> & ->). split; [apply firstn_all|]. auto.
  - destruct H2 as (Hp2 & Hm2 & Hf2).
    match goal with |- context [saveData env ?s] =>
      destruct (saveData_collections env s) as (Hf & Hm & Hp & _);
      destruct (saveData env s) as [st4 saved] end.
    assert (E : forall o1 o2 o3 : ImportOutcome,
              (if saved then match tables env with
                             | TablesUpdated => (st4, o1)
                             | TablesThrewEarly e => (st4, o2)
                             | TablesThrewLate e => (st4, o2)
                             end
               else (st4, o3)).1 = st4).
    { intros. destruct saved; [destruct (tables env)|]; reflexivity. }
    cbn [fst] in *. destruct saved; [destruct (tables env)|]; cbn [fst];
      rewrite Hf, Hm, Hp; clear E;
      (destruct (0 <? length (printsToImport file));
         cbn [prints models filaments set_prints];
         [rewrite Hf2, <- Hp2, take_app_length; auto
         |rewrite Hf2, Hp2; split; [apply firstn_all|]; auto]).
Qed.



End ImportFacts.

Lemma handleImport_add_keeps_witness :
  take 1 (models (handleImport Workshop.clocks (Sample.env false) Workshop.importFile
                    (Sample.store [Sample.bolt] [Sample.benchy] [Sample.bluePrint])).1)
  = [Sample.benchy].
Proof.
  exact (proj1 (proj2 (handleImport_add_keeps Workshop.clocks (Sample.env false)
                         Workshop.importFile
                         (Sample.store [Sample.bolt] [Sample.benchy] [Sample.bluePrint])
                         eq_refl))).
Defined.

